(** * TrakSure TCP server: protocol codec, session handling and command dispatch

    A shallow embedding of [protocol-parser.js], [tcp-server.js],
    [device-manager.js], [services/database.service.js], [utils/logger.js]
    and the reconnection loop of the consumer, followed by the properties of
    the connection lifecycle, the codec, the dispatcher, the device manager
    and the logger.

    Conventions of the embedding:
    - a Node [Buffer] is a [list byte]; indices and lengths are [nat];
    - a JavaScript string is a [string]; a JavaScript number that the code
      uses as an integer is a [Z], one that it uses as a real is a binary64
      [float] (the primitive floats are IEEE 754 binary64, as JavaScript's);
    - a call that can throw returns an [outcome];
    - [async] handlers run to completion one after the other, and every
      query of the store succeeds; the wait of [authenticateDevice] for the
      store, during which a socket can close, is modelled apart
      ([authenticateDevice_resume]);
    - time is a number of milliseconds; the only timer among the events of
      the server is the authentication timer of a connection (the periodic
      sweeps of the device manager are functions of the time at which they
      run);
    - the calls of the handlers to the logger are left out; the logger is
      embedded on its own. *)

From Stdlib Require Import ZArith List String Ascii Bool Lia.
From Stdlib.Strings Require Import Byte.
From Stdlib Require Import Floats.
From stdpp Require Import gmap strings list.

Local Open Scope Z_scope.

(** ** Results of calls that may throw *)

Inductive outcome (A : Type) : Type :=
| Returned (a : A)
| Thrown (e : string).
Arguments Returned {A} a.
Arguments Thrown {A} e.

#[global] Instance outcome_ret : MRet outcome := fun _ a => Returned a.
#[global] Instance outcome_bind : MBind outcome := fun _ _ f m =>
  match m with
  | Returned a => f a
  | Thrown e => Thrown e
  end.
#[global] Instance outcome_fmap : FMap outcome := fun _ _ f m =>
  match m with
  | Returned a => Returned (f a)
  | Thrown e => Thrown e
  end.

(** ** Node buffers *)

Abbreviation bytes := (list byte).

Module Buffer.

(** The number stored in a byte, and the byte a number is stored as
    ([ToUint8]: the value modulo 256). *)
Definition toZ (b : byte) : Z := Z.of_N (Byte.to_N b).

Definition ofZ (z : Z) : byte :=
  match Byte.of_N (Z.to_N (z mod 256)) with
  | Some b => b
  | None => x00
  end.

(** [Buffer.alloc(n)]: [n] zero bytes. *)
Definition alloc (n : nat) : bytes := replicate n x00.

(** [buf[i] = v]; an index out of range is ignored. *)
Definition set (i : nat) (v : Z) (buf : bytes) : bytes := <[i := ofZ v]> buf.

(** [buf[i]] where the code has checked that [i] is in range (the
    number there; [0] stands for [undefined] elsewhere), and the test
    [buf[i] === v], which is false out of range. *)
Definition getZ (i : nat) (buf : bytes) : Z := default 0 (toZ <$> buf !! i).

Definition isAt (i : nat) (v : Z) (buf : bytes) : bool :=
  match buf !! i with
  | Some b => toZ b =? v
  | None => false
  end.

(** [buf.slice(s, e)] for non-negative [s] and [e]. *)
Definition slice (s e : nat) (buf : bytes) : bytes := take (e - s) (drop s buf).

(** [buf.slice(s)]. *)
Definition sliceFrom (s : nat) (buf : bytes) : bytes := drop s buf.

(** [data.copy(target, targetStart)]: as many bytes of [data] as fit. *)
Definition copy (data target : bytes) (targetStart : nat) : bytes :=
  let n := Nat.min (length data) (length target - targetStart) in
  take targetStart target ++ take n data ++ drop (targetStart + n) target.

(** [buf.readUInt16BE(off)] and [buf.readUInt32BE(off)]; out of range throws. *)
Definition readUInt16BE (off : nat) (buf : bytes) : outcome Z :=
  match buf !! off, buf !! (off + 1)%nat with
  | Some h, Some l => Returned (toZ h * 256 + toZ l)
  | _, _ => Thrown "RangeError: ERR_OUT_OF_RANGE"
  end.

Definition readUInt32BE (off : nat) (buf : bytes) : outcome Z :=
  match buf !! off, buf !! (off + 1)%nat, buf !! (off + 2)%nat, buf !! (off + 3)%nat with
  | Some a, Some b, Some c, Some d =>
      Returned (((toZ a * 256 + toZ b) * 256 + toZ c) * 256 + toZ d)
  | _, _, _, _ => Thrown "RangeError: ERR_OUT_OF_RANGE"
  end.

(** [buf.writeUInt16BE(v, off)]; a value or an offset out of range throws. *)
Definition writeUInt16BE (v : Z) (off : nat) (buf : bytes) : outcome bytes :=
  if negb ((0 <=? v) && (v <=? 65535)) then Thrown "RangeError: ERR_OUT_OF_RANGE"
  else if negb (off + 2 <=? length buf)%nat then Thrown "RangeError: ERR_OUT_OF_RANGE"
  else Returned (<[(off + 1)%nat := ofZ v]> (<[off := ofZ (v / 256)]> buf)).

(** [Buffer.from(str, "ascii")] on a string of 7-bit characters, and
    [buf.toString("ascii")], which clears the high bit of every byte. *)
Definition fromAscii (s : string) : bytes :=
  map (fun c => ofZ (Z.of_N (N_of_ascii c))) (list_ascii_of_string s).

Definition toAsciiChar (b : byte) : ascii :=
  ascii_of_N (Z.to_N (Z.land (toZ b) 127)).

Definition toStringAscii (buf : bytes) : string :=
  string_of_list_ascii (map toAsciiChar buf).

(** [Buffer.byteLength(str)] on a string of 7-bit characters. *)
Definition byteLength (s : string) : nat := String.length s.

End Buffer.

(** ** JavaScript built-ins used by the parsers *)

Module JS.

Definition hexDigit (d : Z) : ascii :=
  nth (Z.to_nat d) (list_ascii_of_string "0123456789abcdef") "0"%char.

(** [n.toString(16)] for a non-negative integer. *)
Fixpoint toString16_aux (fuel : nat) (n : Z) (acc : string) : string :=
  match fuel with
  | O => acc
  | S fuel' =>
      let acc' := String (hexDigit (n mod 16)) acc in
      if n / 16 =? 0 then acc' else toString16_aux fuel' (n / 16) acc'
  end.

Definition toString16 (n : Z) : string :=
  toString16_aux (S (Z.to_nat (Z.log2 n))) n "".

(** [s.padStart(target, pad)]. *)
Fixpoint repeatTo (n : nat) (pad cur : list ascii) : list ascii :=
  match n with
  | O => []
  | S n' =>
      match cur with
      | c :: cur' => c :: repeatTo n' pad cur'
      | [] =>
          match pad with
          | c :: pad' => c :: repeatTo n' pad pad'
          | [] => []
          end
      end
  end.

Definition padStart (target : nat) (pad : string) (s : string) : string :=
  if (target <=? String.length s)%nat then s
  else
    let p := list_ascii_of_string pad in
    string_of_list_ascii (repeatTo (target - String.length s) p p) +:+ s.

(** [buf.toString("hex")]. *)
Definition toStringHex (buf : bytes) : string :=
  String.concat "" (map (fun b => padStart 2 "0" (toString16 (Buffer.toZ b))) buf).

(** [s.startsWith(p)]. *)
Definition startsWith (s p : string) : bool := String.prefix p s.

(** [s.split(sep)] for a separator of one character. *)
Fixpoint split (sep : ascii) (s : string) : list string :=
  match s with
  | EmptyString => [EmptyString]
  | String c s' =>
      if Ascii.eqb c sep then EmptyString :: split sep s'
      else
        match split sep s' with
        | cur :: rest => String c cur :: rest
        | [] => [String c EmptyString]
        end
  end.

(** White space and line terminators among the 7-bit characters. *)
Definition isWhiteSpace (c : ascii) : bool :=
  let n := Z.of_N (N_of_ascii c) in
  ((9 <=? n) && (n <=? 13)) || (n =? 32).

Fixpoint trimStartL (l : list ascii) : list ascii :=
  match l with
  | c :: l' => if isWhiteSpace c then trimStartL l' else l
  | [] => []
  end.

(** [s.trim()]. *)
Definition trim (s : string) : string :=
  string_of_list_ascii
    (rev (trimStartL (rev (trimStartL (list_ascii_of_string s))))).

(** [s.substring(a, b)] for [a <= b], and [s.substring(a)]. *)
Definition substring (a b : nat) (s : string) : string :=
  String.substring a (b - a) s.

Definition substringFrom (a : nat) (s : string) : string :=
  String.substring a (String.length s - a) s.

(** *** Numerals *)

Definition isDigit (c : ascii) : bool :=
  let n := Z.of_N (N_of_ascii c) in (48 <=? n) && (n <=? 57).

Definition digitValue (radix : Z) (c : ascii) : option Z :=
  let n := Z.of_N (N_of_ascii c) in
  let v :=
    if (48 <=? n) && (n <=? 57) then n - 48
    else if (97 <=? n) && (n <=? 122) then n - 87
    else if (65 <=? n) && (n <=? 90) then n - 55
    else 99 in
  if v <? radix then Some v else None.

(** The longest prefix of digits of the radix, as a number, and how many
    characters it has. *)
Fixpoint digitsPrefix (radix : Z) (l : list ascii) (acc : Z) (n : nat)
  : Z * nat * list ascii :=
  match l with
  | c :: l' =>
      match digitValue radix c with
      | Some v => digitsPrefix radix l' (acc * radix + v) (S n)
      | None => (acc, n, l)
      end
  | [] => (acc, n, [])
  end.

Definition stripSign (l : list ascii) : bool * list ascii :=
  match l with
  | "-"%char :: l' => (true, l')
  | "+"%char :: l' => (false, l')
  | _ => (false, l)
  end.

(** [parseInt(s)] without a radix; [None] is [NaN]. The value is exact,
    which is what the built-in returns below 2^53. *)
Definition parseInt (s : string) : option Z :=
  let l := trimStartL (list_ascii_of_string s) in
  let '(neg, l) := stripSign l in
  let '(radix, l) :=
    match l with
    | "0"%char :: "x"%char :: l' => (16, l')
    | "0"%char :: "X"%char :: l' => (16, l')
    | _ => (10, l)
    end in
  let '(v, n, _) := digitsPrefix radix l 0 O in
  match n with
  | O => None
  | S _ => Some (if neg then - v else v)
  end.

(** The binary64 number nearest to [m * 10^e] (ties to even), for [m >= 0]. *)
Definition decimalToNumber (neg : bool) (m e : Z) : float :=
  match m with
  | Zpos p =>
      let num := (p * Pos.pow 10 (Z.to_pos e))%positive in
      let den := Pos.pow 10 (Z.to_pos (- e)) in
      let num := if 0 <? e then num else p in
      let den := if e <? 0 then den else 1%positive in
      SF2Prim (SFdiv prec emax (S754_finite neg num 0) (S754_finite false den 0))
  | _ => if neg then neg_zero else zero
  end.

(** [parseFloat(s)]: the longest prefix of the trimmed string that is a
    decimal literal, rounded to the nearest number; [nan] when there is none. *)
Definition parseFloat (s : string) : float :=
  let l := trimStartL (list_ascii_of_string s) in
  let '(neg, l) := stripSign l in
  if String.prefix "Infinity" (string_of_list_ascii l)
  then (if neg then neg_infinity else infinity)
  else
    let '(ip, ni, l) := digitsPrefix 10 l 0 O in
    let '(m, nf, l) :=
      match l with
      | "."%char :: l' => digitsPrefix 10 l' ip O
      | _ => (ip, O, l)
      end in
    match ni, nf with
    | O, O => nan
    | _, _ =>
        let ex :=
          match l with
          | c :: l' =>
              if Ascii.eqb c "e" || Ascii.eqb c "E" then
                let '(eneg, l'') := stripSign l' in
                let '(ev, ne, _) := digitsPrefix 10 l'' 0 O in
                match ne with
                | O => 0
                | S _ => if eneg then - ev else ev
                end
              else 0
          | [] => 0
          end in
        decimalToNumber neg m (ex - Z.of_nat nf)
    end.

(** [isNaN(x)]. *)
Definition isNaN (x : float) : bool := PrimFloat.is_nan x.

(** An integer as a number (exact below 2^53, rounded to nearest above). *)
Definition ofInt (z : Z) : float := SF2Prim (binary_normalize prec emax z 0 false).

(** [Math.floor(x)]. *)
Definition Math_floor (x : float) : float :=
  match Prim2SF x with
  | S754_finite s m e =>
      if 0 <=? e then x
      else
        let q := Z.shiftr (Zpos m) (- e) in
        let exact := Z.shiftl q (- e) =? Zpos m in
        if s then ofInt (if exact then - q else - (q + 1))
        else ofInt q
  | _ => x
  end.

(** [n % d] on numbers: the remainder of the truncated division, with the
    sign of the dividend; it is always representable. *)
Definition rem (n d : float) : float :=
  match Prim2SF n, Prim2SF d with
  | S754_nan, _ | _, S754_nan => nan
  | S754_infinity _, _ => nan
  | _, S754_zero _ => nan
  | _, S754_infinity _ => n
  | S754_zero _, _ => n
  | S754_finite sn mn en, S754_finite _ md ed =>
      let e := Z.min en ed in
      let N := Z.shiftl (Zpos mn) (en - e) in
      let D := Z.shiftl (Zpos md) (ed - e) in
      let R := Z.rem N D in
      SF2Prim (binary_normalize prec emax (if sn then - R else R) e sn)
  end.

(** [new Date()] and [new Date(y, m, d, h, mi, s)] (local time); a
    component that is [NaN] ([None]) gives an invalid date. *)
Inductive Date : Type :=
| DateNow
| DateLocal (year month day hour minute second : Z)
| DateInvalid.

Definition newDate (y mo d h mi s : option Z) : Date :=
  match y, mo, d, h, mi, s with
  | Some y, Some mo, Some d, Some h, Some mi, Some s => DateLocal y mo d h mi s
  | _, _, _, _, _, _ => DateInvalid
  end.

End JS.

(** ** What a parser returns *)

(** The [data] object of a successful parse, one constructor per object
    literal of [protocol-parser.js]; the fields are those of the literal. *)
Inductive ParsedData : Type :=
| GPS303Login (raw : string)
| GPS303Location (imei : option string) (latitude longitude speed : float)
    (validity : bool) (timestamp : JS.Date) (raw : string)
| GT06Login (imei : string) (typeId : Z)
| GT06Location (timestamp : JS.Date) (latitude longitude : float)
    (speed course satellites : Z) (gpsFixed : bool)
| GT06Heartbeat (data : bytes)
| GT06Alarm (timestamp : JS.Date) (latitude longitude : float)
    (speed course : Z) (alarmType : string) (alarmCode : Z)
| GT06Response (response : string) (data : bytes)
| GT06Unknown (protocolNumber : Z) (data : bytes)
| TK103Login (imei : string)
| GenericUnknown (hex ascii : string) (length : nat).

(** [{ success: true, data, bytesProcessed }] or [{ success: false, error }]. *)
Inductive ParseResult : Type :=
| Success (data : ParsedData) (bytesProcessed : nat)
| Failure (error : option string).

(** ** GT06 *)

Module GT06Parser.

Definition START_BIT : Z := 0x78.
Definition STOP_BIT : Z := 0x0d.
Definition STOP_BIT2 : Z := 0x0a.

Definition parseIMEI (buffer : bytes) : string :=
  fold_left
    (fun imei b => imei +:+ JS.padStart 2 "0" (JS.toString16 (Buffer.toZ b)))
    buffer "".

Definition parseDateTime (buffer : bytes) : JS.Date :=
  let at_ i := Buffer.toZ <$> buffer !! i in
  JS.newDate ((fun y => 2000 + y) <$> at_ 0%nat) ((fun m => m - 1) <$> at_ 1%nat)
    (at_ 2%nat) (at_ 3%nat) (at_ 4%nat) (at_ 5%nat).

Definition parseCoordinate (buffer : bytes) : outcome float :=
  value ← Buffer.readUInt32BE 0 buffer;
  mret (JS.ofInt value / 1800000)%float.

Definition parseLogin (data : bytes) : outcome ParsedData :=
  if (length data <? 10)%nat then Thrown "Invalid login data length"
  else
    let imei := parseIMEI (Buffer.slice 0 8 data) in
    typeId ← Buffer.readUInt16BE 8 data;
    mret (GT06Login imei typeId).

Definition parseLocation (data : bytes) : outcome ParsedData :=
  if (length data <? 21)%nat then Thrown "Invalid location data length"
  else
    let dateTime := parseDateTime (Buffer.slice 0 6 data) in
    let quantity := Buffer.getZ 6 data in
    latitude ← parseCoordinate (Buffer.slice 7 11 data);
    longitude ← parseCoordinate (Buffer.slice 11 15 data);
    let speed := Buffer.getZ 15 data in
    course ← Buffer.readUInt16BE 16 data;
    mret (GT06Location dateTime latitude longitude speed course
            (Z.land quantity 0x0f) (0 <? Z.land quantity 0x10)).

Definition parseHeartbeat (data : bytes) : outcome ParsedData :=
  mret (GT06Heartbeat data).

Definition alarmMessage (alarmType : Z) : string :=
  if alarmType =? 0 then "Normal"
  else if alarmType =? 1 then "SOS"
  else if alarmType =? 2 then "Power Cut"
  else if alarmType =? 3 then "Vibration"
  else if alarmType =? 4 then "Fence In"
  else if alarmType =? 5 then "Fence Out"
  else if alarmType =? 6 then "Over Speed"
  else "Unknown alarm".

Definition parseAlarm (data : bytes) : outcome ParsedData :=
  if (length data <? 21)%nat then Thrown "Invalid alarm data length"
  else
    let dateTime := parseDateTime (Buffer.slice 0 6 data) in
    latitude ← parseCoordinate (Buffer.slice 7 11 data);
    longitude ← parseCoordinate (Buffer.slice 11 15 data);
    let speed := Buffer.getZ 15 data in
    course ← Buffer.readUInt16BE 16 data;
    let alarmType := Buffer.getZ 18 data in
    mret (GT06Alarm dateTime latitude longitude speed course
            (alarmMessage alarmType) alarmType).

Definition parseCommandResponse (data : bytes) : outcome ParsedData :=
  mret (GT06Response (JS.toStringHex data) data).

Definition parse (buffer : bytes) : outcome ParseResult :=
  if (length buffer <? 5)%nat then mret (Failure (Some "Buffer too small"))
  else if negb (Buffer.isAt 0 START_BIT buffer) || negb (Buffer.isAt 1 START_BIT buffer)
  then mret (Failure (Some "Invalid start bits"))
  else
    let length_ := Z.to_nat (Buffer.getZ 2 buffer) in
    let totalLength := (length_ + 5)%nat in
    if (length buffer <? totalLength)%nat then mret (Failure (Some "Incomplete packet"))
    else if negb (Buffer.isAt (totalLength - 2) STOP_BIT buffer)
            || negb (Buffer.isAt (totalLength - 1) STOP_BIT2 buffer)
    then mret (Failure (Some "Invalid stop bits"))
    else
      let protocolNumber := Buffer.getZ 3 buffer in
      let data := Buffer.slice 4 (3 + length_ - 1) buffer in
      parsedData ←
        (if protocolNumber =? 0x01 then parseLogin data
         else if protocolNumber =? 0x12 then parseLocation data
         else if protocolNumber =? 0x13 then parseHeartbeat data
         else if protocolNumber =? 0x16 then parseAlarm data
         else if protocolNumber =? 0x15 then parseCommandResponse data
         else mret (GT06Unknown protocolNumber data));
      mret (Success parsedData totalLength).

Definition calculateCRC (data : bytes) : Z :=
  Z.land (fold_left (fun crc b => crc + Buffer.toZ b) data 0) 0xffff.

Definition wrapCommand (data : bytes) : outcome bytes :=
  let length_ := (length data + 1)%nat in
  let buffer := Buffer.alloc (length_ + 5) in
  let buffer := Buffer.set 0 START_BIT buffer in
  let buffer := Buffer.set 1 START_BIT buffer in
  let buffer := Buffer.set 2 (Z.of_nat length_) buffer in
  let buffer := Buffer.copy data buffer 3 in
  let crc := calculateCRC (Buffer.slice 2 (3 + length_) buffer) in
  Buffer.writeUInt16BE crc (3 + length_) buffer.

Definition buildLocateCommand : outcome bytes :=
  wrapCommand [x80; x01; x01; x01].

Definition buildRebootCommand : outcome bytes :=
  wrapCommand [x80; x02; x01; x01].

Definition buildEngineCommand (stop : bool) : outcome bytes :=
  let action := if stop then x01 else x00 in
  wrapCommand [x80; x05; x01; action].

Definition buildCommand (command : string) : outcome (option bytes) :=
  if String.eqb command "locate" then Some <$> buildLocateCommand
  else if String.eqb command "reboot" then Some <$> buildRebootCommand
  else if String.eqb command "engine_stop" then Some <$> buildEngineCommand true
  else if String.eqb command "engine_resume" then Some <$> buildEngineCommand false
  else Returned None.

Definition buildAuthResponse (success : bool) : outcome bytes :=
  let response := if success then x01 else x00 in
  wrapCommand [x01; response].

Definition buildLoginResponse (success : bool) : outcome bytes :=
  let response := if success then x01 else x00 in
  wrapCommand [x01; response].

Definition buildLocationAck (sequence : Z) : outcome bytes :=
  wrapCommand [x05; x01; Buffer.ofZ (Z.land sequence 0xff)].

Definition buildHeartbeatResponse : outcome bytes :=
  wrapCommand [x13; x01].

End GT06Parser.


(** ** TK103 *)

Module TK103Parser.

Definition parseTK103Message (message : string) : outcome ParseResult :=
  let parts := JS.split "," message in
  if (length parts <? 2)%nat then mret (Failure (Some "Invalid TK103 message"))
  else
    match parts !! 1%nat with
    | Some part1 =>
        if JS.startsWith part1 "imei:"
        then mret (Success (TK103Login (JS.substringFrom 5 part1))
                     (Buffer.byteLength message))
        else mret (Failure (Some "Unknown TK103 message type"))
    | None => Thrown "TypeError: Cannot read properties of undefined"
    end.

Definition parse (buffer : bytes) : outcome ParseResult :=
  let data := Buffer.toStringAscii buffer in
  if JS.startsWith data "##" then parseTK103Message data
  else mret (Failure (Some "Not TK103 protocol")).

Definition buildCommand (command : string) : option bytes :=
  if String.eqb command "locate"
  then Some (Buffer.fromAscii "**,imei:000000000000000,C,01m;")
  else None.

Definition buildAuthResponse (success : bool) : option bytes :=
  if success then Some (Buffer.fromAscii "LOAD") else None.

Definition buildLoginResponse (success : bool) : option bytes :=
  if success then Some (Buffer.fromAscii "LOAD") else None.

Definition buildLocationAck : option bytes := Some (Buffer.fromAscii "ON").

Definition buildHeartbeatResponse : option bytes := Some (Buffer.fromAscii "ON").

End TK103Parser.

(** ** H02 *)

Module H02Parser.

Definition parse (buffer : bytes) : outcome ParseResult :=
  mret (Failure (Some "H02 parser not implemented yet")).

Definition buildCommand (command : string) : option bytes := None.
Definition buildAuthResponse (success : bool) : option bytes := None.
Definition buildLoginResponse (success : bool) : option bytes := None.
Definition buildLocationAck : option bytes := None.
Definition buildHeartbeatResponse : option bytes := None.

End H02Parser.

(** ** GPS303 *)

Module GPS303Parser.

Definition parseCoordinate (coordStr : string) : float :=
  let coord := JS.parseFloat coordStr in
  if JS.isNaN coord then 0%float
  else
    let degrees := JS.Math_floor (coord / 100)%float in
    let minutes := JS.rem coord 100%float in
    (degrees + minutes / 60)%float.

Definition parseDateTime (date time : string) : JS.Date :=
  let int a b str := JS.parseInt (JS.substring a b str) in
  if String.eqb time "" || String.eqb (JS.trim time) "" then
    if negb (String.eqb date "") && (12 <=? String.length date)%nat then
      JS.newDate ((fun y => 2000 + y) <$> int 0%nat 2%nat date)
        ((fun m => m - 1) <$> int 2%nat 4%nat date)
        (int 4%nat 6%nat date) (int 6%nat 8%nat date)
        (int 8%nat 10%nat date) (int 10%nat 12%nat date)
    else JS.DateNow
  else
    JS.newDate ((fun y => 2000 + y) <$> int 0%nat 2%nat date)
      ((fun m => m - 1) <$> int 2%nat 4%nat date)
      (int 4%nat 6%nat date) (int 0%nat 2%nat time)
      (int 2%nat 4%nat time) (int 4%nat 6%nat time).

(** [parts[i]] of an array that the code has checked to be long enough. *)
Definition part (i : nat) (parts : list string) : string := default "" (parts !! i).

Definition parse (buffer : bytes) : outcome ParseResult :=
  let data := Buffer.toStringAscii buffer in
  if JS.startsWith data "##" then
    mret (Success (GPS303Login data) (length buffer))
  else
    let parts := JS.split "," (JS.trim data) in
    if JS.startsWith data "imei:" && (12 <=? length parts)%nat then
      let imei := JS.split ":" (part 0 parts) !! 1%nat in
      let dateTime := part 2 parts in
      let validity := part 6 parts in
      let latStr := part 7 parts in
      let latDirection := part 8 parts in
      let lonStr := part 9 parts in
      let lonDirection := part 10 parts in
      let speed :=
        if negb (String.eqb (part 11 parts) "") then JS.parseFloat (part 11 parts)
        else 0%float in
      let latitude := parseCoordinate latStr in
      let longitude := parseCoordinate lonStr in
      let finalLat := if String.eqb latDirection "S" then (- latitude)%float else latitude in
      let finalLon := if String.eqb lonDirection "W" then (- longitude)%float else longitude in
      mret (Success
              (GPS303Location imei finalLat finalLon speed (String.eqb validity "A")
                 (parseDateTime dateTime "") data)
              (length buffer))
    else mret (Failure None).

Definition buildLoginResponse : option bytes := Some (Buffer.fromAscii "LOAD").

Definition buildAuthResponse (success : bool) : option bytes :=
  if success then Some (Buffer.fromAscii "LOAD") else None.

Definition buildLocationAck : option bytes := Some (Buffer.fromAscii "ON").

Definition buildHeartbeatResponse : option bytes := Some (Buffer.fromAscii "ON").

End GPS303Parser.

(** ** The generic parser *)

Module GenericParser.

(** [str.replace(/[^\x20-\x7E]/g, ".")]. *)
Definition printable (c : ascii) : ascii :=
  let n := Z.of_N (N_of_ascii c) in
  if (0x20 <=? n) && (n <=? 0x7e) then c else "."%char.

Definition parse (buffer : bytes) : outcome ParseResult :=
  let hex := JS.toStringHex buffer in
  let ascii :=
    string_of_list_ascii
      (map printable (list_ascii_of_string (Buffer.toStringAscii buffer))) in
  mret (Success (GenericUnknown hex ascii (length buffer)) (length buffer)).

Definition buildCommand (command : string) : option bytes :=
  Some (Buffer.fromAscii command).

Definition buildAuthResponse (success : bool) : option bytes :=
  Some (Buffer.fromAscii "OK").

Definition buildLoginResponse (success : bool) : option bytes :=
  Some (Buffer.fromAscii "OK").

Definition buildLocationAck : option bytes := Some (Buffer.fromAscii "ACK").

Definition buildHeartbeatResponse : option bytes := Some (Buffer.fromAscii "PONG").

End GenericParser.

(** ** The multi-protocol parser *)

Inductive Protocol : Type := gps303 | gt06 | tk103 | h02 | generic.

#[global] Instance Protocol_eq_dec : EqDecision Protocol.
Proof. solve_decision. Defined.

Module ProtocolParser.

(** [this.parsers]; [Object.entries] lists the keys in this order. *)
Definition parsers : list Protocol := [gps303; gt06; tk103; h02; generic].

Definition key (p : Protocol) : string :=
  match p with
  | gps303 => "gps303"
  | gt06 => "gt06"
  | tk103 => "tk103"
  | h02 => "h02"
  | generic => "generic"
  end.

(** [this.parsers[name]] for the object's own keys. *)
Definition lookup (name : string) : option Protocol :=
  find (fun p => String.eqb (key p) name) parsers.

Definition defaultParser : string := "gps303".

(** The methods of the five parser classes. [GPS303Parser] has no
    [buildCommand]: calling it throws a [TypeError]. *)
Definition parser_parse (p : Protocol) (buffer : bytes) : outcome ParseResult :=
  match p with
  | gps303 => GPS303Parser.parse buffer
  | gt06 => GT06Parser.parse buffer
  | tk103 => TK103Parser.parse buffer
  | h02 => H02Parser.parse buffer
  | generic => GenericParser.parse buffer
  end.

Definition parser_buildCommand (p : Protocol) (command : string)
  : outcome (option bytes) :=
  match p with
  | gps303 => Thrown "TypeError: parser.buildCommand is not a function"
  | gt06 => GT06Parser.buildCommand command
  | tk103 => mret (TK103Parser.buildCommand command)
  | h02 => mret (H02Parser.buildCommand command)
  | generic => mret (GenericParser.buildCommand command)
  end.

Definition parser_buildAuthResponse (p : Protocol) (success : bool)
  : outcome (option bytes) :=
  match p with
  | gps303 => mret (GPS303Parser.buildAuthResponse success)
  | gt06 => Some <$> GT06Parser.buildAuthResponse success
  | tk103 => mret (TK103Parser.buildAuthResponse success)
  | h02 => mret (H02Parser.buildAuthResponse success)
  | generic => mret (GenericParser.buildAuthResponse success)
  end.

Definition parser_buildLoginResponse (p : Protocol) (success : bool)
  : outcome (option bytes) :=
  match p with
  | gps303 => mret GPS303Parser.buildLoginResponse
  | gt06 => Some <$> GT06Parser.buildLoginResponse success
  | tk103 => mret (TK103Parser.buildLoginResponse success)
  | h02 => mret (H02Parser.buildLoginResponse success)
  | generic => mret (GenericParser.buildLoginResponse success)
  end.

Definition parser_buildLocationAck (p : Protocol) (sequence : Z)
  : outcome (option bytes) :=
  match p with
  | gps303 => mret GPS303Parser.buildLocationAck
  | gt06 => Some <$> GT06Parser.buildLocationAck sequence
  | tk103 => mret TK103Parser.buildLocationAck
  | h02 => mret H02Parser.buildLocationAck
  | generic => mret GenericParser.buildLocationAck
  end.

Definition parser_buildHeartbeatResponse (p : Protocol) : outcome (option bytes) :=
  match p with
  | gps303 => mret GPS303Parser.buildHeartbeatResponse
  | gt06 => Some <$> GT06Parser.buildHeartbeatResponse
  | tk103 => mret TK103Parser.buildHeartbeatResponse
  | h02 => mret H02Parser.buildHeartbeatResponse
  | generic => mret GenericParser.buildHeartbeatResponse
  end.

(** What [parse] returns: the parser's result, with [protocol] added. *)
Record Result : Type := mkResult {
  result : ParseResult;
  protocol_ : option Protocol
}.

(** The loop over the specific parsers: the first success is returned; a
    failure or an exception moves on to the next parser. *)
Fixpoint trySpecific (ps : list Protocol) (buffer : bytes) : option Result :=
  match ps with
  | [] => None
  | p :: ps' =>
      if decide (p = generic) then trySpecific ps' buffer
      else
        match parser_parse p buffer with
        | Returned (Success data n) => Some (mkResult (Success data n) (Some p))
        | Returned (Failure _) | Thrown _ => trySpecific ps' buffer
        end
  end.

Definition parse (buffer : bytes) : Result :=
  match trySpecific parsers buffer with
  | Some r => r
  | None =>
      match parser_parse generic buffer with
      | Returned r => mkResult r (Some generic)
      | Thrown _ => mkResult (Failure (Some "Failed to parse data with any protocol")) None
      end
  end.

(** [protocol ? this.parsers[protocol] : this.parsers[this.defaultParser]];
    [None] is a missing ([null]) argument. *)
Definition select (protocol : option string) : option Protocol :=
  match protocol with
  | Some name => if String.eqb name "" then lookup defaultParser else lookup name
  | None => lookup defaultParser
  end.

Definition buildCommand (command : string) (protocol : option string)
  : outcome (option bytes) :=
  match select protocol with
  | Some p => parser_buildCommand p command
  | None => Thrown "Unknown protocol"
  end.

Definition buildAuthResponse (success : bool) (protocol : option string)
  : outcome (option bytes) :=
  match select protocol with
  | Some p => parser_buildAuthResponse p success
  | None => mret None
  end.

Definition buildLoginResponse (success : bool) (protocol : option string)
  : outcome (option bytes) :=
  match select protocol with
  | Some p => parser_buildLoginResponse p success
  | None => mret None
  end.

Definition buildLocationAck (sequence : Z) (protocol : option string)
  : outcome (option bytes) :=
  match select protocol with
  | Some p => parser_buildLocationAck p sequence
  | None => mret None
  end.

Definition buildHeartbeatResponse (protocol : option string)
  : outcome (option bytes) :=
  match select protocol with
  | Some p => parser_buildHeartbeatResponse p
  | None => mret None
  end.

End ProtocolParser.

(** The fields of a parsed object that the server reads. No parser sets
    [sequence], [message] or [commandId]. *)
Definition data_type (d : ParsedData) : string :=
  match d with
  | GPS303Login _ | GT06Login _ _ | TK103Login _ => "login"
  | GPS303Location _ _ _ _ _ _ _ | GT06Location _ _ _ _ _ _ _ => "location"
  | GT06Heartbeat _ => "heartbeat"
  | GT06Alarm _ _ _ _ _ _ _ => "alarm"
  | GT06Response _ _ => "response"
  | GT06Unknown _ _ | GenericUnknown _ _ _ => "unknown"
  end.

Definition data_protocol (d : ParsedData) : option string :=
  match d with
  | GPS303Login _ | GPS303Location _ _ _ _ _ _ _ => Some "gps303"
  | _ => None
  end.

Definition data_imei (d : ParsedData) : option string :=
  match d with
  | GPS303Location imei _ _ _ _ _ _ => imei
  | GT06Login imei _ | TK103Login imei => Some imei
  | _ => None
  end.

Definition data_latitude (d : ParsedData) : option float :=
  match d with
  | GPS303Location _ lat _ _ _ _ _ | GT06Location _ lat _ _ _ _ _
  | GT06Alarm _ lat _ _ _ _ _ => Some lat
  | _ => None
  end.

Definition data_longitude (d : ParsedData) : option float :=
  match d with
  | GPS303Location _ _ lon _ _ _ _ | GT06Location _ _ lon _ _ _ _
  | GT06Alarm _ _ lon _ _ _ _ => Some lon
  | _ => None
  end.

Definition data_speed (d : ParsedData) : option float :=
  match d with
  | GPS303Location _ _ _ speed _ _ _ => Some speed
  | GT06Location _ _ _ speed _ _ _ | GT06Alarm _ _ _ speed _ _ _ => Some (JS.ofInt speed)
  | _ => None
  end.

Definition data_timestamp (d : ParsedData) : option JS.Date :=
  match d with
  | GPS303Location _ _ _ _ _ ts _ | GT06Location ts _ _ _ _ _ _
  | GT06Alarm ts _ _ _ _ _ _ => Some ts
  | GT06Heartbeat _ | GT06Response _ _ => Some JS.DateNow
  | _ => None
  end.

Definition data_alarmType (d : ParsedData) : option string :=
  match d with
  | GT06Alarm _ _ _ _ _ alarmType _ => Some alarmType
  | _ => None
  end.

Definition data_raw (d : ParsedData) : option string :=
  match d with
  | GPS303Login raw | GPS303Location _ _ _ _ _ _ raw => Some raw
  | _ => None
  end.

Definition data_response (d : ParsedData) : option string :=
  match d with
  | GT06Response response _ => Some response
  | _ => None
  end.

Definition data_sequence (d : ParsedData) : option Z := None.
Definition data_message (d : ParsedData) : option string := None.
Definition data_commandId (d : ParsedData) : option string := None.

(** A string in a condition: [undefined] and the empty string are false. *)
Definition truthy (s : option string) : bool :=
  match s with
  | Some s => negb (String.eqb s "")
  | None => false
  end.

(** [x || 0] on a number: [undefined], [0], [-0] and [NaN] give [0]. *)
Definition orZero (x : option float) : float :=
  match x with
  | Some v => if PrimFloat.is_zero v || PrimFloat.is_nan v then 0%float else v
  | None => 0%float
  end.

(** ** The store *)

(** The tables of [services/database.service.js] that the server touches,
    and what each statement does to them. A time is a number ([N]) of milliseconds.
    Every query is taken to succeed. *)
Module DatabaseService.

Record DeviceRow : Type := mkDeviceRow {
  id : Z;
  active : bool;
  online : bool;
  last_seen : option N;
  last_heartbeat : option N;
  last_login : option N
}.

Record CommandRow : Type := mkCommandRow {
  status : string;
  response : option string;
  error_message : option string;
  sent_at : option N;
  ack_at : option N;
  failed_at : option N;
  updated_at : option N
}.

Record LocationRow : Type := mkLocationRow {
  loc_device_id : option Z;
  loc_latitude : option float;
  loc_longitude : option float;
  loc_speed : float;
  loc_recorded_at : JS.Date
}.

Record AlertRow : Type := mkAlertRow {
  al_device_id : option Z;
  al_alert_type : option string;
  al_message : string;
  al_latitude : option float;
  al_longitude : option float;
  al_triggered_at : JS.Date;
  al_raw_data : option string
}.

(** [devices] is keyed by [imei], [commands] by [id]. *)
Record DB : Type := mkDB {
  devices : gmap string DeviceRow;
  commands : gmap string CommandRow;
  locations : list LocationRow;
  alerts : list AlertRow
}.

(** The third argument of [updateCommandStatus]. *)
Record StatusData : Type := mkStatusData {
  d_response : option string;
  d_error : option string;
  d_sent_at : option N;
  d_ack_at : option N;
  d_failed_at : option N
}.

Definition noData : StatusData := mkStatusData None None None None None.

(** [JSON.stringify(s)] of a string without characters to escape. *)
Definition JSON_stringify (s : string) : string :=
  String (ascii_of_nat 34) (s +:+ String (ascii_of_nat 34) EmptyString).

(** [SELECT ... FROM devices WHERE imei = $1 AND active = true]. *)
Definition getDeviceByImei (imei : option string) (db : DB) : option DeviceRow :=
  match imei ≫= (fun i => devices db !! i) with
  | Some row => if active row then Some row else None
  | None => None
  end.

Definition getDeviceIdByImei (imei : option string) (db : DB) : option Z :=
  id <$> getDeviceByImei imei db.

Definition saveLocation (row : LocationRow) (db : DB) : DB :=
  mkDB (devices db) (commands db) (locations db ++ [row]) (alerts db).

Definition saveAlert (row : AlertRow) (db : DB) : DB :=
  mkDB (devices db) (commands db) (locations db) (alerts db ++ [row]).

(** [UPDATE commands SET status = $2, ..., updated_at = NOW() WHERE id = $1]. *)
Definition updateRow (status : string) (data : StatusData) (now : N)
    (row : CommandRow) : CommandRow :=
  mkCommandRow status
    (if truthy (d_response data) then JSON_stringify <$> d_response data
     else response row)
    (if truthy (d_error data) then d_error data else error_message row)
    (if String.eqb status "sent" || bool_decide (is_Some (d_sent_at data))
     then Some (default now (d_sent_at data)) else sent_at row)
    (if String.eqb status "acknowledged" || bool_decide (is_Some (d_ack_at data))
     then Some (default now (d_ack_at data)) else ack_at row)
    (if String.eqb status "failed" || bool_decide (is_Some (d_failed_at data))
     then Some (default now (d_failed_at data)) else failed_at row)
    (Some now).

Definition updateCommandStatus (commandId : option string) (status : string)
    (data : StatusData) (now : N) (db : DB) : DB :=
  match commandId with
  | Some cid =>
      mkDB (devices db) (alter (updateRow status data now) cid (commands db))
        (locations db) (alerts db)
  | None => db
  end.

Definition updateDevice (imei : option string) (f : DeviceRow -> DeviceRow)
    (db : DB) : DB :=
  match imei with
  | Some i => mkDB (alter f i (devices db)) (commands db) (locations db) (alerts db)
  | None => db
  end.

(** [UPDATE devices SET online = $2, last_seen = CASE WHEN $2 THEN NOW()
    ELSE last_seen END WHERE imei = $1]. *)
Definition setDeviceOnlineStatus (imei : option string) (isOnline : bool)
    (now : N) : DB -> DB :=
  updateDevice imei (fun r =>
    mkDeviceRow (id r) (active r) isOnline
      (if isOnline then Some now else last_seen r)
      (last_heartbeat r) (last_login r)).

Definition updateLastHeartbeat (imei : option string) (now : N) : DB -> DB :=
  updateDevice imei (fun r =>
    mkDeviceRow (id r) (active r) (online r) (last_seen r) (Some now) (last_login r)).

Definition updateLastLogin (imei : option string) (now : N) : DB -> DB :=
  updateDevice imei (fun r =>
    mkDeviceRow (id r) (active r) (online r) (last_seen r) (last_heartbeat r) (Some now)).

End DatabaseService.

(** ** The device manager *)

Module DeviceManager.

(** An entry of the [deviceStatus] cache. *)
Record Status : Type := mkStatus {
  st_online : option bool;
  st_lastSeen : option N;
  st_lastUpdate : option N;
  st_lastHeartbeat : option N;
  st_lastLogin : option N
}.

Definition emptyStatus : Status := mkStatus None None None None None.

(** The cache is a [Map] whose keys are the values of
    [deviceConnection.imei], [null] included. *)
Definition setDeviceOnline (imei : option string) (isOnline : bool) (now : N)
    (st : DatabaseService.DB * gmap (option string) Status)
  : DatabaseService.DB * gmap (option string) Status :=
  (DatabaseService.setDeviceOnlineStatus imei isOnline now st.1,
   <[imei := mkStatus (Some isOnline) (Some now) (Some now) None None]> st.2).

Definition updateLastHeartbeat (imei : option string) (now : N)
    (st : DatabaseService.DB * gmap (option string) Status)
  : DatabaseService.DB * gmap (option string) Status :=
  let status := default emptyStatus (st.2 !! imei) in
  (DatabaseService.updateLastHeartbeat imei now st.1,
   <[imei := mkStatus (Some true) (Some now) (st_lastUpdate status) (Some now)
               (st_lastLogin status)]> st.2).

Definition updateLastLogin (imei : option string) (now : N)
    (st : DatabaseService.DB * gmap (option string) Status)
  : DatabaseService.DB * gmap (option string) Status :=
  let status := default emptyStatus (st.2 !! imei) in
  (DatabaseService.updateLastLogin imei now st.1,
   <[imei := mkStatus (Some true) (Some now) (st_lastUpdate status)
               (st_lastHeartbeat status) (Some now)]> st.2).

(** [now - t] on two dates: the milliseconds between them. *)
Definition since (now t : N) : Z := Z.of_N now - Z.of_N t.

Definition offlineTimeout : Z := 300000.

(** The test of [checkOfflineDevices] on an entry: [status.online &&
    status.lastSeen], and more than [offlineTimeout] since [lastSeen]. *)
Definition timedOut (now : N) (status : Status) : bool :=
  match st_online status, st_lastSeen status with
  | Some true, Some t => offlineTimeout <? since now t
  | _, _ => false
  end.

(** [checkOfflineDevices]: the first loop collects the keys of the entries
    that have timed out, the second one sets each of them offline. *)
Definition checkOfflineDevices (now : N)
    (st : DatabaseService.DB * gmap (option string) Status)
  : DatabaseService.DB * gmap (option string) Status :=
  let offlineDevices :=
    map_fold (fun imei status found => if timedOut now status then imei :: found else found)
      [] st.2 in
  foldr (fun imei st => setDeviceOnline imei false now st) st offlineDevices.

Definition maxAge : Z := 3600000.

(** The test of [cleanupStatusCache] on an entry. *)
Definition expired (now : N) (status : Status) : bool :=
  match st_lastUpdate status with
  | Some t => maxAge <? since now t
  | None => false
  end.

Definition cleanupStatusCache (now : N) (cache : gmap (option string) Status)
  : gmap (option string) Status :=
  map_fold (fun imei status cache => if expired now status then delete imei cache else cache)
    cache cache.

(** [isDeviceOnline]: [None] is [undefined], the [online] of an entry that
    has none. *)
Definition isDeviceOnline (imei : option string) (cache : gmap (option string) Status)
  : option bool :=
  match cache !! imei with
  | Some status => st_online status
  | None => Some false
  end.

End DeviceManager.

(** ** The TCP server *)

Module TCPServer.

Record Socket : Type := mkSocket {
  destroyed : bool;
  closed : bool;
  written : list bytes
}.

(** A [deviceConnection] object, with the [authTimeout] timer that
    [handleConnection] creates next to it ([Some t]: armed, due at [t]). *)
Record DeviceConnection : Type := mkConnection {
  socket : Socket;
  imei : option string;
  authenticated : bool;
  lastSeen : N;
  buffer : bytes;
  authTimeout : option N
}.

(** A message read from [device_commands]. *)
Record CommandMessage : Type := mkMessage {
  m_imei : string;
  m_command : string;
  m_commandId : option string
}.

Record Publication : Type := mkPublication {
  p_queue : string;
  p_type : string;
  p_imei : option string;
  p_device_id : option Z;
  p_data : ParsedData
}.

(** What the consumer tells the broker about a delivery. *)
Inductive Reply : Type := Ack | Nack (requeue : bool).

(** The connection objects live in [connections], by identity;
    [connectedDevices] maps an IMEI to one of them. *)
Record Server : Type := mkServer {
  now : N;
  connections : gmap nat DeviceConnection;
  connectedDevices : gmap string nat;
  database : DatabaseService.DB;
  deviceStatus : gmap (option string) DeviceManager.Status;
  published : list Publication;
  replies : list Reply
}.

(** *** Handlers: state and exceptions *)

Definition M (A : Type) : Type := Server -> outcome A * Server.

Definition ret {A} (a : A) : M A := fun s => (Returned a, s).

Definition bind {A B} (m : M A) (f : A -> M B) : M B := fun s =>
  match m s with
  | (Returned a, s') => f a s'
  | (Thrown e, s') => (Thrown e, s')
  end.

Definition catch {A} (m : M A) (h : string -> M A) : M A := fun s =>
  match m s with
  | (Returned a, s') => (Returned a, s')
  | (Thrown e, s') => h e s'
  end.

Definition lift {A} (o : outcome A) : M A := fun s => (o, s).

Definition get : M Server := fun s => (Returned s, s).

Definition modify (f : Server -> Server) : M unit := fun s => (Returned tt, f s).

Declare Scope handler_scope.
Delimit Scope handler_scope with handler.
Notation "x <- m ;; k" := (bind m (fun x => k))
  (at level 100, m at next level, right associativity) : handler_scope.
Notation "m ;; k" := (bind m (fun _ => k))
  (at level 100, right associativity) : handler_scope.
Local Open Scope handler_scope.

Definition when (b : bool) (m : M unit) : M unit := if b then m else ret tt.

(** *** Access to the state *)

Definition updConnection (c : nat) (f : DeviceConnection -> DeviceConnection)
    (s : Server) : Server :=
  mkServer (now s) (alter f c (connections s)) (connectedDevices s)
    (database s) (deviceStatus s) (published s) (replies s).

Definition updRegistry (f : gmap string nat -> gmap string nat) (s : Server) : Server :=
  mkServer (now s) (connections s) (f (connectedDevices s))
    (database s) (deviceStatus s) (published s) (replies s).

Definition updDatabase (f : DatabaseService.DB -> DatabaseService.DB)
    (s : Server) : Server :=
  mkServer (now s) (connections s) (connectedDevices s)
    (f (database s)) (deviceStatus s) (published s) (replies s).

Definition updManager
    (f : DatabaseService.DB * gmap (option string) DeviceManager.Status ->
         DatabaseService.DB * gmap (option string) DeviceManager.Status)
    (s : Server) : Server :=
  let r := f (database s, deviceStatus s) in
  mkServer (now s) (connections s) (connectedDevices s) r.1 r.2
    (published s) (replies s).

Definition publishToQueue (p : Publication) (s : Server) : Server :=
  mkServer (now s) (connections s) (connectedDevices s)
    (database s) (deviceStatus s) (published s ++ [p]) (replies s).

Definition reply (r : Reply) (s : Server) : Server :=
  mkServer (now s) (connections s) (connectedDevices s)
    (database s) (deviceStatus s) (published s) (replies s ++ [r]).

Definition connection (c : nat) : M DeviceConnection := fun s =>
  match connections s !! c with
  | Some dc => (Returned dc, s)
  | None => (Thrown "no such connection", s)
  end.

Definition setBuffer (b : bytes) (dc : DeviceConnection) : DeviceConnection :=
  mkConnection (socket dc) (imei dc) (authenticated dc) (lastSeen dc) b (authTimeout dc).

Definition setAuthenticated (i : string) (dc : DeviceConnection) : DeviceConnection :=
  mkConnection (socket dc) (Some i) true (lastSeen dc) (buffer dc) (authTimeout dc).

Definition setLastSeen (t : N) (dc : DeviceConnection) : DeviceConnection :=
  mkConnection (socket dc) (imei dc) (authenticated dc) t (buffer dc) (authTimeout dc).

(** [clearTimeout(authTimeout)]. *)
Definition clearTimeout (dc : DeviceConnection) : DeviceConnection :=
  mkConnection (socket dc) (imei dc) (authenticated dc) (lastSeen dc) (buffer dc) None.

Definition setSocket (f : Socket -> Socket) (dc : DeviceConnection) : DeviceConnection :=
  mkConnection (f (socket dc)) (imei dc) (authenticated dc) (lastSeen dc)
    (buffer dc) (authTimeout dc).

(** [socket.write(data)]: nothing is sent on a destroyed socket. *)
Definition socket_write (data : bytes) (k : Socket) : Socket :=
  if destroyed k then k else mkSocket (destroyed k) (closed k) (written k ++ [data]).

Definition socket_destroy (k : Socket) : Socket :=
  mkSocket true (closed k) (written k).

Definition write (c : nat) (data : bytes) : M unit :=
  modify (updConnection c (setSocket (socket_write data))).

Definition destroy (c : nat) : M unit :=
  modify (updConnection c (setSocket socket_destroy)).

Definition writeIfAny (c : nat) (response : option bytes) : M unit :=
  match response with
  | Some data => write c data
  | None => ret tt
  end.

(** *** The handlers of [tcp-server.js] *)

Definition sendAuthResponse (c : nat) (success : bool) : M unit :=
  response <- lift (ProtocolParser.buildAuthResponse success None) ;;
  writeIfAny c response.

Definition sendLocationAck (c : nat) (sequence : Z) : M unit :=
  ack <- lift (ProtocolParser.buildLocationAck sequence None) ;;
  writeIfAny c ack.

Definition authenticateDevice (c : nat) (imei : string) : M unit :=
  catch
    (s <- get ;;
     match DatabaseService.getDeviceByImei (Some imei) (database s) with
     | None => destroy c
     | Some _ =>
         modify (updConnection c (setAuthenticated imei)) ;;
         modify (updRegistry (insert imei c)) ;;
         modify (fun s => updManager (DeviceManager.setDeviceOnline (Some imei) true (now s)) s) ;;
         sendAuthResponse c true
     end)
    (fun _ => destroy c).

(** [authenticateDevice] from the point where the store has answered the
    query of [getDeviceByImei] with [deviceRecord]. The handler waits for the
    answer ([await]): the events that arrive in the meantime are handled
    before it goes on. *)
Definition authenticateDevice_resume (c : nat) (imei : string)
    (deviceRecord : option DatabaseService.DeviceRow) : M unit :=
  catch
    (match deviceRecord with
     | None => destroy c
     | Some _ =>
         modify (updConnection c (setAuthenticated imei)) ;;
         modify (updRegistry (insert imei c)) ;;
         modify (fun s => updManager (DeviceManager.setDeviceOnline (Some imei) true (now s)) s) ;;
         sendAuthResponse c true
     end)
    (fun _ => destroy c).

Definition handleLogin (c : nat) (data : ParsedData) : M unit :=
  dc <- connection c ;;
  modify (fun s => updManager (DeviceManager.updateLastLogin (imei dc) (now s)) s) ;;
  loginResponse <- lift (ProtocolParser.buildLoginResponse true None) ;;
  writeIfAny c loginResponse.

Definition handleLocationData (c : nat) (data : ParsedData) : M unit :=
  catch
    (dc <- connection c ;;
     s <- get ;;
     let deviceId := DatabaseService.getDeviceIdByImei (imei dc) (database s) in
     modify (updDatabase (DatabaseService.saveLocation
       (DatabaseService.mkLocationRow deviceId (data_latitude data)
          (data_longitude data) (orZero (data_speed data))
          (default JS.DateNow (data_timestamp data))))) ;;
     modify (publishToQueue
       (mkPublication "tracker_messages" "location" (imei dc) deviceId data)) ;;
     sendLocationAck c (default 0 (data_sequence data)))
    (fun _ => ret tt).

Definition handleHeartbeat (c : nat) (data : ParsedData) : M unit :=
  dc <- connection c ;;
  modify (fun s => updManager (DeviceManager.updateLastHeartbeat (imei dc) (now s)) s) ;;
  heartbeatResponse <- lift (ProtocolParser.buildHeartbeatResponse None) ;;
  writeIfAny c heartbeatResponse.

Definition handleAlarmData (c : nat) (data : ParsedData) : M unit :=
  catch
    (dc <- connection c ;;
     s <- get ;;
     let deviceId := DatabaseService.getDeviceIdByImei (imei dc) (database s) in
     modify (updDatabase (DatabaseService.saveAlert
       (DatabaseService.mkAlertRow deviceId (data_alarmType data)
          (if truthy (data_message data) then default "" (data_message data)
           else "Alarm triggered")
          (data_latitude data) (data_longitude data)
          (default JS.DateNow (data_timestamp data))
          (if truthy (data_raw data) then data_raw data else None)))) ;;
     modify (publishToQueue
       (mkPublication "device_alerts" "alarm" (imei dc) deviceId data)))
    (fun _ => ret tt).

Definition handleCommandResponse (c : nat) (data : ParsedData) : M unit :=
  catch
    (when (truthy (data_commandId data))
       (modify (fun s => updDatabase
          (DatabaseService.updateCommandStatus (data_commandId data) "acknowledged"
             (DatabaseService.mkStatusData (data_response data) None None
                (Some (now s)) None)
             (now s)) s)))
    (fun _ => ret tt).

Definition handleDeviceData (c : nat) (data : bytes) : M unit :=
  modify (updConnection c (fun dc => setBuffer (buffer dc ++ data) dc)) ;;
  catch
    (dc <- connection c ;;
     let parseResult := ProtocolParser.parse (buffer dc) in
     match ProtocolParser.result parseResult with
     | Failure _ =>
         when (1024 <? length (buffer dc))%nat
           (modify (updConnection c (setBuffer [])))
     | Success parsedData bytesProcessed =>
         modify (updConnection c
           (setBuffer (Buffer.sliceFrom bytesProcessed (buffer dc)))) ;;
         if String.eqb (data_type parsedData) "login"
            && bool_decide (data_protocol parsedData = Some "gps303")
         then write c (Buffer.fromAscii "LOAD")
         else
           when (negb (authenticated dc) && truthy (data_imei parsedData))
             (authenticateDevice c (default "" (data_imei parsedData))) ;;
           dc <- connection c ;;
           if negb (authenticated dc) && negb (String.eqb (data_type parsedData) "login")
           then ret tt
           else if String.eqb (data_type parsedData) "login" then handleLogin c parsedData
           else if String.eqb (data_type parsedData) "location" then handleLocationData c parsedData
           else if String.eqb (data_type parsedData) "heartbeat" then handleHeartbeat c parsedData
           else if String.eqb (data_type parsedData) "alarm" then handleAlarmData c parsedData
           else if String.eqb (data_type parsedData) "response" then handleCommandResponse c parsedData
           else ret tt
     end)
    (fun _ => modify (updConnection c (setBuffer []))).


Definition handleDisconnection (c : nat) : M unit :=
  dc <- connection c ;;
  when (truthy (imei dc))
    (modify (updRegistry (delete (default "" (imei dc)))) ;;
     modify (fun s => updManager (DeviceManager.setDeviceOnline (imei dc) false (now s)) s)).

Definition handleDeviceCommand (message : CommandMessage) : M unit :=
  catch
    (s <- get ;;
     match connectedDevices s !! m_imei message with
     | None =>
         modify (updDatabase
           (DatabaseService.updateCommandStatus (m_commandId message) "failed"
              (DatabaseService.mkStatusData None (Some "Device not connected")
                 None None (Some (now s)))
              (now s)))
     | Some c =>
         commandBuffer <- lift (ProtocolParser.buildCommand (m_command message) None) ;;
         match commandBuffer with
         | None =>
             modify (updDatabase
               (DatabaseService.updateCommandStatus (m_commandId message) "failed"
                  (DatabaseService.mkStatusData None (Some "Invalid command format")
                     None None (Some (now s)))
                  (now s)))
         | Some bytes_ =>
             write c bytes_ ;;
             modify (updDatabase
               (DatabaseService.updateCommandStatus (m_commandId message) "sent"
                  (DatabaseService.mkStatusData None None (Some (now s)) None None)
                  (now s)))
         end
     end)
    (fun _ => ret tt).

(** *** Events *)

(** What happens to the server: a socket is accepted, data arrives on it,
    it closes or fails, time passes, the broker delivers a message
    ([None]: its content is not JSON). *)
Inductive Event : Type :=
| Connection (c : nat)
| SocketData (c : nat) (data : bytes)
| SocketClose (c : nat)
| SocketError (c : nat)
| Elapse (ms : N)
| Deliver (content : option CommandMessage).

Definition run (m : M unit) (s : Server) : Server := (m s).2.

(** [handleConnection]: the new connection object and its 30 s timer. *)
Definition handleConnection (c : nat) (s : Server) : Server :=
  mkServer (now s)
    (<[c := mkConnection (mkSocket false false []) None false (now s) []
             (Some (now s + 30000)%N)]> (connections s))
    (connectedDevices s) (database s) (deviceStatus s) (published s) (replies s).

(** The callback of the timer, for a timer that is due. *)
Definition fireAuthTimeout (t : N) (dc : DeviceConnection) : DeviceConnection :=
  match authTimeout dc with
  | Some due =>
      if (due <=? t)%N then
        let dc := clearTimeout dc in
        if negb (authenticated dc) then setSocket socket_destroy dc else dc
      else dc
  | None => dc
  end.

Definition elapse (ms : N) (s : Server) : Server :=
  let t := (now s + ms)%N in
  mkServer t (fireAuthTimeout t <$> connections s) (connectedDevices s)
    (database s) (deviceStatus s) (published s) (replies s).

Definition step (e : Event) (s : Server) : Server :=
  match e with
  | Connection c =>
      match connections s !! c with
      | Some _ => s
      | None => handleConnection c s
      end
  | SocketData c data =>
      match connections s !! c with
      | Some dc =>
          if destroyed (socket dc) then s
          else
            run (modify (updConnection c clearTimeout) ;;
                 handleDeviceData c data ;;
                 modify (fun s => updConnection c (setLastSeen (now s)) s)) s
      | None => s
      end
  | SocketClose c =>
      match connections s !! c with
      | Some dc =>
          if closed (socket dc) then s
          else
            run (modify (updConnection c
                   (fun dc => clearTimeout (setSocket (fun k => mkSocket true true (written k)) dc))) ;;
                 handleDisconnection c) s
      | None => s
      end
  | SocketError c =>
      match connections s !! c with
      | Some dc =>
          if closed (socket dc) then s
          else
            run (modify (updConnection c (fun dc => clearTimeout (setSocket socket_destroy dc))) ;;
                 handleDisconnection c) s
      | None => s
      end
  | Elapse ms => elapse ms s
  | Deliver None => reply (Nack false) s
  | Deliver (Some message) => reply Ack (run (handleDeviceCommand message) s)
  end.

Definition steps (es : list Event) (s : Server) : Server :=
  fold_left (fun s e => step e s) es s.

(** [stop]: the socket of every connection in the registry is destroyed
    and the registry is cleared. *)
Definition stop (s : Server) : Server :=
  updRegistry (fun _ => ∅)
    (map_fold (fun _ c s => updConnection c (setSocket socket_destroy) s) s
       (connectedDevices s)).

End TCPServer.

(** ** The logger *)

(** [utils/logger.js], without the formatting of a record and the files:
    a logger is its level and the records it has emitted. *)
Module Logger.

(** What [this.levels[name]] evaluates to: the number of one of the four
    levels, a property that the object inherits from [Object.prototype]
    (a function or an object, which is true in a condition and compares as
    [NaN]), or [undefined]. *)
Inductive LevelValue : Type :=
| Number (n : Z)
| Inherited
| Undefined.

Definition inherited : list string :=
  ["constructor"; "__defineGetter__"; "__defineSetter__"; "hasOwnProperty";
   "__lookupGetter__"; "__lookupSetter__"; "isPrototypeOf"; "propertyIsEnumerable";
   "toString"; "valueOf"; "__proto__"; "toLocaleString"].

Definition levels (name : string) : LevelValue :=
  if String.eqb name "error" then Number 0
  else if String.eqb name "warn" then Number 1
  else if String.eqb name "info" then Number 2
  else if String.eqb name "debug" then Number 3
  else if existsb (String.eqb name) inherited then Inherited
  else Undefined.

(** [a || b] and [a > b] on such values. *)
Definition orElse (a b : LevelValue) : LevelValue :=
  match a with
  | Number n => if n =? 0 then b else a
  | Inherited => a
  | Undefined => b
  end.

Definition gt (a b : LevelValue) : bool :=
  match a, b with
  | Number x, Number y => y <? x
  | _, _ => false
  end.

Record Logger : Type := mkLogger {
  logLevel : string;
  currentLevel : LevelValue;
  emitted : list (string * string)
}.

(** The constructor: [options.logLevel || process.env.LOG_LEVEL || "info"],
    and [this.levels[this.logLevel] || this.levels.info]. *)
Definition new (optionsLogLevel envLogLevel : option string) : Logger :=
  let logLevel :=
    if truthy optionsLogLevel then default "" optionsLogLevel
    else if truthy envLogLevel then default "" envLogLevel
    else "info" in
  mkLogger logLevel (orElse (levels logLevel) (levels "info")) [].

Definition log (level message : string) (l : Logger) : Logger :=
  let levelNum := levels level in
  match levelNum with
  | Undefined => l
  | _ =>
      if gt levelNum (currentLevel l) then l
      else mkLogger (logLevel l) (currentLevel l) (emitted l ++ [(level, message)])
  end.

Definition error (message : string) : Logger -> Logger := log "error" message.
Definition warn (message : string) : Logger -> Logger := log "warn" message.
Definition info (message : string) : Logger -> Logger := log "info" message.
Definition debug (message : string) : Logger -> Logger := log "debug" message.

Definition setLogLevel (level : string) (l : Logger) : Logger :=
  match levels level with
  | Undefined => warn ("Invalid log level: " +:+ level) l
  | value => info ("Log level changed to: " +:+ level) (mkLogger level value (emitted l))
  end.

(** A file of the log directory: its name and the time of its last
    modification. *)
Record File : Type := mkFile {
  name : string;
  mtime : Z
}.

(** [s.endsWith(p)]. *)
Definition endsWith (s p : string) : bool :=
  (String.length p <=? String.length s)%nat
  && String.eqb (JS.substringFrom (String.length s - String.length p) s) p.

Definition isLogFile (file : string) : bool :=
  JS.startsWith file "tcp-server-" && endsWith file ".log".

(** [files.sort((a, b) => b.stats.mtime - a.stats.mtime)]: the newest file
    first; the sort is stable. *)
Fixpoint insertByMtime (f : File) (sorted : list File) : list File :=
  match sorted with
  | [] => [f]
  | g :: sorted' =>
      if mtime g <=? mtime f then f :: sorted else g :: insertByMtime f sorted'
  end.

Definition sortByMtime (files : list File) : list File :=
  foldr insertByMtime [] files.

(** [fs.unlinkSync] of a file of the directory. *)
Definition unlink (file : string) (dir : list File) : list File :=
  List.filter (fun f => negb (String.eqb (name f) file)) dir.

(** [cleanOldLogs], on the files of the log directory; [maxLogFiles] is
    [options.maxLogFiles || 5]. *)
Definition cleanOldLogs (maxLogFiles : nat) (dir : list File) : list File :=
  let files := sortByMtime (List.filter (fun f => isLogFile (name f)) dir) in
  if (maxLogFiles <? length files)%nat then
    let filesToDelete := drop maxLogFiles files in
    fold_left (fun dir file => unlink (name file) dir) filesToDelete dir
  else dir.

End Logger.

(** ** The consumer of commands that runs beside the server *)

Module Consumer.

(** How a run of the consumer ends: its connection to the broker closes,
    or it fails. *)
Inductive Run : Type := Closed | Failed.

(** The loop of [start], for the runs that have ended so far: the delay
    before each reconnection. *)
Fixpoint delays (runs : list Run) (backoff : Z) : list Z :=
  match runs with
  | [] => []
  | run :: runs' =>
      let backoff := match run with Closed => 1000 | Failed => backoff end in
      backoff :: delays runs' (Z.min (backoff * 2) 30000)
  end.

Definition start (runs : list Run) : list Z := delays runs 1000.

End Consumer.

(** * The statements of the specification *)

(** The GT06 frame of the specification for a payload [data]:
    [0x78 0x78 | len = datalen + 1 | data | crc(2) | 0x0D 0x0A]. *)
Definition referenceFrame (data : bytes) (crc1 crc2 : byte) : bytes :=
  [x78; x78; Buffer.ofZ (Z.of_nat (length data + 1))] ++ data ++ [crc1; crc2; x0d; x0a].

(** A byte as two hexadecimal digits, the leading zero kept. *)
Definition hexByte (b : byte) : string :=
  String (JS.hexDigit (Buffer.toZ b / 16))
    (String (JS.hexDigit (Buffer.toZ b mod 16)) EmptyString).

Definition hexBytes (buf : bytes) : string :=
  foldr (fun b s => hexByte b +:+ s) EmptyString buf.

(** The specific parsers, in the order in which [parse] tries them. *)
Definition specific : list Protocol := [gps303; gt06; tk103; h02].

(** A parser accepts a buffer when its [parse] returns a success. *)
Definition accepts (p : Protocol) (buffer : bytes) : Prop :=
  exists data n, ProtocolParser.parser_parse p buffer = Returned (Success data n).

(** The decoding of a GPS303 coordinate [DDMM.MMMM]:
    [int(x/100) + (x mod 100)/60], and the sign of a hemisphere. *)
Definition decimalDegrees (x : float) : float :=
  (JS.Math_floor (x / 100) + JS.rem x 100 / 60)%float.

Definition coordinate (field : string) : float :=
  let x := JS.parseFloat field in
  if JS.isNaN x then 0%float else decimalDegrees x.

Definition hemisphere (negative direction : string) (v : float) : float :=
  if String.eqb direction negative then (- v)%float else v.

(** The number written by two decimal digits. *)
Definition digit (c : ascii) : Z := Z.of_N (N_of_ascii c) - 48.

Definition twoDigits (a b : ascii) : Z := 10 * digit a + digit b.

(** A store with one active device and one pending command, a server that
    has just started on it, and frames of the protocols. *)
Module Scenario.

Definition imei : string := "0359710045490084".

Definition store : DatabaseService.DB :=
  DatabaseService.mkDB
    {[ imei := DatabaseService.mkDeviceRow 7 true false None None None ]}
    {[ "c2" := DatabaseService.mkCommandRow "pending" None None None None None None ]}
    [] [].

Definition server : TCPServer.Server :=
  TCPServer.mkServer 0%N ∅ ∅ store ∅ [] [].

(** A GT06 login of the device: length 12, protocol 1, the IMEI in eight
    bytes, a type identifier, one more byte and the stop bytes. *)
Definition gt06Login : bytes :=
  [x78; x78; x0c; x01; x03; x59; x71; x00; x45; x49; x00; x84; x50; x00; x00; x0d; x0a].

(** The same login in two segments: the first five bytes, then the rest. *)
Definition gt06Prefix : bytes := [x78; x78; x0c; x01; x03].

Definition gt06Rest : bytes :=
  [x59; x71; x00; x45; x49; x00; x84; x50; x00; x00; x0d; x0a].

Definition gps303Login : bytes := Buffer.fromAscii "##,imei:359710045490084,A;".

Definition gps303Position : bytes :=
  Buffer.fromAscii
    "imei:359710045490084,tracker,250101120000,,F,120000.000,A,2230.0000,S,04310.0000,W,42.5,...".

(** The same position with a date that is not twelve digits. *)
Definition gps303Undated : bytes :=
  Buffer.fromAscii
    "imei:359710045490084,tracker,25/01/01 12:00,,F,120000.000,A,2230.0000,S,04310.0000,W,42.5,...".

End Scenario.

(** The parsers that [parse] has tried and seen fail when it returns the
    result of [p]. *)
Definition triedBefore (p : Protocol) : list Protocol :=
  match p with
  | gps303 => []
  | gt06 => [gps303]
  | tk103 => [gps303; gt06]
  | h02 => [gps303; gt06; tk103]
  | generic => [gps303; gt06; tk103; h02]
  end.

(** The two acknowledgements of the GPS303 parser. *)
Definition gps303Ack (w : bytes) : Prop :=
  w = Buffer.fromAscii "LOAD" \/ w = Buffer.fromAscii "ON".

(** What the handling of a segment may do to a connection object besides
    changing its buffer, its identity and the state of its socket: the timer
    stays as it is and the socket is written acknowledgements of GPS303 only. *)
Definition acked (dc dc' : TCPServer.DeviceConnection) : Prop :=
  TCPServer.authTimeout dc' = TCPServer.authTimeout dc
  /\ TCPServer.closed (TCPServer.socket dc') = TCPServer.closed (TCPServer.socket dc)
  /\ exists ws,
       TCPServer.written (TCPServer.socket dc')
         = TCPServer.written (TCPServer.socket dc) ++ ws
       /\ Forall gps303Ack ws.

Definition quiet (s s' : TCPServer.Server) : Prop :=
  TCPServer.now s' = TCPServer.now s
  /\ forall c, option_Forall2 acked (TCPServer.connections s !! c)
                 (TCPServer.connections s' !! c).

(** A handler keeps a relation when the state it leaves is related to the
    state it started from, whether it returns or throws. *)
Definition keeps (R : relation TCPServer.Server) {A : Type} (m : TCPServer.M A) : Prop :=
  forall s, R s (m s).2.



(** The claim on displacement as the specification states it: when [b]
    authenticates with the IMEI under which [a] is registered, the socket of
    [a] is closed, the registry maps the IMEI to [b] and the device is online. *)
Definition displacement_closes_older : Prop :=
  forall s a b imei,
    a <> b ->
    TCPServer.connectedDevices s !! imei = Some a ->
    is_Some (TCPServer.connections s !! a) ->
    is_Some (TCPServer.connections s !! b) ->
    is_Some (DatabaseService.getDeviceByImei (Some imei) (TCPServer.database s)) ->
    let s' := TCPServer.run (TCPServer.authenticateDevice b imei) s in
    (exists dc, TCPServer.connections s' !! a = Some dc
                /\ TCPServer.destroyed (TCPServer.socket dc) = true)
    /\ TCPServer.connectedDevices s' !! imei = Some b
    /\ (DatabaseService.online <$> DatabaseService.devices (TCPServer.database s') !! imei)
         = Some true.

(** The transitions of a command that the specification allows. *)
Definition allowed (old new : string) : Prop :=
  (old = "pending" /\ (new = "sent" \/ new = "failed"))
  \/ (old = "sent" /\ (new = "acknowledged" \/ new = "failed")).

(** The claim on command rows as the specification states it: a write of a
    status leaves the row where it is or moves it along an allowed transition. *)
Definition status_monotonic : Prop :=
  forall db cid status data now row row',
    DatabaseService.commands db !! cid = Some row ->
    DatabaseService.commands
      (DatabaseService.updateCommandStatus (Some cid) status data now db) !! cid
      = Some row' ->
    DatabaseService.status row' = DatabaseService.status row
    \/ allowed (DatabaseService.status row) (DatabaseService.status row').

(** ** Frames and checksums of GT06 *)

(** The sum of the numbers stored in the bytes of a buffer. *)
Definition byteSum (data : bytes) : Z :=
  foldr (fun b sum => Buffer.toZ b + sum) 0 data.

(** A buffer that begins with a GT06 frame: the two start bytes, a length
    byte [len], at least [len + 5] bytes, and the two stop bytes at
    [len + 3]. *)
Definition gt06Framed (buffer : bytes) : Prop :=
  let len := Z.to_nat (Buffer.getZ 2 buffer) in
  take 2 buffer = [x78; x78]
  /\ (len + 5 <= length buffer)%nat
  /\ Buffer.slice (len + 3) (len + 5) buffer = [x0d; x0a].

(** The frames that the GT06 encoder can build: a command, or one of the
    four acknowledgements. *)
Definition gt06Encoded (frame : bytes) : Prop :=
  (exists command, GT06Parser.buildCommand command = Returned (Some frame))
  \/ (exists success, GT06Parser.buildAuthResponse success = Returned frame)
  \/ (exists success, GT06Parser.buildLoginResponse success = Returned frame)
  \/ (exists sequence, GT06Parser.buildLocationAck sequence = Returned frame)
  \/ GT06Parser.buildHeartbeatResponse = Returned frame.

(** A character between the space and the tilde. *)
Definition isPrintable (c : ascii) : Prop :=
  0x20 <= Z.of_N (N_of_ascii c) <= 0x7e.

(** ** Sessions and the registry *)

(** Every entry of the registry has a key that is not empty and belongs to
    a connection object that exists, is authenticated, carries the IMEI of
    the entry and whose socket has not been destroyed. *)
Definition registryOwned (s : TCPServer.Server) : Prop :=
  forall imei c,
    TCPServer.connectedDevices s !! imei = Some c ->
    imei <> ""
    /\ exists dc,
         TCPServer.connections s !! c = Some dc
         /\ TCPServer.authenticated dc = true
         /\ TCPServer.imei dc = Some imei
         /\ TCPServer.destroyed (TCPServer.socket dc) = false.

(** What the handlers of the events leave of a connection object: its
    identity, its buffer, and whether its socket is destroyed. *)
Definition sameSession (dc dc' : TCPServer.DeviceConnection) : Prop :=
  TCPServer.imei dc' = TCPServer.imei dc
  /\ TCPServer.authenticated dc' = TCPServer.authenticated dc
  /\ TCPServer.buffer dc' = TCPServer.buffer dc
  /\ TCPServer.destroyed (TCPServer.socket dc')
     = TCPServer.destroyed (TCPServer.socket dc).

(** What the handlers of the events leave of the server: the registry, the
    commands of the store, the replies to the broker, and the sessions. *)
Definition settled (s s' : TCPServer.Server) : Prop :=
  TCPServer.connectedDevices s' = TCPServer.connectedDevices s
  /\ DatabaseService.commands (TCPServer.database s')
     = DatabaseService.commands (TCPServer.database s)
  /\ TCPServer.replies s' = TCPServer.replies s
  /\ forall c, option_Forall2 sameSession (TCPServer.connections s !! c)
                 (TCPServer.connections s' !! c).

(** A handler completes for a connection when, started in a state that
    holds the connection, it returns, and leaves a state related to the one it
    started from. *)
Definition completes (c : nat) (R : relation TCPServer.Server) {A : Type}
    (m : TCPServer.M A) : Prop :=
  forall s,
    is_Some (TCPServer.connections s !! c) ->
    (exists a, (m s).1 = Returned a) /\ R s (m s).2.

(** A delivery that names the command [cid], for an IMEI that is not in the
    registry. *)
Definition undeliverable (e : TCPServer.Event) (s : TCPServer.Server) (cid : string)
  : bool :=
  match e with
  | TCPServer.Deliver (Some m) =>
      bool_decide (TCPServer.m_commandId m = Some cid)
      && bool_decide (TCPServer.connectedDevices s !! TCPServer.m_imei m = None)
  | _ => false
  end.

(** ** The sweeps of the device manager *)

(** The entry that [setDeviceOnline] writes for a device set offline at
    [now], and what it does to the row of the device. *)
Definition offlineStatus (now : N) : DeviceManager.Status :=
  DeviceManager.mkStatus (Some false) (Some now) (Some now) None None.

Definition offlineRow (r : DatabaseService.DeviceRow) : DatabaseService.DeviceRow :=
  DatabaseService.mkDeviceRow (DatabaseService.id r) (DatabaseService.active r) false
    (DatabaseService.last_seen r) (DatabaseService.last_heartbeat r)
    (DatabaseService.last_login r).

(** ** The files of the log directory *)

(** A list of files in which no file is newer than one before it. *)
Fixpoint newestFirst (files : list Logger.File) : Prop :=
  match files with
  | [] => True
  | f :: files' =>
      Forall (fun g => Logger.mtime g <= Logger.mtime f) files' /\ newestFirst files'
  end.

(** * Properties *)

(** ** Buffers and bytes *)

Lemma ofZ_toZ (b : byte) : Buffer.ofZ (Buffer.toZ b) = b.
Proof.
  unfold Buffer.ofZ, Buffer.toZ.
  pose proof (Byte.to_N_bounded b) as Hb.
  rewrite Z.mod_small by lia.
  rewrite N2Z.id. by rewrite Byte.of_to_N.
Qed.

Lemma toZ_range (b : byte) : 0 <= Buffer.toZ b < 256.
Proof. unfold Buffer.toZ. pose proof (Byte.to_N_bounded b). lia. Qed.

Lemma calculateCRC_range (data : bytes) : 0 <= GT06Parser.calculateCRC data <= 65535.
Proof.
  unfold GT06Parser.calculateCRC.
  change 0xffff with (Z.ones 16). rewrite Z.land_ones by lia.
  change (2 ^ 16) with 65536. change (Z.ones 16) with 65535.
  pose proof (Z.mod_pos_bound (fold_left (fun crc b => crc + Buffer.toZ b) data 0) 65536
                ltac:(lia)).
  lia.
Qed.

(** ** The GT06 encoder *)

(** What [wrapCommand] builds: the two start bytes, the length byte
    [data.length + 1], the data, one zero byte, and the additive checksum of
    the length byte, the data and the zero byte. Nothing follows the checksum. *)
Lemma wrapCommand_layout (data : bytes) :
  let len := Buffer.ofZ (Z.of_nat (length data + 1)) in
  let crc := GT06Parser.calculateCRC (len :: data ++ [x00]) in
  GT06Parser.wrapCommand data =
    Returned (x78 :: x78 :: len :: data ++ [x00; Buffer.ofZ (crc / 256); Buffer.ofZ crc]).
Proof.
  intros len crc. unfold GT06Parser.wrapCommand.
  set (n := length data) in *.
  replace (n + 1 + 5)%nat with (3 + (n + 3))%nat by lia.
  unfold Buffer.alloc. rewrite replicate_add.
  change (replicate 3 x00) with [x00; x00; x00].
  unfold Buffer.set. cbn [app insert list_insert].
  change (Buffer.ofZ GT06Parser.START_BIT) with x78. fold len.
  assert (Hcopy : Buffer.copy data (x78 :: x78 :: len :: replicate (n + 3) x00) 3
                  = x78 :: x78 :: len :: data ++ [x00; x00; x00]).
  { unfold Buffer.copy. cbn [length]. rewrite length_replicate. fold n.
    replace (Nat.min n (S (S (S (n + 3))) - 3)) with n by lia.
    cbn [firstn app]. rewrite (take_ge data n) by (subst n; lia).
    replace (3 + n)%nat with (S (S (S n))) by lia. cbn [skipn].
    rewrite drop_replicate. by replace (n + 3 - n)%nat with 3%nat by lia. }
  rewrite Hcopy.
  assert (Hslice : Buffer.slice 2 (3 + (n + 1)) (x78 :: x78 :: len :: data ++ [x00; x00; x00])
                   = len :: data ++ [x00]).
  { unfold Buffer.slice. cbn [skipn].
    replace (3 + (n + 1) - 2)%nat with (S (n + 1)) by lia. cbn [firstn]. f_equal.
    rewrite take_app_ge by (subst n; lia). fold n.
    by replace (n + 1 - n)%nat with 1%nat by lia. }
  rewrite Hslice. fold crc.
  unfold Buffer.writeUInt16BE.
  pose proof (calculateCRC_range (len :: data ++ [x00])) as Hcrc. fold crc in Hcrc.
  replace ((0 <=? crc) && (crc <=? 65535)) with true
    by (symmetry; apply andb_true_intro; split; [apply Z.leb_le | apply Z.leb_le]; lia).
  cbn [negb length]. rewrite length_app. cbn [length]. fold n.
  replace (3 + (n + 1) + 2 <=? S (S (S (n + 3))))%nat with true
    by (symmetry; apply Nat.leb_le; lia).
  cbn [negb]. f_equal.
  change (x78 :: x78 :: len :: data ++ [x00; x00; x00])
    with ((x78 :: x78 :: len :: data) ++ [x00; x00; x00]).
  rewrite insert_app_r_alt by (cbn [length]; subst n; lia).
  rewrite insert_app_r_alt by (cbn [length]; subst n; lia).
  cbn [length]. fold n.
  replace (3 + (n + 1) - S (S (S n)))%nat with 1%nat by lia.
  replace (3 + (n + 1) + 1 - S (S (S n)))%nat with 2%nat by lia.
  reflexivity.
Qed.

(** The frame of the specification is one byte longer than what
    [wrapCommand] returns, whatever the payload and the checksum bytes. *)
Lemma wrapCommand_not_reference (data : bytes) (crc1 crc2 : byte) :
  GT06Parser.wrapCommand data <> Returned (referenceFrame data crc1 crc2).
Proof.
  rewrite wrapCommand_layout. intros H. injection H as H.
  apply (f_equal length) in H. unfold referenceFrame in H.
  cbn [length app] in H. rewrite !length_app in H. cbn [length] in H. lia.
Qed.

(** C1 (the code departs from the claim): [engine_stop] is encoded as the ten
    bytes [78 78 05 80 05 01 01 00 00 8C]: after the payload comes a zero
    byte and the checksum, and no [0D 0A]. It is not the frame
    [78 78 05 80 05 01 01 crc crc 0D 0A] of the specification for any
    checksum, and the GT06 decoder of the same class rejects it for its stop
    bytes. *)
Theorem gt06_engine_stop_encoding :
  GT06Parser.buildCommand "engine_stop"
    = Returned (Some [x78; x78; x05; x80; x05; x01; x01; x00; x00; x8c])
  /\ (forall crc1 crc2 : byte,
        GT06Parser.buildCommand "engine_stop"
          <> Returned (Some (referenceFrame [x80; x05; x01; x01] crc1 crc2)))
  /\ GT06Parser.parse [x78; x78; x05; x80; x05; x01; x01; x00; x00; x8c]
       = Returned (Failure (Some "Invalid stop bits")).
Proof.
  split; [reflexivity | split; [| reflexivity]].
  intros crc1 crc2 H. discriminate H.
Qed.

(** The other outputs of the GT06 encoder have the same layout. *)
Lemma gt06_encoder_outputs :
  GT06Parser.buildCommand "locate"
    = Returned (Some [x78; x78; x05; x80; x01; x01; x01; x00; x00; x88])
  /\ GT06Parser.buildCommand "reboot"
    = Returned (Some [x78; x78; x05; x80; x02; x01; x01; x00; x00; x89])
  /\ GT06Parser.buildCommand "engine_resume"
    = Returned (Some [x78; x78; x05; x80; x05; x01; x00; x00; x00; x8b])
  /\ GT06Parser.buildLoginResponse true
    = Returned [x78; x78; x03; x01; x01; x00; x00; x05]
  /\ GT06Parser.buildAuthResponse true
    = Returned [x78; x78; x03; x01; x01; x00; x00; x05]
  /\ GT06Parser.buildHeartbeatResponse
    = Returned [x78; x78; x03; x13; x01; x00; x00; x17]
  /\ GT06Parser.buildLocationAck 0x1234
    = Returned [x78; x78; x04; x05; x01; x34; x00; x00; x3e].
Proof. repeat split; reflexivity. Qed.

(** ** The IMEI of a GT06 login *)

Lemma append_cons (ch : ascii) (a b : string) :
  String ch a +:+ b = String ch (a +:+ b).
Proof. reflexivity. Qed.


Lemma append_nil_r (a : string) : a +:+ "" = a.
Proof.
  induction a as [|ch a IH]; [reflexivity |].
  by rewrite append_cons, IH.
Qed.

Lemma length_append (a b : string) :
  String.length (a +:+ b) = (String.length a + String.length b)%nat.
Proof.
  induction a as [|ch a IH]; [reflexivity |].
  rewrite append_cons. cbn [String.length]. by rewrite IH.
Qed.

Lemma padded_hex (b : byte) :
  JS.padStart 2 "0" (JS.toString16 (Buffer.toZ b)) = hexByte b.
Proof. destruct b; reflexivity. Qed.



Lemma length_hexBytes (buffer : bytes) :
  String.length (hexBytes buffer) = (2 * length buffer)%nat.
Proof.
  induction buffer as [|b buffer IH]; [reflexivity |].
  cbn [hexBytes foldr]. fold (hexBytes buffer).
  rewrite length_append, IH. cbn [hexByte String.length length]. lia.
Qed.



(** ** The top-level parse *)

Lemma length_string_of_list_ascii (l : list ascii) :
  String.length (string_of_list_ascii l) = length l.
Proof. induction l as [|c l IH]; cbn; [reflexivity | by rewrite IH]. Qed.

Lemma length_toStringAscii (buffer : bytes) :
  String.length (Buffer.toStringAscii buffer) = length buffer.
Proof.
  unfold Buffer.toStringAscii. by rewrite length_string_of_list_ascii, length_map.
Qed.

Lemma gps303_consumes_buffer (buffer : bytes) (data : ParsedData) (n : nat) :
  GPS303Parser.parse buffer = Returned (Success data n) -> n = length buffer.
Proof.
  unfold GPS303Parser.parse.
  destruct (JS.startsWith _ "##"); [intros [= _ <-]; reflexivity |].
  destruct (_ && _); [intros [= _ <-]; reflexivity | discriminate].
Qed.

Lemma tk103_consumes_buffer (buffer : bytes) (data : ParsedData) (n : nat) :
  TK103Parser.parse buffer = Returned (Success data n) -> n = length buffer.
Proof.
  unfold TK103Parser.parse, TK103Parser.parseTK103Message.
  destruct (JS.startsWith _ "##"); [| discriminate].
  destruct (_ <? _)%nat; [discriminate |].
  destruct (_ !! 1%nat) as [part1|]; [| discriminate].
  destruct (JS.startsWith part1 _); [| discriminate].
  intros [= _ <-]. apply length_toStringAscii.
Qed.

Lemma generic_parse (buffer : bytes) :
  exists hex ascii,
    GenericParser.parse buffer
      = Returned (Success (GenericUnknown hex ascii (length buffer)) (length buffer)).
Proof. unfold GenericParser.parse. eauto. Qed.

(** [parse] by cases on what the specific parsers return. *)
Lemma parse_unfold (buffer : bytes) :
  ProtocolParser.parse buffer =
    match GPS303Parser.parse buffer with
    | Returned (Success data n) => ProtocolParser.mkResult (Success data n) (Some gps303)
    | _ =>
        match GT06Parser.parse buffer with
        | Returned (Success data n) => ProtocolParser.mkResult (Success data n) (Some gt06)
        | _ =>
            match TK103Parser.parse buffer with
            | Returned (Success data n) => ProtocolParser.mkResult (Success data n) (Some tk103)
            | _ =>
                match GenericParser.parse buffer with
                | Returned r => ProtocolParser.mkResult r (Some generic)
                | Thrown _ =>
                    ProtocolParser.mkResult
                      (Failure (Some "Failed to parse data with any protocol")) None
                end
            end
        end
    end.
Proof.
  unfold ProtocolParser.parse, ProtocolParser.parsers. cbn [ProtocolParser.trySpecific].
  repeat (case_decide; [discriminate |]). case_decide; [| congruence].
  cbn [ProtocolParser.parser_parse H02Parser.parse mret outcome_ret].
  destruct (GPS303Parser.parse buffer) as [[? ?|?]|?];
    destruct (GT06Parser.parse buffer) as [[? ?|?]|?];
    destruct (TK103Parser.parse buffer) as [[? ?|?]|?]; reflexivity.
Qed.

Lemma parse_succeeds (buffer : bytes) :
  exists p data n,
    ProtocolParser.parse buffer = ProtocolParser.mkResult (Success data n) (Some p).
Proof.
  rewrite parse_unfold.
  destruct (GPS303Parser.parse buffer) as [[? ?|?]|?]; eauto;
    destruct (GT06Parser.parse buffer) as [[? ?|?]|?]; eauto;
    destruct (TK103Parser.parse buffer) as [[? ?|?]|?]; eauto;
    destruct (generic_parse buffer) as (hex & asc & ->); eauto.
Qed.

(** C9: the top-level parse always returns a success; its own failure
    branch, and with it the branch of [handleDeviceData] that waits for more
    data, are never taken. When no specific parser accepts the buffer
    (whether it rejects, needs more bytes or throws), the generic parser
    returns an [unknown] event that consumes the whole buffer. *)
Theorem parse_never_fails (buffer : bytes) :
  (exists p data n,
     ProtocolParser.parse buffer = ProtocolParser.mkResult (Success data n) (Some p))
  /\ (forall error, ProtocolParser.result (ProtocolParser.parse buffer) <> Failure error)
  /\ ((forall p, p ∈ specific -> ~ accepts p buffer) ->
      exists hex ascii,
        ProtocolParser.parse buffer =
          ProtocolParser.mkResult
            (Success (GenericUnknown hex ascii (length buffer)) (length buffer))
            (Some generic)
        /\ data_type (GenericUnknown hex ascii (length buffer)) = "unknown").
Proof.
  split; [apply parse_succeeds |]. split.
  - intros error. destruct (parse_succeeds buffer) as (p & data & n & ->). discriminate.
  - intros Hnone. rewrite parse_unfold.
    assert (H303 : ~ accepts gps303 buffer) by (apply Hnone; set_solver).
    assert (H06 : ~ accepts gt06 buffer) by (apply Hnone; set_solver).
    assert (H103 : ~ accepts tk103 buffer) by (apply Hnone; set_solver).
    unfold accepts in *. cbn [ProtocolParser.parser_parse] in *.
    destruct (GPS303Parser.parse buffer) as [[? ?|?]|?]; [exfalso; eauto | ..];
      (destruct (GT06Parser.parse buffer) as [[? ?|?]|?]; [exfalso; eauto | ..]);
      (destruct (TK103Parser.parse buffer) as [[? ?|?]|?]; [exfalso; eauto | ..]);
      destruct (generic_parse buffer) as (hex & asc & ->); eauto.
Qed.

(** A buffer of one zero byte, which no specific parser accepts. *)
Lemma parse_never_fails_witness :
  exists hex ascii,
    ProtocolParser.parse [x00] =
      ProtocolParser.mkResult (Success (GenericUnknown hex ascii 1) 1) (Some generic)
    /\ data_type (GenericUnknown hex ascii 1) = "unknown".
Proof.
  apply (parse_never_fails [x00]).
  intros p Hp [data [n H]].
  unfold specific in Hp. rewrite !elem_of_cons in Hp.
  destruct Hp as [-> | [-> | [-> | [-> | Hp]]]];
    [discriminate H .. | by apply elem_of_nil in Hp].
Defined.

(** When the GT06 parser reports an incomplete packet, some other parser
    accepts the buffer and consumes all of it. *)
Lemma incomplete_gt06_is_consumed (buffer : bytes) :
  GT06Parser.parse buffer = Returned (Failure (Some "Incomplete packet")) ->
  exists p data,
    p <> gt06 /\
    ProtocolParser.parse buffer
      = ProtocolParser.mkResult (Success data (length buffer)) (Some p).
Proof.
  intros H06. rewrite parse_unfold, H06.
  destruct (GPS303Parser.parse buffer) as [[d n|?]|?] eqn:H303;
    [apply gps303_consumes_buffer in H303 as ->; by exists gps303, d | ..];
    (destruct (TK103Parser.parse buffer) as [[d n|?]|?] eqn:H103;
      [apply tk103_consumes_buffer in H103 as ->; by exists tk103, d | ..]);
    destruct (generic_parse buffer) as (hex & asc & ->);
    by exists generic, (GenericUnknown hex asc (length buffer)).
Qed.

(** ** GPS303 position frames *)

Lemma isDigit_cases (c : ascii) :
  JS.isDigit c = true ->
  c ∈ ["0"; "1"; "2"; "3"; "4"; "5"; "6"; "7"; "8"; "9"]%char.
Proof.
  destruct c as [[] [] [] [] [] [] [] []]; cbn; try discriminate; intros _;
    rewrite !elem_of_cons; tauto.
Qed.

Lemma parseInt_two_digits (a b : ascii) :
  JS.isDigit a = true -> JS.isDigit b = true ->
  JS.parseInt (String a (String b EmptyString)) = Some (twoDigits a b).
Proof.
  intros Ha%isDigit_cases Hb%isDigit_cases.
  rewrite !elem_of_cons in Ha, Hb.
  destruct Ha as [-> | [-> | [-> | [-> | [-> | [-> | [-> | [-> | [-> | [-> | Ha]]]]]]]]]];
    try (by apply elem_of_nil in Ha);
    destruct Hb as [-> | [-> | [-> | [-> | [-> | [-> | [-> | [-> | [-> | [-> | Hb]]]]]]]]]];
    try (by apply elem_of_nil in Hb); reflexivity.
Qed.

(** The date of a field of twelve digits [YYMMDDhhmmss]. *)
Lemma parseDateTime_twelve_digits (y1 y2 m1 m2 d1 d2 h1 h2 i1 i2 s1 s2 : ascii) :
  Forall (fun c => JS.isDigit c = true) [y1; y2; m1; m2; d1; d2; h1; h2; i1; i2; s1; s2] ->
  GPS303Parser.parseDateTime
    (string_of_list_ascii [y1; y2; m1; m2; d1; d2; h1; h2; i1; i2; s1; s2]) ""
  = JS.DateLocal (2000 + twoDigits y1 y2) (twoDigits m1 m2 - 1) (twoDigits d1 d2)
      (twoDigits h1 h2) (twoDigits i1 i2) (twoDigits s1 s2).
Proof.
  intros H. repeat (apply Forall_cons in H as [? H]).
  unfold GPS303Parser.parseDateTime.
  cbn [String.eqb orb string_of_list_ascii String.length Nat.leb negb andb].
  unfold JS.substring. cbn [Nat.sub String.substring].
  rewrite !parseInt_two_digits by assumption. reflexivity.
Qed.

(** A field shorter than twelve characters gives the time of receipt. *)
Lemma parseDateTime_short (date : string) :
  (String.length date < 12)%nat -> GPS303Parser.parseDateTime date "" = JS.DateNow.
Proof.
  intros H. unfold GPS303Parser.parseDateTime. cbn [String.eqb orb].
  replace (12 <=? String.length date)%nat with false
    by (symmetry; apply Nat.leb_gt; exact H).
  by rewrite andb_false_r.
Qed.

(** Twelve characters that are not digits give an invalid date, not the
    time of receipt. *)
Lemma parseDateTime_not_digits :
  GPS303Parser.parseDateTime "YYMMDDhhmmss" "" = JS.DateInvalid.
Proof. reflexivity. Qed.

(** The time of receipt stands for the date of the frame only when the
    field has fewer than twelve characters: a longer field gives the date
    that its first twelve characters spell, or an invalid date. *)
Lemma parseDateTime_falls_back_when_short (date : string) :
  GPS303Parser.parseDateTime date "" = JS.DateNow <-> (String.length date < 12)%nat.
Proof.
  split; [| apply parseDateTime_short].
  unfold GPS303Parser.parseDateTime. cbn [String.eqb orb].
  destruct (12 <=? String.length date)%nat eqn:Hlen;
    [| intros _; by apply Nat.leb_gt].
  rewrite andb_true_r.
  destruct (negb (String.eqb date "")) eqn:Hne.
  - unfold JS.newDate.
    repeat match goal with
           | |- context [JS.parseInt ?x] => destruct (JS.parseInt x)
           end; discriminate.
  - apply negb_false_iff, String.eqb_eq in Hne. subst date. discriminate Hlen.
Qed.

(** A field of twelve characters or more, one of whose pairs of characters
    does not begin a number, gives an invalid date. *)
Lemma parseDateTime_unreadable (date : string) (i : nat) :
  (12 <= String.length date)%nat ->
  i ∈ [0; 2; 4; 6; 8; 10]%nat ->
  JS.parseInt (JS.substring i (i + 2) date) = None ->
  GPS303Parser.parseDateTime date "" = JS.DateInvalid.
Proof.
  intros Hlen Hi Hnan. unfold GPS303Parser.parseDateTime. cbn [String.eqb orb].
  replace (12 <=? String.length date)%nat with true
    by (symmetry; by apply Nat.leb_le).
  replace (negb (String.eqb date "")) with true
    by (destruct date; [cbn in Hlen; lia | reflexivity]).
  cbn [andb]. unfold JS.newDate.
  rewrite !elem_of_cons in Hi.
  destruct Hi as [-> | [-> | [-> | [-> | [-> | [-> | Hi]]]]]];
    [.. | by apply elem_of_nil in Hi];
    cbn [Nat.add] in Hnan; rewrite Hnan; cbn [fmap option_fmap option_map];
    repeat match goal with
           | |- context [JS.parseInt ?x] => destruct (JS.parseInt x)
           end; reflexivity.
Qed.

Lemma startsWith_imei_not_login (data : string) :
  JS.startsWith data "imei:" = true -> JS.startsWith data "##" = false.
Proof.
  unfold JS.startsWith. destruct data as [|c data]; [discriminate |].
  cbn [String.prefix]. destruct (ascii_dec "i" c) as [<- | _]; [| discriminate].
  reflexivity.
Qed.

(** What holds of the decoding of a position: a GPS303 frame that starts
    with [imei:] and has at least twelve comma-separated fields is decoded as
    a location that consumes the buffer: the coordinates are those of fields
    7 and 9, [int(x/100) + (x mod 100)/60], negated exactly when field 8 is
    [S] and field 10 is [W]; the speed is field 11 (zero when it is empty);
    the time stamp is read from field 2 when it is twelve digits, and is the
    time of receipt when the field is shorter than twelve characters. *)
Lemma gps303_position_decoding (buffer : bytes) (parts : list string) :
  JS.startsWith (Buffer.toStringAscii buffer) "imei:" = true ->
  parts = JS.split "," (JS.trim (Buffer.toStringAscii buffer)) ->
  (12 <= length parts)%nat ->
  exists imei timestamp,
    GPS303Parser.parse buffer =
      Returned
        (Success
           (GPS303Location imei
              (hemisphere "S" (GPS303Parser.part 8 parts)
                 (coordinate (GPS303Parser.part 7 parts)))
              (hemisphere "W" (GPS303Parser.part 10 parts)
                 (coordinate (GPS303Parser.part 9 parts)))
              (if String.eqb (GPS303Parser.part 11 parts) "" then 0%float
               else JS.parseFloat (GPS303Parser.part 11 parts))
              (String.eqb (GPS303Parser.part 6 parts) "A")
              timestamp
              (Buffer.toStringAscii buffer))
           (length buffer))
    /\ ((String.length (GPS303Parser.part 2 parts) < 12)%nat -> timestamp = JS.DateNow)
    /\ (forall y1 y2 m1 m2 d1 d2 h1 h2 i1 i2 s1 s2 : ascii,
          Forall (fun c => JS.isDigit c = true)
            [y1; y2; m1; m2; d1; d2; h1; h2; i1; i2; s1; s2] ->
          GPS303Parser.part 2 parts
            = string_of_list_ascii [y1; y2; m1; m2; d1; d2; h1; h2; i1; i2; s1; s2] ->
          timestamp
            = JS.DateLocal (2000 + twoDigits y1 y2) (twoDigits m1 m2 - 1)
                (twoDigits d1 d2) (twoDigits h1 h2) (twoDigits i1 i2)
                (twoDigits s1 s2)).
Proof.
  intros Himei -> Hlen.
  exists (JS.split ":" (GPS303Parser.part 0
            (JS.split "," (JS.trim (Buffer.toStringAscii buffer)))) !! 1%nat).
  eexists. split; [| split].
  - unfold GPS303Parser.parse.
    rewrite (startsWith_imei_not_login _ Himei), Himei.
    replace (12 <=? length (JS.split "," (JS.trim (Buffer.toStringAscii buffer))))%nat
      with true by (symmetry; apply Nat.leb_le; exact Hlen).
    cbn [andb mret outcome_ret]. unfold hemisphere, coordinate, decimalDegrees.
    unfold GPS303Parser.parseCoordinate.
    destruct (String.eqb (GPS303Parser.part 11 _) ""); reflexivity.
  - apply parseDateTime_short.
  - intros y1 y2 m1 m2 d1 d2 h1 h2 i1 i2 s1 s2 Hdigits ->.
    by apply parseDateTime_twelve_digits.
Qed.

(** The second frame of scenario S2: latitude -22.5, longitude between
    -43.166667 and -43.166666, speed 42.5, and the date 2025-01-01 12:00:00
    (months count from zero). *)
Lemma gps303_position_decoding_witness :
  exists imei timestamp lon,
    GPS303Parser.parse Scenario.gps303Position =
      Returned
        (Success
           (GPS303Location imei (-22.5)%float lon 42.5%float true timestamp
              (Buffer.toStringAscii Scenario.gps303Position))
           91)
    /\ imei = Some "359710045490084"
    /\ PrimFloat.ltb (-43.16666698455810546875)%float lon = true
    /\ PrimFloat.ltb lon (-43.1666660308837890625)%float = true
    /\ timestamp = JS.DateLocal 2025 0 1 12 0 0.
Proof.
  destruct (gps303_position_decoding Scenario.gps303Position
              (JS.split "," (JS.trim (Buffer.toStringAscii Scenario.gps303Position))))
    as (imei & timestamp & Hparse & _ & Hdate);
    [reflexivity | reflexivity | vm_compute; lia |].
  exists imei, timestamp. eexists.
  split; [exact Hparse |].
  split; [| split; [reflexivity | split; [reflexivity |]]].
  - assert (H := Hparse). vm_compute in H. by injection H as <- _.
  - apply (Hdate "2" "5" "0" "1" "0" "1" "1" "2" "0" "0" "0" "0")%char;
      [repeat constructor | reflexivity].
Defined.

(** C8 (the code departs from the claim): the position of scenario S2 with
    the date [25/01/01 12:00] in its field 2, which has fourteen characters
    and is not twelve digits. The coordinates and the speed are decoded as
    the claim says (latitude -22.5, longitude between -43.166667 and
    -43.166666, speed 42.5), but the time stamp of the event is an invalid
    date, not the time of receipt: the length of the field is all that is
    tested before its pairs of characters are read as numbers, and the
    reading of a number does not fail, so that the handler of the failure is
    never reached. The same date without the time, [25/01/01], is replaced
    by the time of receipt. *)
Theorem gps303_unreadable_date_is_not_replaced :
  exists lon,
    GPS303Parser.parse Scenario.gps303Undated
    = Returned
        (Success
           (GPS303Location (Some "359710045490084") (-22.5)%float lon 42.5%float true
              JS.DateInvalid (Buffer.toStringAscii Scenario.gps303Undated))
           (length Scenario.gps303Undated))
    /\ PrimFloat.ltb (-43.16666698455810546875)%float lon = true
    /\ PrimFloat.ltb lon (-43.1666660308837890625)%float = true
    /\ GPS303Parser.part 2
         (JS.split "," (JS.trim (Buffer.toStringAscii Scenario.gps303Undated)))
       = "25/01/01 12:00"
    /\ GPS303Parser.parseDateTime "25/01/01 12:00" "" = JS.DateInvalid
    /\ GPS303Parser.parseDateTime "25/01/01" "" = JS.DateNow
    /\ JS.DateInvalid <> JS.DateNow.
Proof.
  eexists. split; [vm_compute; reflexivity |].
  repeat (split; [vm_compute; reflexivity |]). discriminate.
Qed.

(** ** Handlers *)

Section Keeps.
Variable R : relation TCPServer.Server.
Hypothesis R_refl : forall s, R s s.
Hypothesis R_trans : forall s1 s2 s3, R s1 s2 -> R s2 s3 -> R s1 s3.

Lemma keeps_ret {A} (a : A) : keeps R (TCPServer.ret a).
Proof using R_refl. intros s. apply R_refl. Qed.

Lemma keeps_lift {A} (o : outcome A) : keeps R (TCPServer.lift o).
Proof using R_refl. intros s. apply R_refl. Qed.

Lemma keeps_get : keeps R TCPServer.get.
Proof using R_refl. intros s. apply R_refl. Qed.

Lemma keeps_connection (c : nat) : keeps R (TCPServer.connection c).
Proof using R_refl.
  intros s. unfold TCPServer.connection.
  destruct (TCPServer.connections s !! c); apply R_refl.
Qed.

Lemma keeps_modify (f : TCPServer.Server -> TCPServer.Server) :
  (forall s, R s (f s)) -> keeps R (TCPServer.modify f).
Proof. intros Hf s. apply Hf. Qed.

Lemma keeps_bind {A B} (m : TCPServer.M A) (f : A -> TCPServer.M B) :
  keeps R m -> (forall a, keeps R (f a)) -> keeps R (TCPServer.bind m f).
Proof using R_trans.
  intros Hm Hf s. unfold TCPServer.bind.
  specialize (Hm s). destruct (m s) as [[a|e] s']; cbn in *; [| exact Hm].
  eapply R_trans; [exact Hm | apply Hf].
Qed.

Lemma keeps_catch {A} (m : TCPServer.M A) (h : string -> TCPServer.M A) :
  keeps R m -> (forall e, keeps R (h e)) -> keeps R (TCPServer.catch m h).
Proof using R_trans.
  intros Hm Hh s. unfold TCPServer.catch.
  specialize (Hm s). destruct (m s) as [[a|e] s']; cbn in *; [exact Hm |].
  eapply R_trans; [exact Hm | apply Hh].
Qed.

Lemma keeps_bind_lift {A B} (o : outcome A) (f : A -> TCPServer.M B) :
  (forall a, o = Returned a -> keeps R (f a)) -> keeps R (TCPServer.bind (TCPServer.lift o) f).
Proof using R_refl.
  intros Hf s. unfold TCPServer.bind, TCPServer.lift.
  destruct o as [a|e]; cbn; [by apply Hf | apply R_refl].
Qed.

Lemma keeps_when (b : bool) (m : TCPServer.M unit) :
  keeps R m -> keeps R (TCPServer.when b m).
Proof using R_refl. intros Hm. destruct b; [exact Hm | apply keeps_ret]. Qed.

End Keeps.

Lemma acked_refl (dc : TCPServer.DeviceConnection) : acked dc dc.
Proof.
  repeat split. exists []. by rewrite app_nil_r.
Qed.

Lemma acked_trans (dc1 dc2 dc3 : TCPServer.DeviceConnection) :
  acked dc1 dc2 -> acked dc2 dc3 -> acked dc1 dc3.
Proof.
  intros (Ht1 & Hc1 & ws1 & Hw1 & Hf1) (Ht2 & Hc2 & ws2 & Hw2 & Hf2).
  split; [congruence |]. split; [congruence |].
  exists (ws1 ++ ws2). split; [by rewrite Hw2, Hw1, app_assoc |].
  by apply Forall_app.
Qed.

Lemma quiet_refl (s : TCPServer.Server) : quiet s s.
Proof.
  split; [reflexivity |]. intros c.
  destruct (TCPServer.connections s !! c); constructor. apply acked_refl.
Qed.

Lemma quiet_trans (s1 s2 s3 : TCPServer.Server) :
  quiet s1 s2 -> quiet s2 s3 -> quiet s1 s3.
Proof.
  intros [Hn1 H1] [Hn2 H2]. split; [congruence |]. intros c.
  specialize (H1 c). specialize (H2 c).
  destruct H1 as [dc1 dc2 H1|]; inversion H2; subst; constructor.
  eauto using acked_trans.
Qed.

(** A change of a connection object that is [acked], and a change of the
    rest of the state, are quiet. *)
Lemma quiet_updConnection (c : nat)
    (f : TCPServer.DeviceConnection -> TCPServer.DeviceConnection) (s : TCPServer.Server) :
  (forall dc, acked dc (f dc)) -> quiet s (TCPServer.updConnection c f s).
Proof.
  intros Hf. split; [reflexivity |]. intros c'. cbn.
  rewrite lookup_alter. case_decide as Hc.
  - subst c'. destruct (TCPServer.connections s !! c); constructor. apply Hf.
  - destruct (TCPServer.connections s !! c'); constructor. apply acked_refl.
Qed.

Lemma quiet_same_connections (s s' : TCPServer.Server) :
  TCPServer.now s' = TCPServer.now s ->
  TCPServer.connections s' = TCPServer.connections s -> quiet s s'.
Proof.
  intros Hn Hc. split; [exact Hn |]. intros c. rewrite Hc.
  destruct (TCPServer.connections s !! c); constructor. apply acked_refl.
Qed.

Lemma acked_setBuffer b dc : acked dc (TCPServer.setBuffer b dc).
Proof. repeat split. exists []. by rewrite app_nil_r. Qed.

Lemma acked_setAuthenticated i dc : acked dc (TCPServer.setAuthenticated i dc).
Proof. repeat split. exists []. by rewrite app_nil_r. Qed.

Lemma acked_destroy dc : acked dc (TCPServer.setSocket TCPServer.socket_destroy dc).
Proof. repeat split. exists []. by rewrite app_nil_r. Qed.

Lemma acked_write (w : bytes) dc :
  gps303Ack w -> acked dc (TCPServer.setSocket (TCPServer.socket_write w) dc).
Proof.
  intros Hw. unfold TCPServer.socket_write, TCPServer.setSocket.
  destruct (TCPServer.destroyed (TCPServer.socket dc)); cbn.
  - repeat split. exists []. by rewrite app_nil_r.
  - repeat split. exists [w]. split; [reflexivity |]. by constructor.
Qed.

Create HintDb keeps.
#[local] Hint Resolve quiet_refl quiet_trans : keeps.
#[local] Hint Resolve keeps_ret keeps_lift keeps_get keeps_connection keeps_when : keeps.
#[local] Hint Resolve acked_setBuffer acked_setAuthenticated acked_destroy : keeps.

(** Repeated steps of a proof that a handler is quiet. *)
Ltac quiet_step :=
  lazymatch goal with
  | |- keeps _ (TCPServer.bind (TCPServer.lift _) _) =>
      apply keeps_bind_lift; [apply quiet_refl | intros ? ?]
  | |- keeps _ (TCPServer.bind _ _) => apply keeps_bind; [apply quiet_trans | | intros ?]
  | |- keeps _ (TCPServer.catch _ _) => apply keeps_catch; [apply quiet_trans | | intros ?]
  | |- keeps _ (TCPServer.when _ _) => apply keeps_when; [apply quiet_refl |]
  | |- keeps _ (TCPServer.ret _) => apply keeps_ret; apply quiet_refl
  | |- keeps _ TCPServer.get => apply keeps_get; apply quiet_refl
  | |- keeps _ (TCPServer.connection _) => apply keeps_connection; apply quiet_refl
  | |- keeps _ (TCPServer.modify _) =>
      apply keeps_modify; intros ?;
      first [ apply quiet_updConnection; intros ?; eauto with keeps
            | apply quiet_same_connections; reflexivity ]
  end.

Lemma quiet_write (c : nat) (w : bytes) : gps303Ack w -> keeps quiet (TCPServer.write c w).
Proof.
  intros Hw. apply keeps_modify. intros s.
  apply quiet_updConnection. intros dc. by apply acked_write.
Qed.

Lemma quiet_destroy (c : nat) : keeps quiet (TCPServer.destroy c).
Proof. unfold TCPServer.destroy. repeat quiet_step. Qed.

Lemma quiet_writeIfAny (c : nat) (response : option bytes) :
  (forall w, response = Some w -> gps303Ack w) ->
  keeps quiet (TCPServer.writeIfAny c response).
Proof.
  intros Hw. destruct response as [w|]; cbn; [| quiet_step].
  apply quiet_write. by apply Hw.
Qed.

(** The acknowledgements that the server asks the parser for are built
    without a protocol, hence by the GPS303 parser. *)
Lemma default_acks (success : bool) (sequence : Z) :
  ProtocolParser.buildAuthResponse success None
    = Returned (GPS303Parser.buildAuthResponse success)
  /\ ProtocolParser.buildLoginResponse success None
    = Returned GPS303Parser.buildLoginResponse
  /\ ProtocolParser.buildLocationAck sequence None
    = Returned GPS303Parser.buildLocationAck
  /\ ProtocolParser.buildHeartbeatResponse None
    = Returned GPS303Parser.buildHeartbeatResponse.
Proof. repeat split; reflexivity. Qed.

Lemma quiet_sendAuthResponse (c : nat) (success : bool) :
  keeps quiet (TCPServer.sendAuthResponse c success).
Proof.
  unfold TCPServer.sendAuthResponse. quiet_step.
  apply quiet_writeIfAny. intros w ->.
  destruct success; [| discriminate]. match goal with H : _ = Returned _ |- _ => injection H as <- end.
  by left.
Qed.

Lemma quiet_sendLocationAck (c : nat) (sequence : Z) :
  keeps quiet (TCPServer.sendLocationAck c sequence).
Proof.
  unfold TCPServer.sendLocationAck. quiet_step.
  apply quiet_writeIfAny. intros w ->.
  match goal with H : _ = Returned _ |- _ => injection H as <- end. by right.
Qed.

Lemma quiet_authenticateDevice (c : nat) (imei : string) :
  keeps quiet (TCPServer.authenticateDevice c imei).
Proof.
  unfold TCPServer.authenticateDevice. repeat quiet_step.
  - destruct (DatabaseService.getDeviceByImei _ _); [| apply quiet_destroy].
    repeat quiet_step. apply quiet_sendAuthResponse.
  - apply quiet_destroy.
Qed.

Lemma quiet_handleLogin (c : nat) (data : ParsedData) :
  keeps quiet (TCPServer.handleLogin c data).
Proof.
  unfold TCPServer.handleLogin. repeat quiet_step.
  apply quiet_writeIfAny. intros w ->.
  match goal with H : _ = Returned _ |- _ => injection H as <- end. by left.
Qed.

Lemma quiet_handleHeartbeat (c : nat) (data : ParsedData) :
  keeps quiet (TCPServer.handleHeartbeat c data).
Proof.
  unfold TCPServer.handleHeartbeat. repeat quiet_step.
  apply quiet_writeIfAny. intros w ->.
  match goal with H : _ = Returned _ |- _ => injection H as <- end. by right.
Qed.

Lemma quiet_handleLocationData (c : nat) (data : ParsedData) :
  keeps quiet (TCPServer.handleLocationData c data).
Proof.
  unfold TCPServer.handleLocationData. repeat quiet_step.
  apply quiet_sendLocationAck.
Qed.

Lemma quiet_handleAlarmData (c : nat) (data : ParsedData) :
  keeps quiet (TCPServer.handleAlarmData c data).
Proof. unfold TCPServer.handleAlarmData. repeat quiet_step. Qed.

Lemma quiet_handleCommandResponse (c : nat) (data : ParsedData) :
  keeps quiet (TCPServer.handleCommandResponse c data).
Proof. unfold TCPServer.handleCommandResponse. repeat quiet_step. Qed.

(** Handling a segment leaves every timer as it is and writes nothing but
    [LOAD] and [ON], whatever parser decodes the buffer. *)
Lemma quiet_handleDeviceData (c : nat) (data : bytes) :
  keeps quiet (TCPServer.handleDeviceData c data).
Proof.
  unfold TCPServer.handleDeviceData. repeat quiet_step.
  destruct (ProtocolParser.result _) as [parsedData n|]; repeat quiet_step.
  destruct (_ && _); [apply quiet_write; by left |].
  repeat quiet_step; [apply quiet_authenticateDevice |].
  repeat (match goal with |- keeps _ (if ?b then _ else _) => destruct b end);
    auto using quiet_handleLogin, quiet_handleLocationData, quiet_handleHeartbeat,
      quiet_handleAlarmData, quiet_handleCommandResponse;
    quiet_step.
Qed.

(** ** Fingerprints *)

(** The writes of a step: every socket keeps what was written to it and is
    written acknowledgements of GPS303 only. *)
Lemma quiet_writes (s s' : TCPServer.Server) (c : nat) (dc : TCPServer.DeviceConnection) :
  quiet s s' ->
  TCPServer.connections s !! c = Some dc ->
  exists dc' ws,
    TCPServer.connections s' !! c = Some dc'
    /\ TCPServer.authTimeout dc' = TCPServer.authTimeout dc
    /\ TCPServer.written (TCPServer.socket dc')
       = TCPServer.written (TCPServer.socket dc) ++ ws
    /\ Forall gps303Ack ws.
Proof.
  intros [_ H] Hc. specialize (H c). rewrite Hc in H.
  inversion H as [? dc' (Ht & _ & ws & Hw & Hf)|]; subst. eauto 10.
Qed.

Lemma socketData_unfold (c : nat) (data : bytes) (s : TCPServer.Server)
    (dc : TCPServer.DeviceConnection) :
  TCPServer.connections s !! c = Some dc ->
  TCPServer.destroyed (TCPServer.socket dc) = false ->
  TCPServer.step (TCPServer.SocketData c data) s =
    let s1 := TCPServer.updConnection c TCPServer.clearTimeout s in
    let s2 := (TCPServer.handleDeviceData c data s1).2 in
    match (TCPServer.handleDeviceData c data s1).1 with
    | Returned _ => TCPServer.updConnection c (TCPServer.setLastSeen (TCPServer.now s2)) s2
    | Thrown _ => s2
    end.
Proof.
  intros Hc Hd. cbn [TCPServer.step]. rewrite Hc, Hd.
  unfold TCPServer.run, TCPServer.bind, TCPServer.modify. cbv beta iota zeta.
  destruct (TCPServer.handleDeviceData c data
              (TCPServer.updConnection c TCPServer.clearTimeout s)) as [[[]|e] s2];
    reflexivity.
Qed.

Lemma lookup_updConnection (c c' : nat)
    (f : TCPServer.DeviceConnection -> TCPServer.DeviceConnection) (s : TCPServer.Server) :
  TCPServer.connections (TCPServer.updConnection c f s) !! c'
  = if decide (c = c') then f <$> TCPServer.connections s !! c'
    else TCPServer.connections s !! c'.
Proof.
  cbn [TCPServer.updConnection TCPServer.connections].
  rewrite lookup_alter. by case_decide; subst.
Qed.

Lemma step_data_writes (s : TCPServer.Server) (c : nat) (data : bytes)
    (c' : nat) (dc : TCPServer.DeviceConnection) :
  TCPServer.connections s !! c' = Some dc ->
  exists dc' ws,
    TCPServer.connections (TCPServer.step (TCPServer.SocketData c data) s) !! c' = Some dc'
    /\ TCPServer.written (TCPServer.socket dc')
       = TCPServer.written (TCPServer.socket dc) ++ ws
    /\ Forall gps303Ack ws.
Proof.
  intros Hc'.
  assert (Hsame : exists dc' ws,
             TCPServer.connections s !! c' = Some dc'
             /\ TCPServer.written (TCPServer.socket dc')
                = TCPServer.written (TCPServer.socket dc) ++ ws
             /\ Forall gps303Ack ws)
    by (exists dc, []; rewrite app_nil_r; eauto).
  destruct (TCPServer.connections s !! c) as [dcc|] eqn:Hc; [| by cbn; rewrite Hc].
  destruct (TCPServer.destroyed (TCPServer.socket dcc)) eqn:Hd;
    [by cbn; rewrite Hc, Hd |].
  rewrite (socketData_unfold c data s dcc Hc Hd). cbv zeta.
  set (s1 := TCPServer.updConnection c TCPServer.clearTimeout s).
  assert (H1 : exists dc1,
             TCPServer.connections s1 !! c' = Some dc1
             /\ TCPServer.written (TCPServer.socket dc1)
                = TCPServer.written (TCPServer.socket dc)).
  { subst s1. rewrite lookup_updConnection, Hc'. case_decide; cbn; eauto. }
  destruct H1 as (dc1 & Hc1 & Hw1).
  destruct (quiet_writes s1 _ c' dc1 (quiet_handleDeviceData c data s1) Hc1)
    as (dc2 & ws & Hc2 & _ & Hw2 & Hf).
  destruct (TCPServer.handleDeviceData c data s1).1.
  - rewrite lookup_updConnection, Hc2.
    case_decide; cbn; eexists _, ws; (split; [reflexivity |]);
      (split; [| exact Hf]); cbn; by rewrite Hw2, Hw1.
  - exists dc2, ws. by rewrite Hw2, Hw1.
Qed.

Lemma parse_first_acceptor (buffer : bytes) (p : Protocol) (data : ParsedData) (n : nat) :
  ProtocolParser.parse buffer = ProtocolParser.mkResult (Success data n) (Some p) ->
  ProtocolParser.parser_parse p buffer = Returned (Success data n)
  /\ forall q, q ∈ triedBefore p -> ~ accepts q buffer.
Proof.
  rewrite parse_unfold. unfold accepts.
  destruct (GPS303Parser.parse buffer) as [[d3 n3|e3]|e3] eqn:H303;
    [intros [= <- <- <-]; split; [exact H303 | intros q Hq; by apply elem_of_nil in Hq] | ..];
    (destruct (GT06Parser.parse buffer) as [[d6 n6|e6]|e6] eqn:H06;
      [intros [= <- <- <-]; split; [exact H06 |];
       intros q Hq [d [m Hacc]]; cbn in Hq; rewrite !elem_of_cons in Hq;
       destruct Hq as [-> | Hq]; [cbn in Hacc; congruence | by apply elem_of_nil in Hq]
      | ..]);
    (destruct (TK103Parser.parse buffer) as [[d1 n1|e1]|e1] eqn:H103;
      [intros [= <- <- <-]; split; [exact H103 |];
       intros q Hq [d [m Hacc]]; cbn in Hq; rewrite !elem_of_cons in Hq;
       destruct Hq as [-> | [-> | Hq]]; [cbn in Hacc; congruence .. | by apply elem_of_nil in Hq]
      | ..]);
    (destruct (GenericParser.parse buffer) as [r|e] eqn:Hgen; [| discriminate]);
    intros [= -> <-]; (split; [exact Hgen |]);
    intros q Hq [d [m Hacc]]; cbn in Hq; rewrite !elem_of_cons in Hq;
    destruct Hq as [-> | [-> | [-> | [-> | Hq]]]];
    try (by apply elem_of_nil in Hq); cbn in Hacc;
    first [congruence | discriminate Hacc].
Qed.

(** The acknowledgements of a GT06 login are those of GPS303 as well. *)
Lemma gt06_login_is_acknowledged_with_LOAD :
  TCPServer.written <$> (TCPServer.socket <$>
    TCPServer.connections
      (TCPServer.steps [TCPServer.Connection 1; TCPServer.SocketData 1 Scenario.gt06Login]
         Scenario.server) !! 1%nat)
  = Some [Buffer.fromAscii "LOAD"; Buffer.fromAscii "LOAD"].
Proof. vm_compute. reflexivity. Qed.

(** What the code does with the acknowledgements and the commands of a
    session: a segment makes the server write [LOAD] or [ON], whichever
    parser decoded it, and a command is encoded by the default parser, which
    has no encoder. *)
Lemma acks_and_commands_use_default_parser :
  (forall s c data c' dc,
     TCPServer.connections s !! c' = Some dc ->
     exists dc' ws,
       TCPServer.connections (TCPServer.step (TCPServer.SocketData c data) s) !! c'
         = Some dc'
       /\ TCPServer.written (TCPServer.socket dc')
          = TCPServer.written (TCPServer.socket dc) ++ ws
       /\ Forall gps303Ack ws)
  /\ (forall command,
        ProtocolParser.buildCommand command None
          = Thrown "TypeError: parser.buildCommand is not a function").
Proof. split; [apply step_data_writes | reflexivity]. Qed.

Lemma triedBefore_order (p : Protocol) :
  exists rest, ProtocolParser.parsers = triedBefore p ++ p :: rest.
Proof. destruct p; cbn; eauto. Qed.

(** Conjunctions of facts that hold by evaluation. *)
Ltac evaluate :=
  repeat lazymatch goal with |- _ /\ _ => split end; vm_compute; reflexivity.

(** ** Incomplete frames *)

(** C5 (the code departs from the claim): the first five bytes of a GT06
    login make the GT06 parser report an incomplete packet, yet the top-level
    parse goes on to the generic parser, which consumes them: the buffer of
    the session is left empty, not intact. The rest of the frame, when it
    arrives, is decoded on its own, and the device that sent its login in two
    segments is not authenticated, while the same bytes in one segment
    authenticate it. *)
Theorem incomplete_gt06_frame_is_consumed :
  GT06Parser.parse Scenario.gt06Prefix = Returned (Failure (Some "Incomplete packet"))
  /\ ProtocolParser.parse Scenario.gt06Prefix
     = ProtocolParser.mkResult (Success (GenericUnknown "78780c0103" "xx..." 5) 5)
         (Some generic)
  /\ TCPServer.buffer <$>
       TCPServer.connections
         (TCPServer.steps
            [TCPServer.Connection 1; TCPServer.SocketData 1 Scenario.gt06Prefix]
            Scenario.server) !! 1%nat
     = Some []
  /\ TCPServer.authenticated <$>
       TCPServer.connections
         (TCPServer.steps
            [TCPServer.Connection 1; TCPServer.SocketData 1 Scenario.gt06Prefix;
             TCPServer.SocketData 1 Scenario.gt06Rest]
            Scenario.server) !! 1%nat
     = Some false
  /\ TCPServer.authenticated <$>
       TCPServer.connections
         (TCPServer.steps
            [TCPServer.Connection 1;
             TCPServer.SocketData 1 (Scenario.gt06Prefix ++ Scenario.gt06Rest)]
            Scenario.server) !! 1%nat
     = Some true.
Proof. evaluate. Qed.

(** ** The authentication deadline *)

(** The first segment of a connection disarms its timer, whatever it holds. *)
Lemma data_disarms_deadline (s : TCPServer.Server) (c : nat) (data : bytes)
    (dc : TCPServer.DeviceConnection) :
  TCPServer.connections s !! c = Some dc ->
  TCPServer.destroyed (TCPServer.socket dc) = false ->
  exists dc',
    TCPServer.connections (TCPServer.step (TCPServer.SocketData c data) s) !! c = Some dc'
    /\ TCPServer.authTimeout dc' = None.
Proof.
  intros Hc Hd. rewrite (socketData_unfold c data s dc Hc Hd). cbv zeta.
  set (s1 := TCPServer.updConnection c TCPServer.clearTimeout s).
  assert (Hc1 : TCPServer.connections s1 !! c = Some (TCPServer.clearTimeout dc)).
  { subst s1. rewrite lookup_updConnection, Hc. by case_decide. }
  destruct (quiet_writes s1 _ c _ (quiet_handleDeviceData c data s1) Hc1)
    as (dc2 & ws & Hc2 & Ht & _).
  destruct (TCPServer.handleDeviceData c data s1).1.
  - rewrite lookup_updConnection, Hc2. case_decide; [| done].
    eexists. split; [reflexivity |]. exact Ht.
  - eauto.
Qed.

(** A disarmed timer does not fire, however long the wait. *)
Lemma disarmed_deadline_never_fires (s : TCPServer.Server) (c : nat) (ms : N)
    (dc : TCPServer.DeviceConnection) :
  TCPServer.connections s !! c = Some dc ->
  TCPServer.authTimeout dc = None ->
  TCPServer.connections (TCPServer.step (TCPServer.Elapse ms) s) !! c = Some dc.
Proof.
  intros Hc Ht. cbn. rewrite lookup_fmap, Hc. cbn.
  unfold TCPServer.fireAuthTimeout. by rewrite Ht.
Qed.

(** C4 (the code departs from the claim): a connection on which nothing
    arrives is destroyed after 30 s with nothing written to it; but one byte
    that decodes to no IMEI disarms the timer, and the unauthenticated
    connection is still open 30 s, or any time, after the accept. *)
Theorem auth_deadline_disarmed_by_any_data :
  (TCPServer.socket <$>
     TCPServer.connections
       (TCPServer.steps [TCPServer.Connection 1; TCPServer.Elapse 30000]
          Scenario.server) !! 1%nat)
  = Some (TCPServer.mkSocket true false [])
  /\ (forall ms,
        (fun dc => (TCPServer.authenticated dc, TCPServer.socket dc, TCPServer.authTimeout dc))
          <$> TCPServer.connections
                (TCPServer.steps
                   [TCPServer.Connection 1; TCPServer.SocketData 1 [x00];
                    TCPServer.Elapse ms]
                   Scenario.server) !! 1%nat
        = Some (false, TCPServer.mkSocket false false [], None)).
Proof.
  split; [vm_compute; reflexivity |]. intros ms.
  cbn [TCPServer.steps fold_left].
  erewrite disarmed_deadline_never_fires; [| vm_compute; reflexivity | reflexivity].
  reflexivity.
Qed.

(** ** The dispatcher *)

(** A delivery for a device that is connected changes nothing: building the
    command throws, and the handler catches the exception. *)
Lemma command_for_connected_device (s : TCPServer.Server) (m : TCPServer.CommandMessage)
    (c : nat) :
  TCPServer.connectedDevices s !! TCPServer.m_imei m = Some c ->
  TCPServer.run (TCPServer.handleDeviceCommand m) s = s
  /\ TCPServer.step (TCPServer.Deliver (Some m)) s = TCPServer.reply TCPServer.Ack s.
Proof.
  intros Hc.
  assert (H : TCPServer.run (TCPServer.handleDeviceCommand m) s = s).
  { unfold TCPServer.run, TCPServer.handleDeviceCommand, TCPServer.catch,
      TCPServer.bind, TCPServer.get. cbv beta iota. by rewrite Hc. }
  split; [exact H |]. cbn [TCPServer.step]. by rewrite H.
Qed.

(** C6 (the code departs from the claim): a GT06 device is connected and the
    broker delivers a command of kind [raw], which GT06 does not encode. The
    delivery is acknowledged and nothing is written to the socket, but the
    command is not marked failed: its row is left as it was, pending and
    without an error. *)
Theorem unsupported_command_is_not_recorded :
  let s := TCPServer.steps
             [TCPServer.Connection 1; TCPServer.SocketData 1 Scenario.gt06Login]
             Scenario.server in
  let s' := TCPServer.step
              (TCPServer.Deliver
                 (Some (TCPServer.mkMessage Scenario.imei "raw" (Some "c2")))) s in
  GT06Parser.buildCommand "raw" = Returned None
  /\ TCPServer.connectedDevices s !! Scenario.imei = Some 1%nat
  /\ DatabaseService.commands (TCPServer.database s') !! "c2"
     = Some (DatabaseService.mkCommandRow "pending" None None None None None None)
  /\ TCPServer.replies s' = [TCPServer.Ack]
  /\ TCPServer.connections s' = TCPServer.connections s.
Proof.
  cbv zeta.
  assert (Hreg : TCPServer.connectedDevices
                   (TCPServer.steps
                      [TCPServer.Connection 1; TCPServer.SocketData 1 Scenario.gt06Login]
                      Scenario.server) !! Scenario.imei = Some 1%nat)
    by (vm_compute; reflexivity).
  split; [reflexivity |]. split; [exact Hreg |].
  destruct (command_for_connected_device _
              (TCPServer.mkMessage Scenario.imei "raw" (Some "c2")) 1%nat Hreg)
    as [_ ->].
  evaluate.
Qed.

(** ** Command rows *)

(** C7, counterexample: a write of [sent] on an acknowledged row makes it
    [sent]. *)
Lemma status_not_monotonic : ~ status_monotonic.
Proof.
  intros H.
  destruct (H (DatabaseService.mkDB ∅
                 {[ "c2" := DatabaseService.mkCommandRow "acknowledged" None None
                              (Some 1%N) (Some 2%N) None (Some 2%N) ]} [] [])
              "c2" "sent" DatabaseService.noData 3%N
              (DatabaseService.mkCommandRow "acknowledged" None None
                 (Some 1%N) (Some 2%N) None (Some 2%N))
              (DatabaseService.mkCommandRow "sent" None None
                 (Some 3%N) (Some 2%N) None (Some 3%N)))
    as [Heq | [[Heq _] | [Heq _]]]; try (vm_compute; reflexivity); discriminate Heq.
Qed.

(** C7, amended: a write of a status sets the status of the row to the one
    written, whatever it was; the store orders no transition and no status is
    terminal. The other rows are not touched, and a row that does not exist
    is not created. *)
Theorem updateCommandStatus_overwrites (db : DatabaseService.DB) (cid status : string)
    (data : DatabaseService.StatusData) (now : N) :
  let db' := DatabaseService.updateCommandStatus (Some cid) status data now db in
  (forall row,
     DatabaseService.commands db !! cid = Some row ->
     exists row',
       DatabaseService.commands db' !! cid = Some row'
       /\ DatabaseService.status row' = status)
  /\ (DatabaseService.commands db !! cid = None ->
      DatabaseService.commands db' !! cid = None)
  /\ (forall cid', cid' <> cid ->
        DatabaseService.commands db' !! cid' = DatabaseService.commands db !! cid').
Proof.
  cbn. split; [| split].
  - intros row Hrow. rewrite lookup_alter_eq, Hrow. cbn. eauto.
  - intros Hnone. by rewrite lookup_alter_eq, Hnone.
  - intros cid' Hne. by rewrite lookup_alter_ne.
Qed.

(** A write of [sent] on an acknowledged row. *)
Lemma updateCommandStatus_overwrites_witness :
  exists row',
    DatabaseService.commands
      (DatabaseService.updateCommandStatus (Some "c2") "sent" DatabaseService.noData 3%N
         (DatabaseService.mkDB ∅
            {[ "c2" := DatabaseService.mkCommandRow "acknowledged" None None
                         (Some 1%N) (Some 2%N) None (Some 2%N) ]} [] [])) !! "c2"
      = Some row'
    /\ DatabaseService.status row' = "sent".
Proof.
  destruct (updateCommandStatus_overwrites
              (DatabaseService.mkDB ∅
                 {[ "c2" := DatabaseService.mkCommandRow "acknowledged" None None
                              (Some 1%N) (Some 2%N) None (Some 2%N) ]} [] [])
              "c2" "sent" DatabaseService.noData 3%N) as [H _].
  apply (H (DatabaseService.mkCommandRow "acknowledged" None None
              (Some 1%N) (Some 2%N) None (Some 2%N))).
  vm_compute. reflexivity.
Defined.

(** The one status that the dispatcher does write, [failed] for a device
    that is not connected, is written again when the delivery is replayed. *)
Lemma replay_for_absent_device (s : TCPServer.Server) (m : TCPServer.CommandMessage)
    (cid : string) (row : DatabaseService.CommandRow) :
  TCPServer.connectedDevices s !! TCPServer.m_imei m = None ->
  TCPServer.m_commandId m = Some cid ->
  DatabaseService.commands (TCPServer.database s) !! cid = Some row ->
  let s1 := TCPServer.step (TCPServer.Deliver (Some m)) s in
  let s2 := TCPServer.step (TCPServer.Deliver (Some m)) s1 in
  DatabaseService.status <$> DatabaseService.commands (TCPServer.database s1) !! cid
    = Some "failed"
  /\ DatabaseService.status <$> DatabaseService.commands (TCPServer.database s2) !! cid
    = Some "failed"
  /\ TCPServer.replies s2 = TCPServer.replies s ++ [TCPServer.Ack; TCPServer.Ack].
Proof.
  intros Hc Hid Hrow.
  assert (Hstep : forall s0,
             TCPServer.connectedDevices s0 !! TCPServer.m_imei m = None ->
             TCPServer.step (TCPServer.Deliver (Some m)) s0
             = TCPServer.reply TCPServer.Ack
                 (TCPServer.updDatabase
                    (DatabaseService.updateCommandStatus (Some cid) "failed"
                       (DatabaseService.mkStatusData None (Some "Device not connected")
                          None None (Some (TCPServer.now s0)))
                       (TCPServer.now s0)) s0)).
  { intros s0 H0. cbn [TCPServer.step]. f_equal.
    unfold TCPServer.run, TCPServer.handleDeviceCommand, TCPServer.catch,
      TCPServer.bind, TCPServer.get. cbv beta iota. rewrite H0, Hid. reflexivity. }
  cbv zeta. rewrite (Hstep s Hc). rewrite Hstep by exact Hc.
  cbn. rewrite !lookup_alter_eq, Hrow. cbn.
  repeat split. by rewrite <- app_assoc.
Qed.

(** ** The registry *)

(** What authentication does when the device is found. *)
Lemma authenticateDevice_found (s : TCPServer.Server) (c : nat) (imei : string)
    (row : DatabaseService.DeviceRow) :
  DatabaseService.getDeviceByImei (Some imei) (TCPServer.database s) = Some row ->
  TCPServer.run (TCPServer.authenticateDevice c imei) s =
    TCPServer.updConnection c
      (TCPServer.setSocket (TCPServer.socket_write (Buffer.fromAscii "LOAD")))
      (TCPServer.updManager
         (DeviceManager.setDeviceOnline (Some imei) true (TCPServer.now s))
         (TCPServer.updRegistry (insert imei c)
            (TCPServer.updConnection c (TCPServer.setAuthenticated imei) s))).
Proof.
  intros Hrow.
  unfold TCPServer.run, TCPServer.authenticateDevice, TCPServer.catch, TCPServer.bind,
    TCPServer.get. cbv beta iota. rewrite Hrow. reflexivity.
Qed.

(** C3, counterexample: connection 1 is registered under the IMEI and
    connection 2 authenticates with it; the socket of connection 1 is not
    destroyed. *)
Lemma older_socket_stays_open : ~ displacement_closes_older.
Proof.
  intros H.
  destruct (H (TCPServer.steps
                 [TCPServer.Connection 1; TCPServer.SocketData 1 Scenario.gt06Login;
                  TCPServer.Connection 2]
                 Scenario.server)
              1%nat 2%nat Scenario.imei)
    as [(dc & Hdc & Hdestroyed) _];
    [ lia | vm_compute; reflexivity | vm_compute; eauto | vm_compute; eauto
    | vm_compute; eauto | ].
  vm_compute in Hdc. injection Hdc as <-. discriminate Hdestroyed.
Qed.

(** C3, amended: the registry is a map, so it holds one connection an IMEI.
    When a connection authenticates with the IMEI of an active device, the
    registry maps that IMEI to it, the other entries of the registry stay, the
    device is online in the store, and every other connection object, the one
    that was registered under the IMEI included, is left as it was: its
    socket is not closed and it stays authenticated. *)
Theorem authentication_replaces_registry_entry (s : TCPServer.Server) (b : nat)
    (imei : string) (dcB : TCPServer.DeviceConnection) (row : DatabaseService.DeviceRow) :
  TCPServer.connections s !! b = Some dcB ->
  DatabaseService.getDeviceByImei (Some imei) (TCPServer.database s) = Some row ->
  let s' := TCPServer.run (TCPServer.authenticateDevice b imei) s in
  (forall c, TCPServer.connectedDevices s' !! imei = Some c -> c = b)
  /\ TCPServer.connectedDevices s' !! imei = Some b
  /\ (forall i, i <> imei ->
        TCPServer.connectedDevices s' !! i = TCPServer.connectedDevices s !! i)
  /\ (DatabaseService.online <$> DatabaseService.devices (TCPServer.database s') !! imei)
     = Some true
  /\ (exists dcB',
        TCPServer.connections s' !! b = Some dcB'
        /\ TCPServer.authenticated dcB' = true
        /\ TCPServer.imei dcB' = Some imei)
  /\ (forall a, a <> b -> TCPServer.connections s' !! a = TCPServer.connections s !! a).
Proof.
  intros HdcB Hrow. cbv zeta. rewrite (authenticateDevice_found s b imei row Hrow).
  split; [intros c; cbn; rewrite lookup_insert_eq; congruence |].
  split; [cbn; apply lookup_insert_eq |].
  split; [intros i Hi; cbn; by apply lookup_insert_ne |].
  split.
  { cbn. unfold DatabaseService.getDeviceByImei in Hrow. cbn in Hrow.
    rewrite lookup_alter_eq.
    destruct (DatabaseService.devices (TCPServer.database s) !! imei); [reflexivity |].
    discriminate Hrow. }
  split.
  { rewrite lookup_updConnection. case_decide; [| done].
    cbn [TCPServer.updManager TCPServer.updRegistry TCPServer.connections].
    rewrite lookup_updConnection, HdcB. case_decide; [| done].
    eexists. split; [reflexivity |]. split; reflexivity. }
  intros a Ha. rewrite lookup_updConnection. case_decide; [congruence |].
  cbn [TCPServer.updManager TCPServer.updRegistry TCPServer.connections].
  rewrite lookup_updConnection. by case_decide; [congruence |].
Qed.

(** Connection 2 authenticates with the IMEI under which connection 1 is
    registered. *)
Lemma authentication_replaces_registry_entry_witness :
  let s := TCPServer.steps
             [TCPServer.Connection 1; TCPServer.SocketData 1 Scenario.gt06Login;
              TCPServer.Connection 2]
             Scenario.server in
  let s' := TCPServer.run (TCPServer.authenticateDevice 2 Scenario.imei) s in
  TCPServer.connectedDevices s !! Scenario.imei = Some 1%nat
  /\ TCPServer.connectedDevices s' !! Scenario.imei = Some 2%nat
  /\ TCPServer.connections s' !! 1%nat = TCPServer.connections s !! 1%nat.
Proof.
  cbv zeta. split; [vm_compute; reflexivity |].
  destruct (authentication_replaces_registry_entry
              (TCPServer.steps
                 [TCPServer.Connection 1; TCPServer.SocketData 1 Scenario.gt06Login;
                  TCPServer.Connection 2]
                 Scenario.server)
              2%nat Scenario.imei
              (TCPServer.mkConnection (TCPServer.mkSocket false false []) None false 0%N []
                 (Some 30000%N))
              (DatabaseService.mkDeviceRow 7 true true (Some 0%N) None (Some 0%N)))
    as (_ & Hreg & _ & _ & _ & Hothers);
    [vm_compute; reflexivity | vm_compute; reflexivity |].
  split; [exact Hreg | apply Hothers; lia].
Defined.

(** When the older connection closes afterwards, its handler removes the
    entry of the newer one and marks the device offline. *)
Lemma older_close_unregisters_newer :
  let s := TCPServer.steps
             [TCPServer.Connection 1; TCPServer.SocketData 1 Scenario.gt06Login;
              TCPServer.Connection 2; TCPServer.SocketData 2 Scenario.gt06Login;
              TCPServer.SocketClose 1]
             Scenario.server in
  TCPServer.connectedDevices s !! Scenario.imei = None
  /\ (DatabaseService.online <$>
        DatabaseService.devices (TCPServer.database s) !! Scenario.imei) = Some false
  /\ (TCPServer.authenticated <$> TCPServer.connections s !! 2%nat) = Some true.
Proof. cbv zeta. evaluate. Qed.

(** ** The key of a GT06 device *)

(** A store that knows the device by its IMEI of fifteen digits does not
    know the sixteen characters of a GT06 login: the connection is destroyed. *)
Lemma gt06_login_needs_sixteen_character_key :
  let store := DatabaseService.mkDB
                 {[ "359710045490084" :=
                      DatabaseService.mkDeviceRow 7 true false None None None ]}
                 ∅ [] [] in
  let s := TCPServer.steps
             [TCPServer.Connection 1; TCPServer.SocketData 1 Scenario.gt06Login]
             (TCPServer.mkServer 0%N ∅ ∅ store ∅ [] []) in
  (fun dc => (TCPServer.authenticated dc, TCPServer.destroyed (TCPServer.socket dc)))
    <$> TCPServer.connections s !! 1%nat
  = Some (false, true).
Proof. vm_compute. reflexivity. Qed.

(** * Further properties of the codec *)

(** ** The checksum of GT06 *)

Lemma toZ_ofZ (z : Z) : Buffer.toZ (Buffer.ofZ z) = z mod 256.
Proof.
  unfold Buffer.toZ, Buffer.ofZ.
  pose proof (Z.mod_pos_bound z 256 ltac:(lia)) as Hz.
  destruct (Byte.of_N (Z.to_N (z mod 256))) as [b|] eqn:Hb.
  - apply Byte.to_of_N in Hb. rewrite Hb. lia.
  - apply Byte.of_N_None_iff in Hb. lia.
Qed.

Lemma calculateCRC_from (data : bytes) (acc : Z) :
  fold_left (fun crc b => crc + Buffer.toZ b) data acc = acc + byteSum data.
Proof.
  revert acc. induction data as [|b data IH]; intros acc; cbn [fold_left byteSum foldr].
  - lia.
  - rewrite IH. fold (byteSum data). lia.
Qed.

Lemma calculateCRC_byteSum (data : bytes) :
  GT06Parser.calculateCRC data = byteSum data mod 65536.
Proof.
  unfold GT06Parser.calculateCRC. rewrite calculateCRC_from.
  change 0xffff with (Z.ones 16). rewrite Z.land_ones by lia. reflexivity.
Qed.

Lemma byteSum_permutation (data data' : bytes) :
  data ≡ₚ data' -> byteSum data = byteSum data'.
Proof.
  induction 1 as [|b l l' _ IH|a b l|l1 l2 l3 _ IH1 _ IH2]; cbn [byteSum foldr] in *.
  - reflexivity.
  - fold (byteSum l) (byteSum l'). fold (byteSum l) (byteSum l') in IH. lia.
  - lia.
  - congruence.
Qed.

(** X1: the checksum of GT06 is the sum of the bytes modulo 65536, so it
    does not depend on the order of the bytes: a frame whose bytes have been
    transposed has the checksum of the original. *)
Theorem calculateCRC_ignores_order (data data' : bytes) :
  data ≡ₚ data' ->
  GT06Parser.calculateCRC data = byteSum data mod 65536
  /\ GT06Parser.calculateCRC data' = GT06Parser.calculateCRC data.
Proof.
  intros Hperm. split; [apply calculateCRC_byteSum |].
  rewrite !calculateCRC_byteSum. by rewrite (byteSum_permutation _ _ Hperm).
Qed.

(** The payloads of [engine_stop] and of a command that is not built, with
    the bytes [05] and [01] exchanged. *)
Lemma calculateCRC_ignores_order_witness :
  GT06Parser.calculateCRC [x80; x05; x01; x01] = 135
  /\ GT06Parser.calculateCRC [x80; x01; x05; x01]
     = GT06Parser.calculateCRC [x80; x05; x01; x01].
Proof.
  destruct (calculateCRC_ignores_order [x80; x05; x01; x01] [x80; x01; x05; x01])
    as [H1 H2]; [apply perm_skip, perm_swap |].
  split; [rewrite H1; reflexivity | exact H2].
Defined.

(** X2: [wrapCommand] returns for every payload; the frame has six bytes
    more than the payload, begins with the two start bytes and the length
    byte [data.length + 1], holds the payload from offset 3, and its last two
    bytes, read back as a big-endian number, are the checksum of everything
    between the start bytes and the checksum. *)
Theorem wrapCommand_frame (data : bytes) :
  exists frame,
    GT06Parser.wrapCommand data = Returned frame
    /\ length frame = (length data + 6)%nat
    /\ take 3 frame = [x78; x78; Buffer.ofZ (Z.of_nat (length data + 1))]
    /\ Buffer.slice 3 (length data + 3) frame = data
    /\ Buffer.readUInt16BE (length data + 4) frame
       = Returned (GT06Parser.calculateCRC (Buffer.slice 2 (length data + 4) frame)).
Proof.
  pose proof (wrapCommand_layout data) as H. cbv zeta in H.
  set (len := Buffer.ofZ (Z.of_nat (length data + 1))) in *.
  set (crc := GT06Parser.calculateCRC (len :: data ++ [x00])) in *.
  eexists. split; [exact H |].
  split; [cbn [length]; rewrite length_app; cbn [length]; lia |].
  split; [reflexivity |].
  split.
  { unfold Buffer.slice. cbn [skipn].
    replace (length data + 3 - 3)%nat with (length data) by lia.
    rewrite drop_0. by rewrite take_app_length. }
  assert (Hslice : Buffer.slice 2 (length data + 4)
                     (x78 :: x78 :: len :: data ++ [x00; Buffer.ofZ (crc / 256); Buffer.ofZ crc])
                   = len :: data ++ [x00]).
  { unfold Buffer.slice. cbn [skipn].
    replace (length data + 4 - 2)%nat with (S (length data + 1)) by lia.
    cbn [firstn]. f_equal.
    rewrite take_app_ge by lia.
    by replace (length data + 1 - length data)%nat with 1%nat by lia. }
  rewrite Hslice. fold crc.
  unfold Buffer.readUInt16BE.
  change (x78 :: x78 :: len :: data ++ [x00; Buffer.ofZ (crc / 256); Buffer.ofZ crc])
    with ((x78 :: x78 :: len :: data) ++ [x00; Buffer.ofZ (crc / 256); Buffer.ofZ crc]).
  rewrite !lookup_app_r by (cbn [length]; lia). cbn [length].
  replace (length data + 4 - S (S (S (length data))))%nat with 1%nat by lia.
  replace (length data + 4 + 1 - S (S (S (length data))))%nat with 2%nat by lia.
  cbn [lookup list_lookup]. rewrite !toZ_ofZ.
  pose proof (calculateCRC_range (len :: data ++ [x00])) as Hcrc. fold crc in Hcrc.
  f_equal. rewrite (Z.mod_small (crc / 256)) by (split; [apply Z.div_pos; lia | apply Z.div_lt_upper_bound; lia]).
  rewrite (Z.mul_comm (crc / 256)). symmetry. apply Z.div_mod. lia.
Qed.

(** X3: the GT06 decoder rejects every frame that the GT06 encoder builds,
    for its stop bytes: the encoder never writes them. *)
Theorem gt06_decoder_rejects_encoder (frame : bytes) :
  gt06Encoded frame ->
  GT06Parser.parse frame = Returned (Failure (Some "Invalid stop bits")).
Proof.
  intros [[command H] | [[success H] | [[success H] | [[sequence H] | H]]]].
  - unfold GT06Parser.buildCommand in H.
    repeat (destruct (String.eqb command _);
            [vm_compute in H; injection H as <-; reflexivity |]).
    discriminate H.
  - destruct success; vm_compute in H; injection H as <-; reflexivity.
  - destruct success; vm_compute in H; injection H as <-; reflexivity.
  - unfold GT06Parser.buildLocationAck in H.
    destruct (Buffer.ofZ (Z.land sequence 255));
      vm_compute in H; injection H as <-; reflexivity.
  - vm_compute in H. injection H as <-. reflexivity.
Qed.

(** The acknowledgement of a location with sequence number [0x1234]. *)
Lemma gt06_decoder_rejects_encoder_witness :
  GT06Parser.parse [x78; x78; x04; x05; x01; x34; x00; x00; x3e]
  = Returned (Failure (Some "Invalid stop bits")).
Proof.
  apply gt06_decoder_rejects_encoder.
  right; right; right; left. exists 0x1234. reflexivity.
Defined.

(** ** The frames that the GT06 decoder accepts *)

Lemma isAt_true (i : nat) (v : Z) (buffer : bytes) :
  Buffer.isAt i v buffer = true -> buffer !! i = Some (Buffer.ofZ v).
Proof.
  unfold Buffer.isAt. destruct (buffer !! i) as [b|]; [| discriminate].
  intros <-%Z.eqb_eq. by rewrite ofZ_toZ.
Qed.

Lemma isAt_lookup (i : nat) (b : byte) (buffer : bytes) :
  buffer !! i = Some b -> Buffer.isAt i (Buffer.toZ b) buffer = true.
Proof. unfold Buffer.isAt. intros ->. apply Z.eqb_refl. Qed.

Lemma slice_lookup (s e i : nat) (buffer : bytes) :
  Buffer.slice s e buffer !! i
  = if decide (i < e - s)%nat then buffer !! (s + i)%nat else None.
Proof.
  unfold Buffer.slice. rewrite lookup_take. case_decide; [| reflexivity].
  by rewrite lookup_drop.
Qed.

Lemma length_slice (s e : nat) (buffer : bytes) :
  (e <= length buffer)%nat -> length (Buffer.slice s e buffer) = (e - s)%nat.
Proof. intros He. unfold Buffer.slice. rewrite length_take, length_drop. lia. Qed.

(** Two buffers have the same slice when they have the same bytes there. *)
Lemma slice_agree (s e : nat) (buffer buffer' : bytes) :
  (e <= length buffer)%nat -> (e <= length buffer')%nat ->
  (forall i, (s <= i < e)%nat -> buffer' !! i = buffer !! i) ->
  Buffer.slice s e buffer' = Buffer.slice s e buffer.
Proof.
  intros He He' Hsame. apply list_eq. intros i.
  rewrite !slice_lookup. case_decide; [| reflexivity]. apply Hsame. lia.
Qed.

(** The bytes that [GT06Parser.parse] reads: the first four, the payload
    up to offset [len + 2], and the two stop bytes. The byte at [len + 2] and
    the bytes after the frame are not read. *)
Lemma gt06_parse_agree (buffer buffer' : bytes) :
  let len := Z.to_nat (Buffer.getZ 2 buffer) in
  (len + 5 <= length buffer)%nat ->
  (len + 5 <= length buffer')%nat ->
  (forall i, (i < 4 \/ i < len + 2 \/ i = len + 3 \/ i = len + 4)%nat ->
             buffer' !! i = buffer !! i) ->
  GT06Parser.parse buffer' = GT06Parser.parse buffer.
Proof.
  intros len Hlen Hlen' Hsame. unfold GT06Parser.parse.
  assert (Hget : forall i, (i < 4)%nat -> Buffer.getZ i buffer' = Buffer.getZ i buffer)
    by (intros i Hi; unfold Buffer.getZ; rewrite Hsame by lia; reflexivity).
  assert (Hat : forall i v, (i < 4 \/ i = len + 3 \/ i = len + 4)%nat ->
                            Buffer.isAt i v buffer' = Buffer.isAt i v buffer)
    by (intros i v Hi; unfold Buffer.isAt; rewrite Hsame by lia; reflexivity).
  replace (length buffer' <? 5)%nat with false by (symmetry; apply Nat.ltb_ge; lia).
  replace (length buffer <? 5)%nat with false by (symmetry; apply Nat.ltb_ge; lia).
  rewrite !(Hat 0%nat), !(Hat 1%nat), !(Hget 2%nat), !(Hget 3%nat) by lia.
  fold len.
  replace (length buffer' <? len + 5)%nat with false by (symmetry; apply Nat.ltb_ge; lia).
  replace (length buffer <? len + 5)%nat with false by (symmetry; apply Nat.ltb_ge; lia).
  rewrite !(Hat (len + 5 - 2)%nat), !(Hat (len + 5 - 1)%nat) by lia.
  rewrite (slice_agree 4 (3 + len - 1) buffer buffer') by (try lia; intros i Hi; apply Hsame; lia).
  reflexivity.
Qed.

(** What the checks of [GT06Parser.parse] establish when it returns a
    success or throws. *)
Lemma gt06_parse_checks (buffer : bytes) (r : outcome ParseResult) :
  GT06Parser.parse buffer = r ->
  (forall e, r <> Returned (Failure e)) ->
  gt06Framed buffer
  /\ forall data n, r = Returned (Success data n) ->
       n = (Z.to_nat (Buffer.getZ 2 buffer) + 5)%nat.
Proof.
  unfold GT06Parser.parse. intros <- Hr.
  destruct (length buffer <? 5)%nat eqn:H5; [by edestruct Hr |].
  destruct (negb (Buffer.isAt 0 _ buffer) || negb (Buffer.isAt 1 _ buffer)) eqn:Hstart;
    [by edestruct Hr |].
  set (len := Z.to_nat (Buffer.getZ 2 buffer)) in *.
  destruct (length buffer <? len + 5)%nat eqn:Hlen; [by edestruct Hr |].
  destruct (negb (Buffer.isAt (len + 5 - 2) _ buffer)
            || negb (Buffer.isAt (len + 5 - 1) _ buffer)) eqn:Hstop;
    [by edestruct Hr |].
  apply Nat.ltb_ge in H5, Hlen.
  apply orb_false_elim in Hstart as [H0%negb_false_iff%isAt_true H1%negb_false_iff%isAt_true].
  apply orb_false_elim in Hstop as [H2%negb_false_iff%isAt_true H3%negb_false_iff%isAt_true].
  split.
  - unfold gt06Framed. fold len. split; [| split; [exact Hlen |]].
    + destruct buffer as [|a [|b rest]]; cbn in H0, H1; try discriminate.
      injection H0 as ->. injection H1 as ->. reflexivity.
    + apply list_eq. intros i. rewrite slice_lookup.
      replace (len + 5 - 2)%nat with (len + 3)%nat in H2 by lia.
      replace (len + 5 - 1)%nat with (len + 4)%nat in H3 by lia.
      destruct i as [|[|i]]; case_decide; try lia.
      * by rewrite Nat.add_0_r, H2.
      * by replace (len + 3 + 1)%nat with (len + 4)%nat by lia.
      * reflexivity.
  - intros data n.
    match goal with |- context [mbind _ ?m] => destruct m end;
      cbn [mbind outcome_bind mret outcome_ret]; [| discriminate].
    by intros [= _ <-].
Qed.

Lemma gt06Framed_checks (buffer : bytes) :
  gt06Framed buffer ->
  let len := Z.to_nat (Buffer.getZ 2 buffer) in
  (5 <= length buffer)%nat
  /\ Buffer.isAt 0 GT06Parser.START_BIT buffer = true
  /\ Buffer.isAt 1 GT06Parser.START_BIT buffer = true
  /\ Buffer.isAt (len + 5 - 2) GT06Parser.STOP_BIT buffer = true
  /\ Buffer.isAt (len + 5 - 1) GT06Parser.STOP_BIT2 buffer = true.
Proof.
  intros (Hstart & Hlen & Hstop) len. fold len in Hlen, Hstop.
  split; [lia |].
  assert (H2 := f_equal (fun l => l !! 0%nat) Hstop).
  assert (H3 := f_equal (fun l => l !! 1%nat) Hstop).
  cbn beta in H2, H3. rewrite slice_lookup in H2, H3.
  case_decide; [| lia]. case_decide; [| lia].
  rewrite Nat.add_0_r in H2.
  replace (len + 5 - 2)%nat with (len + 3)%nat by lia.
  replace (len + 5 - 1)%nat with (len + 3 + 1)%nat by lia.
  destruct buffer as [|a [|b rest]]; try discriminate Hstart.
  injection Hstart as -> ->.
  split; [reflexivity |]. split; [reflexivity |]. split.
  - change GT06Parser.STOP_BIT with (Buffer.toZ x0d). by apply isAt_lookup.
  - change GT06Parser.STOP_BIT2 with (Buffer.toZ x0a). by apply isAt_lookup.
Qed.

(** X4: the GT06 decoder returns a frame only from a buffer that begins
    with the two start bytes and has, five bytes beyond what the length byte
    says, the two stop bytes within the buffer; the number of bytes it
    reports is the length byte plus five, between 5 and 260. On such a buffer
    it never reports a failure: it decodes the frame or throws. *)
Theorem gt06_parse_accepts_framed_buffers (buffer : bytes) :
  (forall data n,
     GT06Parser.parse buffer = Returned (Success data n) ->
     gt06Framed buffer
     /\ n = (Z.to_nat (Buffer.getZ 2 buffer) + 5)%nat
     /\ (5 <= n <= 260)%nat /\ (n <= length buffer)%nat)
  /\ (gt06Framed buffer ->
      forall error, GT06Parser.parse buffer <> Returned (Failure error)).
Proof.
  split.
  - intros data n H.
    destruct (gt06_parse_checks buffer _ H) as [Hframed Hn]; [by intros e |].
    specialize (Hn data n eq_refl). split; [exact Hframed |]. split; [exact Hn |].
    destruct Hframed as (_ & Hlen & _). subst n. split; [| exact Hlen].
    unfold Buffer.getZ. destruct (buffer !! 2%nat) as [b|]; cbn; [| lia].
    pose proof (toZ_range b). lia.
  - intros Hframed error.
    destruct (gt06Framed_checks buffer Hframed) as (H5 & H0 & H1 & H2 & H3).
    destruct Hframed as (_ & Hlen & _).
    unfold GT06Parser.parse.
    replace (length buffer <? 5)%nat with false by (symmetry; apply Nat.ltb_ge; lia).
    rewrite H0, H1. cbn [negb orb].
    replace (length buffer <? _ + 5)%nat with false by (symmetry; apply Nat.ltb_ge; lia).
    rewrite H2, H3. cbn [negb orb].
    match goal with |- context [mbind _ ?m] => destruct m end; discriminate.
Qed.

(** A heartbeat frame followed by one more byte. *)
Lemma gt06_parse_accepts_framed_buffers_witness :
  gt06Framed [x78; x78; x01; x13; x0d; x0a; x78]
  /\ (1 + 5 <= 7)%nat.
Proof.
  destruct (gt06_parse_accepts_framed_buffers [x78; x78; x01; x13; x0d; x0a; x78])
    as [H _].
  destruct (H (GT06Heartbeat []) 6%nat eq_refl) as (Hframed & _ & _ & Hlen).
  split; [exact Hframed | exact Hlen].
Defined.

(** X5: the GT06 decoder reads one frame: what it returns depends on the
    first [n] bytes of the buffer only, [n] being the number of bytes it
    reports. The bytes that follow the frame are left for the next call,
    whatever they are. *)
Theorem gt06_parse_reads_one_frame (buffer buffer' : bytes) (data : ParsedData) (n : nat) :
  GT06Parser.parse buffer = Returned (Success data n) ->
  take n buffer' = take n buffer ->
  GT06Parser.parse buffer' = Returned (Success data n).
Proof.
  intros H Htake.
  destruct (gt06_parse_checks buffer _ H) as [(_ & Hlen & _) Hn]; [by intros e |].
  specialize (Hn data n eq_refl). rewrite <- Hn in Hlen.
  assert (Hlen' : (n <= length buffer')%nat).
  { apply (f_equal length) in Htake. rewrite !length_take in Htake. lia. }
  rewrite <- H. apply gt06_parse_agree; [lia | lia |].
  intros i Hi.
  rewrite <- (lookup_take_lt buffer' n i), <- (lookup_take_lt buffer n i) by lia.
  by rewrite Htake.
Qed.

(** A heartbeat frame alone, and followed by the start of another frame. *)
Lemma gt06_parse_reads_one_frame_witness :
  GT06Parser.parse [x78; x78; x01; x13; x0d; x0a; x78; x78; x05]
  = Returned (Success (GT06Heartbeat []) 6).
Proof.
  apply (gt06_parse_reads_one_frame [x78; x78; x01; x13; x0d; x0a]); reflexivity.
Defined.

(** X6: the GT06 decoder verifies no checksum. In a frame of at least seven
    bytes, the byte before the stop bytes (the last byte of the checksum in a
    frame of the protocol) is not read: any value there gives the same
    result. *)
Theorem gt06_parse_ignores_checksum (buffer : bytes) (data : ParsedData) (n : nat) (v : byte) :
  GT06Parser.parse buffer = Returned (Success data n) ->
  (7 <= n)%nat ->
  GT06Parser.parse (<[(n - 3)%nat := v]> buffer) = Returned (Success data n).
Proof.
  intros H Hn7.
  destruct (gt06_parse_checks buffer _ H) as [(_ & Hlen & _) Hn]; [by intros e |].
  specialize (Hn data n eq_refl).
  rewrite <- H. apply gt06_parse_agree; [lia | rewrite length_insert; lia |].
  intros i Hi. apply list_lookup_insert_ne. lia.
Qed.

(** A login frame whose byte before the stop bytes is changed from [00] to
    [ff]. *)
Lemma gt06_parse_ignores_checksum_witness :
  GT06Parser.parse
    [x78; x78; x0c; x01; x03; x59; x71; x00; x45; x49; x00; x84; x50; x00; xff; x0d; x0a]
  = Returned (Success (GT06Login "0359710045490084" 0x5000) 17).
Proof.
  apply (gt06_parse_ignores_checksum Scenario.gt06Login _ 17 xff); [reflexivity | lia].
Defined.

(** ** Frames that no specific parser decodes *)

Lemma toStringHex_hexBytes (buffer : bytes) : JS.toStringHex buffer = hexBytes buffer.
Proof.
  unfold JS.toStringHex.
  induction buffer as [|b buffer IH]; [reflexivity |].
  cbn [map hexBytes foldr]. fold (hexBytes buffer). rewrite <- IH, padded_hex.
  destruct buffer as [|b' buffer]; [cbn; by rewrite append_nil_r | reflexivity].
Qed.

(** A buffer that begins with the start byte of GT06 is rejected by the
    parsers of the text protocols. *)
Lemma text_parsers_reject_start_byte (buffer : bytes) :
  take 2 buffer = [x78; x78] ->
  GPS303Parser.parse buffer = Returned (Failure None)
  /\ exists e, TK103Parser.parse buffer = Returned (Failure e).
Proof.
  intros Hstart. destruct buffer as [|a [|b rest]]; try discriminate Hstart.
  injection Hstart as -> ->.
  unfold GPS303Parser.parse, TK103Parser.parse. split; [reflexivity | eauto].
Qed.

Lemma generic_when_rejected (buffer : bytes) (r303 r06 r103 : outcome ParseResult) :
  GPS303Parser.parse buffer = r303 -> (forall d n, r303 <> Returned (Success d n)) ->
  GT06Parser.parse buffer = r06 -> (forall d n, r06 <> Returned (Success d n)) ->
  TK103Parser.parse buffer = r103 -> (forall d n, r103 <> Returned (Success d n)) ->
  ProtocolParser.parse buffer
  = ProtocolParser.mkResult
      (Success (GenericUnknown (hexBytes buffer)
                  (string_of_list_ascii
                     (map GenericParser.printable
                        (list_ascii_of_string (Buffer.toStringAscii buffer))))
                  (length buffer))
         (length buffer))
      (Some generic).
Proof.
  intros H303 N303 H06 N06 H103 N103. rewrite parse_unfold, H303, H06, H103.
  unfold GenericParser.parse. rewrite toStringHex_hexBytes.
  cbn [mret outcome_ret].
  destruct r303 as [[? ?|?]|?]; [by edestruct N303 | ..];
    (destruct r06 as [[? ?|?]|?]; [by edestruct N06 | ..]);
    (destruct r103 as [[? ?|?]|?]; [by edestruct N103 | ..]); reflexivity.
Qed.

(** X7: a GT06 frame whose payload is too short for its protocol number
    (a login with a length byte below 12, a location or an alarm with one
    below 23) makes the GT06 decoder throw; the top-level parse then hands the
    whole buffer, with whatever follows the frame, to the generic parser,
    which consumes it as an [unknown] event. *)
Theorem gt06_short_payload_is_swallowed (buffer : bytes) :
  gt06Framed buffer ->
  let len := Z.to_nat (Buffer.getZ 2 buffer) in
  let protocolNumber := Buffer.getZ 3 buffer in
  (protocolNumber = 0x01 /\ (len < 12)%nat
   \/ protocolNumber = 0x12 /\ (len < 23)%nat
   \/ protocolNumber = 0x16 /\ (len < 23)%nat) ->
  GT06Parser.parse buffer
  = Thrown (if protocolNumber =? 0x01 then "Invalid login data length"
            else if protocolNumber =? 0x12 then "Invalid location data length"
            else "Invalid alarm data length")
  /\ exists hex ascii,
       ProtocolParser.parse buffer
       = ProtocolParser.mkResult
           (Success (GenericUnknown hex ascii (length buffer)) (length buffer))
           (Some generic).
Proof.
  intros Hframed len protocolNumber Hshort.
  assert (H06 : GT06Parser.parse buffer
                = Thrown (if protocolNumber =? 0x01 then "Invalid login data length"
                          else if protocolNumber =? 0x12 then "Invalid location data length"
                          else "Invalid alarm data length")).
  { destruct (gt06Framed_checks buffer Hframed) as (H5 & H0 & H1 & H2 & H3).
    destruct Hframed as (_ & Hlen & _). fold len in Hlen, H2, H3.
    unfold GT06Parser.parse.
    replace (length buffer <? 5)%nat with false by (symmetry; apply Nat.ltb_ge; lia).
    rewrite H0, H1. cbn [negb orb]. fold len.
    replace (length buffer <? len + 5)%nat with false by (symmetry; apply Nat.ltb_ge; lia).
    rewrite H2, H3. cbn [negb orb]. fold protocolNumber.
    unfold GT06Parser.parseLogin, GT06Parser.parseLocation, GT06Parser.parseAlarm.
    rewrite length_slice by lia.
    destruct Hshort as [[-> Hl] | [[-> Hl] | [-> Hl]]]; cbn [Z.eqb Pos.eqb];
      [replace (3 + len - 1 - 4 <? 10)%nat with true by (symmetry; apply Nat.ltb_lt; lia)
      | replace (3 + len - 1 - 4 <? 21)%nat with true by (symmetry; apply Nat.ltb_lt; lia)
      | replace (3 + len - 1 - 4 <? 21)%nat with true by (symmetry; apply Nat.ltb_lt; lia)];
      reflexivity. }
  split; [exact H06 |].
  destruct Hframed as (Hstart & _).
  destruct (text_parsers_reject_start_byte buffer Hstart) as [H303 [e H103]].
  eexists _, _.
  apply (generic_when_rejected buffer _ _ _ H303 ltac:(discriminate) H06 ltac:(discriminate)
           H103 ltac:(discriminate)).
Qed.

(** A login frame with three bytes of IMEI, followed by a heartbeat frame:
    the eleven bytes are consumed together. *)
Lemma gt06_short_payload_is_swallowed_witness :
  GT06Parser.parse [x78; x78; x05; x01; x03; x59; x71; x00; x0d; x0a; x78]
  = Thrown "Invalid login data length"
  /\ exists hex ascii,
       ProtocolParser.parse [x78; x78; x05; x01; x03; x59; x71; x00; x0d; x0a; x78]
       = ProtocolParser.mkResult (Success (GenericUnknown hex ascii 11) 11) (Some generic).
Proof.
  apply (gt06_short_payload_is_swallowed
           [x78; x78; x05; x01; x03; x59; x71; x00; x0d; x0a; x78]).
  - repeat split. vm_compute. lia.
  - left. split; [reflexivity | vm_compute; lia].
Defined.

(** X8: the top-level parse never returns a result of the TK103 or of the
    H02 parser. H02 decodes nothing, and whatever TK103 accepts begins with
    [##], which the GPS303 parser, tried first, takes for its own login: the
    frame is returned as a GPS303 login, which carries no IMEI. *)
Theorem tk103_and_h02_never_decode (buffer : bytes) :
  ProtocolParser.protocol_ (ProtocolParser.parse buffer) <> Some tk103
  /\ ProtocolParser.protocol_ (ProtocolParser.parse buffer) <> Some h02
  /\ (accepts tk103 buffer ->
      ProtocolParser.parse buffer
      = ProtocolParser.mkResult
          (Success (GPS303Login (Buffer.toStringAscii buffer)) (length buffer))
          (Some gps303)
      /\ data_imei (GPS303Login (Buffer.toStringAscii buffer)) = None).
Proof.
  assert (Hsharp : JS.startsWith (Buffer.toStringAscii buffer) "##" = true ->
                   ProtocolParser.parse buffer
                   = ProtocolParser.mkResult
                       (Success (GPS303Login (Buffer.toStringAscii buffer)) (length buffer))
                       (Some gps303)).
  { intros Hs. rewrite parse_unfold. unfold GPS303Parser.parse. by rewrite Hs. }
  assert (H103 : forall d n, TK103Parser.parse buffer = Returned (Success d n) ->
                             JS.startsWith (Buffer.toStringAscii buffer) "##" = true).
  { intros d n. unfold TK103Parser.parse.
    destruct (JS.startsWith _ "##"); [reflexivity | discriminate]. }
  assert (Hp : forall p, ProtocolParser.protocol_ (ProtocolParser.parse buffer) = Some p ->
                         p = gps303 \/ p = gt06 \/ p = generic).
  { intros p.
    destruct (JS.startsWith (Buffer.toStringAscii buffer) "##") eqn:Hs;
      [rewrite Hsharp by reflexivity; intros [= <-]; tauto |].
    rewrite parse_unfold. unfold TK103Parser.parse. rewrite Hs.
    cbn [mret outcome_ret].
    destruct (GPS303Parser.parse buffer) as [[? ?|?]|?]; [intros [= <-]; tauto | ..];
      (destruct (GT06Parser.parse buffer) as [[? ?|?]|?]; [intros [= <-]; tauto | ..]);
      destruct (generic_parse buffer) as (hex & asc & ->); intros [= <-]; tauto. }
  split; [intros H; by destruct (Hp _ H) as [? | [? | ?]] |].
  split; [intros H; by destruct (Hp _ H) as [? | [? | ?]] |].
  intros (d & n & Hacc). cbn [ProtocolParser.parser_parse] in Hacc.
  split; [apply Hsharp; by eapply H103 | reflexivity].
Qed.

(** The login of a TK103 device. *)
Lemma tk103_and_h02_never_decode_witness :
  TK103Parser.parse Scenario.gps303Login
  = Returned (Success (TK103Login "359710045490084") 26)
  /\ ProtocolParser.parse Scenario.gps303Login
     = ProtocolParser.mkResult
         (Success (GPS303Login "##,imei:359710045490084,A;") 26) (Some gps303).
Proof.
  split; [reflexivity |].
  destruct (tk103_and_h02_never_decode Scenario.gps303Login) as (_ & _ & H).
  destruct H as [H _]; [| exact H].
  exists (TK103Login "359710045490084"), 26%nat. reflexivity.
Defined.

Lemma gt06_rejects_letter_i (buffer : bytes) :
  JS.startsWith (Buffer.toStringAscii buffer) "imei:" = true ->
  exists e, GT06Parser.parse buffer = Returned (Failure e).
Proof.
  intros Hs. unfold GT06Parser.parse.
  destruct (length buffer <? 5)%nat; [eauto |].
  destruct buffer as [|b rest]; [discriminate Hs |].
  assert (Hb : Buffer.isAt 0 GT06Parser.START_BIT (b :: rest) = false).
  { unfold Buffer.isAt. cbn [lookup list_lookup].
    apply Z.eqb_neq. intros Hx.
    assert (b = x78) as -> by (rewrite <- (ofZ_toZ b), Hx; reflexivity).
    discriminate Hs. }
  rewrite Hb. cbn [negb orb]. eauto.
Qed.

(** X9: a GPS303 frame that starts with [imei:] but has fewer than twelve
    comma-separated fields is decoded by no specific parser: the top-level
    parse returns it as an [unknown] event of the generic parser that
    consumes the whole buffer. *)
Theorem gps303_short_frame_is_unknown (buffer : bytes) :
  JS.startsWith (Buffer.toStringAscii buffer) "imei:" = true ->
  (length (JS.split "," (JS.trim (Buffer.toStringAscii buffer))) < 12)%nat ->
  GPS303Parser.parse buffer = Returned (Failure None)
  /\ exists hex ascii,
       ProtocolParser.parse buffer
       = ProtocolParser.mkResult
           (Success (GenericUnknown hex ascii (length buffer)) (length buffer))
           (Some generic)
       /\ data_imei (GenericUnknown hex ascii (length buffer)) = None.
Proof.
  intros Himei Hlen.
  assert (H303 : GPS303Parser.parse buffer = Returned (Failure None)).
  { unfold GPS303Parser.parse.
    rewrite (startsWith_imei_not_login _ Himei), Himei.
    replace (12 <=? length (JS.split "," (JS.trim (Buffer.toStringAscii buffer))))%nat
      with false by (symmetry; apply Nat.leb_gt; exact Hlen).
    reflexivity. }
  split; [exact H303 |].
  destruct (gt06_rejects_letter_i buffer Himei) as [e06 H06].
  assert (H103 : TK103Parser.parse buffer = Returned (Failure (Some "Not TK103 protocol")))
    by (unfold TK103Parser.parse; by rewrite (startsWith_imei_not_login _ Himei)).
  eexists _, _. split; [| reflexivity].
  apply (generic_when_rejected buffer _ _ _ H303 ltac:(discriminate) H06 ltac:(discriminate)
           H103 ltac:(discriminate)).
Qed.

(** A frame of three fields. *)
Lemma gps303_short_frame_is_unknown_witness :
  GPS303Parser.parse (Buffer.fromAscii "imei:359710045490084,tracker,250101120000;")
  = Returned (Failure None)
  /\ exists hex ascii,
       ProtocolParser.parse
         (Buffer.fromAscii "imei:359710045490084,tracker,250101120000;")
       = ProtocolParser.mkResult (Success (GenericUnknown hex ascii 42) 42) (Some generic)
       /\ data_imei (GenericUnknown hex ascii 42) = None.
Proof.
  apply (gps303_short_frame_is_unknown
           (Buffer.fromAscii "imei:359710045490084,tracker,250101120000;"));
    [reflexivity | vm_compute; lia].
Defined.

Lemma printable_isPrintable (c : ascii) : isPrintable (GenericParser.printable c).
Proof.
  unfold GenericParser.printable, isPrintable.
  destruct ((32 <=? Z.of_N (N_of_ascii c)) && (Z.of_N (N_of_ascii c) <=? 126)) eqn:H.
  - apply andb_true_iff in H as [?%Z.leb_le ?%Z.leb_le]. lia.
  - cbn. lia.
Qed.

(** X10: the generic parser accepts every buffer, the empty one included,
    and consumes all of it. Of the two renderings it returns, [hex] has two
    lower-case hexadecimal digits for each byte, and [ascii] has one character
    for each byte, every one of them between the space and the tilde. *)
Theorem generic_parse_renders_every_byte (buffer : bytes) :
  exists ascii,
    GenericParser.parse buffer
    = Returned (Success (GenericUnknown (hexBytes buffer) ascii (length buffer))
                  (length buffer))
    /\ String.length (hexBytes buffer) = (2 * length buffer)%nat
    /\ String.length ascii = length buffer
    /\ Forall isPrintable (list_ascii_of_string ascii).
Proof.
  eexists. split; [unfold GenericParser.parse; by rewrite toStringHex_hexBytes |].
  split; [apply length_hexBytes |].
  split.
  - rewrite length_string_of_list_ascii, length_map.
    rewrite <- (length_toStringAscii buffer).
    generalize (Buffer.toStringAscii buffer). intros s.
    induction s as [|c s IH]; cbn; [reflexivity | by rewrite IH].
  - rewrite list_ascii_of_string_of_list_ascii.
    apply List.Forall_map, Forall_forall. intros c _.
    apply printable_isPrintable.
Qed.

(** * Further properties of the server *)

(** ** Running a handler *)

Lemma bind_returned {A B} (m : TCPServer.M A) (k : A -> TCPServer.M B)
    (s s' : TCPServer.Server) (a : A) :
  m s = (Returned a, s') -> TCPServer.bind m k s = k a s'.
Proof. intros H. unfold TCPServer.bind. by rewrite H. Qed.

Lemma bind_modify {B} (f : TCPServer.Server -> TCPServer.Server)
    (k : unit -> TCPServer.M B) (s : TCPServer.Server) :
  TCPServer.bind (TCPServer.modify f) k s = k tt (f s).
Proof. reflexivity. Qed.

Lemma bind_connection {B} (c : nat) (k : TCPServer.DeviceConnection -> TCPServer.M B)
    (s : TCPServer.Server) (dc : TCPServer.DeviceConnection) :
  TCPServer.connections s !! c = Some dc ->
  TCPServer.bind (TCPServer.connection c) k s = k dc s.
Proof. intros H. unfold TCPServer.bind, TCPServer.connection. by rewrite H. Qed.

Lemma bind_get {B} (k : TCPServer.Server -> TCPServer.M B) (s : TCPServer.Server) :
  TCPServer.bind TCPServer.get k s = k s s.
Proof. reflexivity. Qed.

Lemma bind_ret {A B} (a : A) (k : A -> TCPServer.M B) (s : TCPServer.Server) :
  TCPServer.bind (TCPServer.ret a) k s = k a s.
Proof. reflexivity. Qed.


(** Changes of one connection object. *)
Lemma updConnection_set (c : nat)
    (f : TCPServer.DeviceConnection -> TCPServer.DeviceConnection)
    (s : TCPServer.Server) (dc : TCPServer.DeviceConnection) :
  TCPServer.connections s !! c = Some dc ->
  TCPServer.updConnection c f s = TCPServer.updConnection c (fun _ => f dc) s.
Proof.
  intros Hc. unfold TCPServer.updConnection. f_equal.
  apply map_eq. intros c'. rewrite !lookup_alter.
  case_decide; [by rewrite Hc | reflexivity].
Qed.

Lemma updConnection_twice (c : nat)
    (f g : TCPServer.DeviceConnection -> TCPServer.DeviceConnection)
    (s : TCPServer.Server) :
  TCPServer.updConnection c f (TCPServer.updConnection c g s)
  = TCPServer.updConnection c (fun dc => f (g dc)) s.
Proof.
  unfold TCPServer.updConnection. cbn. f_equal.
  apply map_eq. intros c'. rewrite !lookup_alter.
  repeat case_decide; try congruence. by destruct (TCPServer.connections s !! c).
Qed.

Lemma lookup_updConnection_eq (c : nat)
    (f : TCPServer.DeviceConnection -> TCPServer.DeviceConnection)
    (s : TCPServer.Server) (dc : TCPServer.DeviceConnection) :
  TCPServer.connections s !! c = Some dc ->
  TCPServer.connections (TCPServer.updConnection c f s) !! c = Some (f dc).
Proof. intros Hc. rewrite lookup_updConnection, Hc. by case_decide. Qed.

(** The first steps of [handleDeviceData] on a buffer that is decoded: the
    segment is appended, the buffer is parsed and the decoded bytes are
    removed. *)
Ltac enter_handleDeviceData Hc Hparse :=
  unfold TCPServer.handleDeviceData;
  rewrite bind_modify; cbv beta;
  unfold TCPServer.catch at 1;
  erewrite bind_connection by (apply lookup_updConnection_eq; exact Hc);
  cbv beta zeta;
  cbn [TCPServer.buffer TCPServer.setBuffer TCPServer.authenticated TCPServer.clearTimeout];
  rewrite Hparse; rewrite bind_modify; cbv beta;
  rewrite updConnection_twice;
  unfold Buffer.sliceFrom.

Lemma parse_sharp (buffer : bytes) :
  JS.startsWith (Buffer.toStringAscii buffer) "##" = true ->
  ProtocolParser.parse buffer
  = ProtocolParser.mkResult
      (Success (GPS303Login (Buffer.toStringAscii buffer)) (length buffer)) (Some gps303).
Proof. intros Hs. rewrite parse_unfold. unfold GPS303Parser.parse. by rewrite Hs. Qed.

(** X11: a segment that makes the buffer of a session begin with [##] is
    answered with [LOAD] and nothing else happens: the whole buffer is
    consumed, the timer of the connection is cleared and the time of the
    segment is recorded; the session is not authenticated by it, even when
    the frame carries an IMEI, and the store, the registry and the device
    cache are left as they were. *)
Theorem sharp_login_is_only_answered (s : TCPServer.Server) (c : nat)
    (dc : TCPServer.DeviceConnection) (data : bytes) :
  TCPServer.connections s !! c = Some dc ->
  TCPServer.destroyed (TCPServer.socket dc) = false ->
  JS.startsWith (Buffer.toStringAscii (TCPServer.buffer dc ++ data)) "##" = true ->
  TCPServer.step (TCPServer.SocketData c data) s
  = TCPServer.updConnection c
      (fun _ =>
         TCPServer.mkConnection
           (TCPServer.mkSocket false (TCPServer.closed (TCPServer.socket dc))
              (TCPServer.written (TCPServer.socket dc) ++ [Buffer.fromAscii "LOAD"]))
           (TCPServer.imei dc) (TCPServer.authenticated dc) (TCPServer.now s) [] None)
      s.
Proof.
  intros Hc Hd Hsharp.
  assert (Hparse := f_equal ProtocolParser.result (parse_sharp _ Hsharp)).
  cbn [ProtocolParser.result] in Hparse.
  rewrite (socketData_unfold c data s dc Hc Hd). cbv zeta.
  assert (Hc1 := lookup_updConnection_eq c TCPServer.clearTimeout s dc Hc).
  assert (Hrun : TCPServer.handleDeviceData c data
                   (TCPServer.updConnection c TCPServer.clearTimeout s)
                 = (Returned tt,
                    TCPServer.updConnection c
                      (fun _ =>
                         TCPServer.mkConnection
                           (TCPServer.mkSocket false (TCPServer.closed (TCPServer.socket dc))
                              (TCPServer.written (TCPServer.socket dc)
                                 ++ [Buffer.fromAscii "LOAD"]))
                           (TCPServer.imei dc) (TCPServer.authenticated dc)
                           (TCPServer.lastSeen dc) [] None)
                      s)).
  { enter_handleDeviceData Hc1 Hparse.
    cbn [data_type data_protocol String.eqb Ascii.eqb Bool.eqb andb].
    rewrite bool_decide_eq_true_2 by reflexivity.
    unfold TCPServer.write, TCPServer.modify. cbv beta iota.
    rewrite !updConnection_twice.
    rewrite (updConnection_set c _ s dc Hc).
    unfold TCPServer.setSocket, TCPServer.setBuffer, TCPServer.clearTimeout,
      TCPServer.socket_write.
    cbn [TCPServer.socket TCPServer.imei TCPServer.authenticated TCPServer.lastSeen
           TCPServer.buffer TCPServer.authTimeout].
    rewrite Hd. rewrite length_app, <- length_app, drop_all. reflexivity. }
  rewrite Hrun. cbn [fst snd].
  rewrite updConnection_twice. reflexivity.
Qed.

(** The login of a GPS303 device, which carries its IMEI, on a connection
    that has just been accepted. *)
Lemma sharp_login_is_only_answered_witness :
  TCPServer.step (TCPServer.SocketData 1 Scenario.gps303Login)
    (TCPServer.step (TCPServer.Connection 1) Scenario.server)
  = TCPServer.updConnection 1
      (fun _ =>
         TCPServer.mkConnection (TCPServer.mkSocket false false [Buffer.fromAscii "LOAD"])
           None false 0%N [] None)
      (TCPServer.step (TCPServer.Connection 1) Scenario.server).
Proof.
  refine (sharp_login_is_only_answered
            (TCPServer.step (TCPServer.Connection 1) Scenario.server) 1
            (TCPServer.mkConnection (TCPServer.mkSocket false false []) None false 0%N []
               (Some 30000%N))
            Scenario.gps303Login _ _ _); reflexivity.
Defined.

(** The connection object in the state in which the handlers of a segment
    run. *)
Ltac connection_fields :=
  unfold TCPServer.setSocket, TCPServer.setBuffer, TCPServer.clearTimeout,
    TCPServer.setLastSeen, TCPServer.setAuthenticated;
  cbn [TCPServer.socket TCPServer.imei TCPServer.authenticated TCPServer.lastSeen
         TCPServer.buffer TCPServer.authTimeout].

(** X12: a frame without an IMEI that is not a login, arriving on a session
    that is not authenticated, is dropped: its bytes leave the buffer, the
    timer is cleared and the time of the segment is recorded, but nothing is
    written to the socket, stored or published, and the session stays
    unauthenticated. *)
Theorem unauthenticated_event_is_dropped (s : TCPServer.Server) (c : nat)
    (dc : TCPServer.DeviceConnection) (data : bytes) (pd : ParsedData) (n : nat) :
  TCPServer.connections s !! c = Some dc ->
  TCPServer.destroyed (TCPServer.socket dc) = false ->
  TCPServer.authenticated dc = false ->
  ProtocolParser.result (ProtocolParser.parse (TCPServer.buffer dc ++ data))
    = Success pd n ->
  data_type pd <> "login" ->
  truthy (data_imei pd) = false ->
  TCPServer.step (TCPServer.SocketData c data) s
  = TCPServer.updConnection c
      (fun _ =>
         TCPServer.mkConnection (TCPServer.socket dc) (TCPServer.imei dc) false
           (TCPServer.now s) (drop n (TCPServer.buffer dc ++ data)) None)
      s.
Proof.
  intros Hc Hd Hauth Hparse Htype Himei.
  rewrite (socketData_unfold c data s dc Hc Hd). cbv zeta.
  assert (Hc1 := lookup_updConnection_eq c TCPServer.clearTimeout s dc Hc).
  apply String.eqb_neq in Htype.
  assert (Hrun : TCPServer.handleDeviceData c data
                   (TCPServer.updConnection c TCPServer.clearTimeout s)
                 = (Returned tt,
                    TCPServer.updConnection c
                      (fun _ =>
                         TCPServer.mkConnection (TCPServer.socket dc) (TCPServer.imei dc)
                           false (TCPServer.lastSeen dc)
                           (drop n (TCPServer.buffer dc ++ data)) None)
                      s)).
  { enter_handleDeviceData Hc1 Hparse.
    rewrite Htype, Hauth, Himei. cbn [andb negb TCPServer.when].
    rewrite bind_ret.
    erewrite bind_connection by (apply lookup_updConnection_eq; exact Hc1).
    connection_fields. rewrite Hauth. cbn [andb negb].
    unfold TCPServer.ret.
    rewrite updConnection_twice, (updConnection_set c _ s dc Hc).
    connection_fields. by rewrite Hauth. }
  rewrite Hrun. cbn [fst snd].
  rewrite updConnection_twice. reflexivity.
Qed.

(** A GT06 heartbeat on a connection that has just been accepted. *)
Lemma unauthenticated_event_is_dropped_witness :
  TCPServer.step (TCPServer.SocketData 1 [x78; x78; x01; x13; x0d; x0a])
    (TCPServer.step (TCPServer.Connection 1) Scenario.server)
  = TCPServer.updConnection 1
      (fun _ =>
         TCPServer.mkConnection (TCPServer.mkSocket false false []) None false 0%N [] None)
      (TCPServer.step (TCPServer.Connection 1) Scenario.server).
Proof.
  refine (unauthenticated_event_is_dropped
            (TCPServer.step (TCPServer.Connection 1) Scenario.server) 1
            (TCPServer.mkConnection (TCPServer.mkSocket false false []) None false 0%N []
               (Some 30000%N))
            [x78; x78; x01; x13; x0d; x0a] (GT06Heartbeat []) 6 _ _ _ _ _ _);
    [reflexivity | reflexivity | reflexivity | vm_compute; reflexivity | discriminate
    | reflexivity].
Defined.

Lemma updConnection_updManager (c : nat)
    (f : TCPServer.DeviceConnection -> TCPServer.DeviceConnection)
    (g : DatabaseService.DB * gmap (option string) DeviceManager.Status ->
         DatabaseService.DB * gmap (option string) DeviceManager.Status)
    (s : TCPServer.Server) :
  TCPServer.updConnection c f (TCPServer.updManager g s)
  = TCPServer.updManager g (TCPServer.updConnection c f s).
Proof. reflexivity. Qed.

Lemma updDatabase_updConnection (c : nat)
    (f : TCPServer.DeviceConnection -> TCPServer.DeviceConnection)
    (g : DatabaseService.DB -> DatabaseService.DB) (s : TCPServer.Server) :
  TCPServer.updDatabase g (TCPServer.updConnection c f s)
  = TCPServer.updConnection c f (TCPServer.updDatabase g s).
Proof. reflexivity. Qed.

Lemma publishToQueue_updConnection (c : nat)
    (f : TCPServer.DeviceConnection -> TCPServer.DeviceConnection)
    (p : TCPServer.Publication) (s : TCPServer.Server) :
  TCPServer.publishToQueue p (TCPServer.updConnection c f s)
  = TCPServer.updConnection c f (TCPServer.publishToQueue p s).
Proof. reflexivity. Qed.

Lemma updManager_updConnection (c : nat)
    (f : TCPServer.DeviceConnection -> TCPServer.DeviceConnection)
    (g : DatabaseService.DB * gmap (option string) DeviceManager.Status ->
         DatabaseService.DB * gmap (option string) DeviceManager.Status)
    (s : TCPServer.Server) :
  TCPServer.updManager g (TCPServer.updConnection c f s)
  = TCPServer.updConnection c f (TCPServer.updManager g s).
Proof. reflexivity. Qed.

Lemma updRegistry_updConnection (c : nat)
    (f : TCPServer.DeviceConnection -> TCPServer.DeviceConnection)
    (g : gmap string nat -> gmap string nat) (s : TCPServer.Server) :
  TCPServer.updRegistry g (TCPServer.updConnection c f s)
  = TCPServer.updConnection c f (TCPServer.updRegistry g s).
Proof. reflexivity. Qed.

Lemma database_updConnection (c : nat)
    (f : TCPServer.DeviceConnection -> TCPServer.DeviceConnection) (s : TCPServer.Server) :
  TCPServer.database (TCPServer.updConnection c f s) = TCPServer.database s.
Proof. reflexivity. Qed.

Lemma now_updConnection (c : nat)
    (f : TCPServer.DeviceConnection -> TCPServer.DeviceConnection) (s : TCPServer.Server) :
  TCPServer.now (TCPServer.updConnection c f s) = TCPServer.now s.
Proof. reflexivity. Qed.

(** The changes of a connection object are moved to the outside of a
    state and merged. *)
Ltac float_connection :=
  repeat (progress
    rewrite ?updRegistry_updConnection, ?updManager_updConnection,
      ?updDatabase_updConnection, ?publishToQueue_updConnection,
      ?updConnection_twice, ?database_updConnection, ?now_updConnection).

(** What the handlers of the events return, and the state they leave. *)
Lemma authenticateDevice_unknown (s : TCPServer.Server) (c : nat) (imei : string) :
  DatabaseService.getDeviceByImei (Some imei) (TCPServer.database s) = None ->
  TCPServer.authenticateDevice c imei s
  = (Returned tt, TCPServer.updConnection c (TCPServer.setSocket TCPServer.socket_destroy) s).
Proof.
  intros Hrow.
  unfold TCPServer.authenticateDevice, TCPServer.catch, TCPServer.bind, TCPServer.get.
  cbv beta iota. rewrite Hrow. reflexivity.
Qed.

Lemma authenticateDevice_known (s : TCPServer.Server) (c : nat) (imei : string)
    (row : DatabaseService.DeviceRow) :
  DatabaseService.getDeviceByImei (Some imei) (TCPServer.database s) = Some row ->
  TCPServer.authenticateDevice c imei s
  = (Returned tt,
     TCPServer.updConnection c
       (TCPServer.setSocket (TCPServer.socket_write (Buffer.fromAscii "LOAD")))
       (TCPServer.updManager
          (DeviceManager.setDeviceOnline (Some imei) true (TCPServer.now s))
          (TCPServer.updRegistry (insert imei c)
             (TCPServer.updConnection c (TCPServer.setAuthenticated imei) s)))).
Proof.
  intros Hrow.
  unfold TCPServer.authenticateDevice, TCPServer.catch, TCPServer.bind, TCPServer.get.
  cbv beta iota. rewrite Hrow. reflexivity.
Qed.

Lemma handleLogin_run (s : TCPServer.Server) (c : nat) (dc : TCPServer.DeviceConnection)
    (data : ParsedData) :
  TCPServer.connections s !! c = Some dc ->
  TCPServer.handleLogin c data s
  = (Returned tt,
     TCPServer.updConnection c
       (TCPServer.setSocket (TCPServer.socket_write (Buffer.fromAscii "LOAD")))
       (TCPServer.updManager
          (DeviceManager.updateLastLogin (TCPServer.imei dc) (TCPServer.now s)) s)).
Proof.
  intros Hc. unfold TCPServer.handleLogin.
  rewrite (bind_connection c _ s dc Hc). reflexivity.
Qed.

Lemma handleLocationData_run (s : TCPServer.Server) (c : nat)
    (dc : TCPServer.DeviceConnection) (data : ParsedData) :
  TCPServer.connections s !! c = Some dc ->
  let deviceId :=
    DatabaseService.getDeviceIdByImei (TCPServer.imei dc) (TCPServer.database s) in
  TCPServer.handleLocationData c data s
  = (Returned tt,
     TCPServer.updConnection c
       (TCPServer.setSocket (TCPServer.socket_write (Buffer.fromAscii "ON")))
       (TCPServer.publishToQueue
          (TCPServer.mkPublication "tracker_messages" "location" (TCPServer.imei dc)
             deviceId data)
          (TCPServer.updDatabase
             (DatabaseService.saveLocation
                (DatabaseService.mkLocationRow deviceId (data_latitude data)
                   (data_longitude data) (orZero (data_speed data))
                   (default JS.DateNow (data_timestamp data))))
             s))).
Proof.
  intros Hc deviceId. unfold TCPServer.handleLocationData, TCPServer.catch.
  rewrite (bind_connection c _ s dc Hc). reflexivity.
Qed.

(** X13: a login with the IMEI of a device that the store does not know,
    or knows as inactive, on a session that is not authenticated: the socket
    is destroyed and nothing is written to it, the session is neither
    authenticated nor registered, and the store is not told about the device.
    The login handler runs all the same: it records a login, and marks as
    online, the entry of the device cache under the IMEI of the connection
    object, which is not the IMEI of the frame. *)
Theorem rejected_login_is_still_handled (s : TCPServer.Server) (c : nat)
    (dc : TCPServer.DeviceConnection) (data : bytes) (imei : string) (typeId : Z)
    (n : nat) :
  TCPServer.connections s !! c = Some dc ->
  TCPServer.destroyed (TCPServer.socket dc) = false ->
  TCPServer.authenticated dc = false ->
  ProtocolParser.result (ProtocolParser.parse (TCPServer.buffer dc ++ data))
    = Success (GT06Login imei typeId) n ->
  imei <> "" ->
  DatabaseService.getDeviceByImei (Some imei) (TCPServer.database s) = None ->
  TCPServer.step (TCPServer.SocketData c data) s
  = TCPServer.updManager
      (DeviceManager.updateLastLogin (TCPServer.imei dc) (TCPServer.now s))
      (TCPServer.updConnection c
         (fun _ =>
            TCPServer.mkConnection
              (TCPServer.mkSocket true (TCPServer.closed (TCPServer.socket dc))
                 (TCPServer.written (TCPServer.socket dc)))
              (TCPServer.imei dc) false (TCPServer.now s)
              (drop n (TCPServer.buffer dc ++ data)) None)
         s).
Proof.
  intros Hc Hd Hauth Hparse Himei Hrow.
  rewrite (socketData_unfold c data s dc Hc Hd). cbv zeta.
  assert (Hc1 := lookup_updConnection_eq c TCPServer.clearTimeout s dc Hc).
  apply String.eqb_neq in Himei.
  assert (Hrun : TCPServer.handleDeviceData c data
                   (TCPServer.updConnection c TCPServer.clearTimeout s)
                 = (Returned tt,
                    TCPServer.updManager
                      (DeviceManager.updateLastLogin (TCPServer.imei dc) (TCPServer.now s))
                      (TCPServer.updConnection c
                         (fun _ =>
                            TCPServer.mkConnection
                              (TCPServer.mkSocket true
                                 (TCPServer.closed (TCPServer.socket dc))
                                 (TCPServer.written (TCPServer.socket dc)))
                              (TCPServer.imei dc) false (TCPServer.lastSeen dc)
                              (drop n (TCPServer.buffer dc ++ data)) None)
                         s))).
  { enter_handleDeviceData Hc1 Hparse.
    cbn [data_type data_protocol data_imei truthy default String.eqb Ascii.eqb Bool.eqb andb].
    rewrite bool_decide_eq_false_2 by discriminate.
    rewrite Hauth, Himei. cbn [andb negb TCPServer.when].
    rewrite updConnection_twice, (updConnection_set c _ s dc Hc).
    erewrite bind_returned by (apply authenticateDevice_unknown; exact Hrow).
    rewrite updConnection_twice.
    erewrite bind_connection by (apply lookup_updConnection_eq; exact Hc).
    connection_fields. rewrite Hauth. cbn [andb negb].
    erewrite handleLogin_run by (apply lookup_updConnection_eq; exact Hc).
    connection_fields.
    rewrite updConnection_updManager, updConnection_twice.
    unfold TCPServer.socket_write, TCPServer.socket_destroy.
    cbn [TCPServer.destroyed TCPServer.closed TCPServer.written]. reflexivity. }
  rewrite Hrun. cbn [fst snd].
  rewrite updConnection_updManager, updConnection_twice. reflexivity.
Qed.

(** An empty store, a connection that has just been accepted, and the GT06
    login of a device that the store does not hold. *)
Lemma rejected_login_is_still_handled_witness :
  let s := TCPServer.step (TCPServer.Connection 1)
             (TCPServer.mkServer 0%N ∅ ∅ (DatabaseService.mkDB ∅ ∅ [] []) ∅ [] []) in
  TCPServer.step (TCPServer.SocketData 1 Scenario.gt06Login) s
  = TCPServer.updManager (DeviceManager.updateLastLogin None 0%N)
      (TCPServer.updConnection 1
         (fun _ =>
            TCPServer.mkConnection (TCPServer.mkSocket true false []) None false 0%N []
              None)
         s).
Proof.
  refine (rejected_login_is_still_handled
            (TCPServer.step (TCPServer.Connection 1)
               (TCPServer.mkServer 0%N ∅ ∅ (DatabaseService.mkDB ∅ ∅ [] []) ∅ [] []))
            1
            (TCPServer.mkConnection (TCPServer.mkSocket false false []) None false 0%N []
               (Some 30000%N))
            Scenario.gt06Login "0359710045490084" 0x5000 17 _ _ _ _ _ _);
    [reflexivity | reflexivity | reflexivity | vm_compute; reflexivity | discriminate
    | reflexivity].
Defined.

Lemma getDeviceIdByImei_online (imei : string) (now : N) (db : DatabaseService.DB)
    (row : DatabaseService.DeviceRow) :
  DatabaseService.getDeviceByImei (Some imei) db = Some row ->
  DatabaseService.getDeviceIdByImei (Some imei)
    (DatabaseService.setDeviceOnlineStatus (Some imei) true now db)
  = Some (DatabaseService.id row).
Proof.
  unfold DatabaseService.getDeviceIdByImei, DatabaseService.getDeviceByImei,
    DatabaseService.setDeviceOnlineStatus, DatabaseService.updateDevice.
  cbn [mbind option_bind DatabaseService.devices]. rewrite lookup_alter_eq.
  destruct (DatabaseService.devices db !! imei) as [r|]; [| discriminate].
  cbn [fmap option_fmap option_map DatabaseService.active DatabaseService.id].
  destruct (DatabaseService.active r); [| discriminate]. by intros [= <-].
Qed.

(** X14: a location frame on an authenticated session: one row is appended
    to the locations of the store, with the identifier that the store holds
    for the IMEI of the session at that moment, one message is published to
    [tracker_messages], and [ON] is written to the socket, whatever parser
    decoded the frame. The registry, the devices, the commands and the device
    cache are left as they were. *)
Theorem location_is_stored_published_and_acknowledged (s : TCPServer.Server) (c : nat)
    (dc : TCPServer.DeviceConnection) (data : bytes) (pd : ParsedData) (n : nat) :
  TCPServer.connections s !! c = Some dc ->
  TCPServer.destroyed (TCPServer.socket dc) = false ->
  TCPServer.authenticated dc = true ->
  ProtocolParser.result (ProtocolParser.parse (TCPServer.buffer dc ++ data))
    = Success pd n ->
  data_type pd = "location" ->
  let deviceId :=
    DatabaseService.getDeviceIdByImei (TCPServer.imei dc) (TCPServer.database s) in
  TCPServer.step (TCPServer.SocketData c data) s
  = TCPServer.updConnection c
      (fun _ =>
         TCPServer.mkConnection
           (TCPServer.mkSocket false (TCPServer.closed (TCPServer.socket dc))
              (TCPServer.written (TCPServer.socket dc) ++ [Buffer.fromAscii "ON"]))
           (TCPServer.imei dc) true (TCPServer.now s)
           (drop n (TCPServer.buffer dc ++ data)) None)
      (TCPServer.publishToQueue
         (TCPServer.mkPublication "tracker_messages" "location" (TCPServer.imei dc)
            deviceId pd)
         (TCPServer.updDatabase
            (DatabaseService.saveLocation
               (DatabaseService.mkLocationRow deviceId (data_latitude pd)
                  (data_longitude pd) (orZero (data_speed pd))
                  (default JS.DateNow (data_timestamp pd))))
            s)).
Proof.
  intros Hc Hd Hauth Hparse Htype deviceId.
  rewrite (socketData_unfold c data s dc Hc Hd). cbv zeta.
  assert (Hc1 := lookup_updConnection_eq c TCPServer.clearTimeout s dc Hc).
  assert (Hrun : TCPServer.handleDeviceData c data
                   (TCPServer.updConnection c TCPServer.clearTimeout s)
                 = (Returned tt,
                    TCPServer.updConnection c
                      (fun _ =>
                         TCPServer.mkConnection
                           (TCPServer.mkSocket false (TCPServer.closed (TCPServer.socket dc))
                              (TCPServer.written (TCPServer.socket dc)
                                 ++ [Buffer.fromAscii "ON"]))
                           (TCPServer.imei dc) true (TCPServer.lastSeen dc)
                           (drop n (TCPServer.buffer dc ++ data)) None)
                      (TCPServer.publishToQueue
                         (TCPServer.mkPublication "tracker_messages" "location"
                            (TCPServer.imei dc) deviceId pd)
                         (TCPServer.updDatabase
                            (DatabaseService.saveLocation
                               (DatabaseService.mkLocationRow deviceId (data_latitude pd)
                                  (data_longitude pd) (orZero (data_speed pd))
                                  (default JS.DateNow (data_timestamp pd))))
                            s)))).
  { enter_handleDeviceData Hc1 Hparse.
    rewrite Htype, Hauth. cbn [String.eqb Ascii.eqb Bool.eqb andb negb TCPServer.when].
    rewrite bind_ret.
    rewrite updConnection_twice, (updConnection_set c _ s dc Hc).
    erewrite bind_connection by (apply lookup_updConnection_eq; exact Hc).
    connection_fields. rewrite Hauth. cbn [andb negb].
    erewrite handleLocationData_run by (apply lookup_updConnection_eq; exact Hc).
    rewrite !database_updConnection, updDatabase_updConnection,
      publishToQueue_updConnection, updConnection_twice.
    connection_fields. unfold TCPServer.socket_write. rewrite Hd.
    cbn [TCPServer.destroyed TCPServer.closed TCPServer.written].
    reflexivity. }
  rewrite Hrun. cbn [fst snd].
  rewrite updConnection_twice. reflexivity.
Qed.

(** The session of the scenario, authenticated by a GT06 login, receives
    the position frame of GPS303. *)
Lemma location_is_stored_published_and_acknowledged_witness :
  let s := TCPServer.steps
             [TCPServer.Connection 1; TCPServer.SocketData 1 Scenario.gt06Login]
             Scenario.server in
  let s' := TCPServer.step (TCPServer.SocketData 1 Scenario.gps303Position) s in
  (TCPServer.written <$> (TCPServer.socket <$> TCPServer.connections s' !! 1%nat))
  = Some [Buffer.fromAscii "LOAD"; Buffer.fromAscii "LOAD"; Buffer.fromAscii "ON"]
  /\ DatabaseService.loc_device_id <$> DatabaseService.locations (TCPServer.database s')
     = [Some 7]
  /\ length (TCPServer.published s') = 1%nat.
Proof.
  cbv zeta.
  assert (Hparse : exists pd,
             ProtocolParser.result (ProtocolParser.parse ([] ++ Scenario.gps303Position))
             = Success pd 91
             /\ data_type pd = "location")
    by (eexists; split; vm_compute; reflexivity).
  destruct Hparse as (pd & Hparse & Htype).
  rewrite (location_is_stored_published_and_acknowledged
             (TCPServer.steps
                [TCPServer.Connection 1; TCPServer.SocketData 1 Scenario.gt06Login]
                Scenario.server)
             1
             (TCPServer.mkConnection
                (TCPServer.mkSocket false false
                   [Buffer.fromAscii "LOAD"; Buffer.fromAscii "LOAD"])
                (Some Scenario.imei) true 0%N [] None)
             Scenario.gps303Position pd 91
             ltac:(vm_compute; reflexivity) eq_refl eq_refl Hparse Htype).
  repeat split; vm_compute; reflexivity.
Defined.

(** X15: the first frame with an IMEI on a session that is not
    authenticated, when it is a location and the store holds an active device
    with that IMEI: the session is authenticated and registered under the
    IMEI, the device is set online in the store and in the device cache, the
    location is stored and published with the identifier of the device, and
    the socket is written [LOAD] and then [ON]. *)
Theorem first_location_authenticates (s : TCPServer.Server) (c : nat)
    (dc : TCPServer.DeviceConnection) (data : bytes) (pd : ParsedData) (n : nat)
    (imei : string) (row : DatabaseService.DeviceRow) :
  TCPServer.connections s !! c = Some dc ->
  TCPServer.destroyed (TCPServer.socket dc) = false ->
  TCPServer.authenticated dc = false ->
  ProtocolParser.result (ProtocolParser.parse (TCPServer.buffer dc ++ data))
    = Success pd n ->
  data_type pd = "location" ->
  data_imei pd = Some imei ->
  imei <> "" ->
  DatabaseService.getDeviceByImei (Some imei) (TCPServer.database s) = Some row ->
  TCPServer.step (TCPServer.SocketData c data) s
  = TCPServer.updConnection c
      (fun _ =>
         TCPServer.mkConnection
           (TCPServer.mkSocket false (TCPServer.closed (TCPServer.socket dc))
              (TCPServer.written (TCPServer.socket dc)
                 ++ [Buffer.fromAscii "LOAD"; Buffer.fromAscii "ON"]))
           (Some imei) true (TCPServer.now s)
           (drop n (TCPServer.buffer dc ++ data)) None)
      (TCPServer.publishToQueue
         (TCPServer.mkPublication "tracker_messages" "location" (Some imei)
            (Some (DatabaseService.id row)) pd)
         (TCPServer.updDatabase
            (DatabaseService.saveLocation
               (DatabaseService.mkLocationRow (Some (DatabaseService.id row))
                  (data_latitude pd) (data_longitude pd) (orZero (data_speed pd))
                  (default JS.DateNow (data_timestamp pd))))
            (TCPServer.updManager
               (DeviceManager.setDeviceOnline (Some imei) true (TCPServer.now s))
               (TCPServer.updRegistry (insert imei c) s)))).
Proof.
  intros Hc Hd Hauth Hparse Htype Himei Hne Hrow.
  rewrite (socketData_unfold c data s dc Hc Hd). cbv zeta.
  assert (Hc1 := lookup_updConnection_eq c TCPServer.clearTimeout s dc Hc).
  apply String.eqb_neq in Hne.
  match goal with |- _ = ?rhs =>
    assert (Hrun : exists s',
               TCPServer.handleDeviceData c data
                 (TCPServer.updConnection c TCPServer.clearTimeout s)
               = (Returned tt, s')
               /\ TCPServer.updConnection c (TCPServer.setLastSeen (TCPServer.now s')) s'
                  = rhs)
  end.
  { eexists. split.
    - enter_handleDeviceData Hc1 Hparse.
      rewrite Htype, Hauth, Himei.
      cbn [truthy default String.eqb Ascii.eqb Bool.eqb andb negb TCPServer.when].
      rewrite Hne. cbn [negb TCPServer.when].
      rewrite updConnection_twice, (updConnection_set c _ s dc Hc).
      erewrite bind_returned
        by (apply (authenticateDevice_known _ c imei row);
            rewrite database_updConnection; exact Hrow).
      float_connection.
      erewrite bind_connection by (apply lookup_updConnection_eq; exact Hc).
      connection_fields. cbn [andb negb].
      erewrite handleLocationData_run by (apply lookup_updConnection_eq; exact Hc).
      float_connection. connection_fields. reflexivity.
    - rewrite updConnection_twice. connection_fields.
      unfold TCPServer.socket_write. rewrite Hd.
      cbn [TCPServer.destroyed TCPServer.closed TCPServer.written TCPServer.now
             TCPServer.updConnection TCPServer.publishToQueue TCPServer.updDatabase
             TCPServer.updManager TCPServer.updRegistry TCPServer.database
             TCPServer.deviceStatus fst snd DeviceManager.setDeviceOnline].
      rewrite (getDeviceIdByImei_online imei (TCPServer.now s) (TCPServer.database s) row Hrow).
      rewrite <- app_assoc. reflexivity. }
  destruct Hrun as (s' & Hrun & Hs'). rewrite Hrun. cbn [fst snd]. exact Hs'.
Qed.

(** The position frame of the scenario on a connection that has just been
    accepted, the store holding the device under its IMEI of fifteen digits. *)
Lemma first_location_authenticates_witness :
  let store := DatabaseService.mkDB
                 {[ "359710045490084" :=
                      DatabaseService.mkDeviceRow 7 true false None None None ]}
                 ∅ [] [] in
  let s := TCPServer.step (TCPServer.Connection 1)
             (TCPServer.mkServer 0%N ∅ ∅ store ∅ [] []) in
  let s' := TCPServer.step (TCPServer.SocketData 1 Scenario.gps303Position) s in
  TCPServer.connectedDevices s' !! "359710045490084" = Some 1%nat
  /\ (TCPServer.written <$> (TCPServer.socket <$> TCPServer.connections s' !! 1%nat))
     = Some [Buffer.fromAscii "LOAD"; Buffer.fromAscii "ON"]
  /\ DatabaseService.loc_device_id <$> DatabaseService.locations (TCPServer.database s')
     = [Some 7].
Proof.
  cbv zeta.
  assert (Hparse : exists pd,
             ProtocolParser.result (ProtocolParser.parse ([] ++ Scenario.gps303Position))
             = Success pd 91
             /\ data_type pd = "location"
             /\ data_imei pd = Some "359710045490084")
    by (eexists; repeat split; vm_compute; reflexivity).
  destruct Hparse as (pd & Hparse & Htype & Himei).
  rewrite (first_location_authenticates
             (TCPServer.step (TCPServer.Connection 1)
                (TCPServer.mkServer 0%N ∅ ∅
                   (DatabaseService.mkDB
                      {[ "359710045490084" :=
                           DatabaseService.mkDeviceRow 7 true false None None None ]}
                      ∅ [] [])
                   ∅ [] []))
             1
             (TCPServer.mkConnection (TCPServer.mkSocket false false []) None false 0%N []
                (Some 30000%N))
             Scenario.gps303Position pd 91 "359710045490084"
             (DatabaseService.mkDeviceRow 7 true false None None None));
    [| vm_compute; reflexivity | reflexivity | reflexivity | exact Hparse | exact Htype
     | exact Himei | discriminate | vm_compute; reflexivity].
  repeat split; vm_compute; reflexivity.
Defined.

(** X16: the GT06 login of a device that the store holds as active, on a
    session that is not authenticated: the session is authenticated and
    registered under the IMEI of the frame, the device is set online in the
    store and in the device cache, its login is recorded, and [LOAD] is
    written to the socket twice, once for the authentication and once for the
    login. *)
Theorem accepted_login_registers_the_session (s : TCPServer.Server) (c : nat)
    (dc : TCPServer.DeviceConnection) (data : bytes) (imei : string) (typeId : Z)
    (n : nat) (row : DatabaseService.DeviceRow) :
  TCPServer.connections s !! c = Some dc ->
  TCPServer.destroyed (TCPServer.socket dc) = false ->
  TCPServer.authenticated dc = false ->
  ProtocolParser.result (ProtocolParser.parse (TCPServer.buffer dc ++ data))
    = Success (GT06Login imei typeId) n ->
  imei <> "" ->
  DatabaseService.getDeviceByImei (Some imei) (TCPServer.database s) = Some row ->
  TCPServer.step (TCPServer.SocketData c data) s
  = TCPServer.updConnection c
      (fun _ =>
         TCPServer.mkConnection
           (TCPServer.mkSocket false (TCPServer.closed (TCPServer.socket dc))
              (TCPServer.written (TCPServer.socket dc)
                 ++ [Buffer.fromAscii "LOAD"; Buffer.fromAscii "LOAD"]))
           (Some imei) true (TCPServer.now s)
           (drop n (TCPServer.buffer dc ++ data)) None)
      (TCPServer.updManager
         (DeviceManager.updateLastLogin (Some imei) (TCPServer.now s))
         (TCPServer.updManager
            (DeviceManager.setDeviceOnline (Some imei) true (TCPServer.now s))
            (TCPServer.updRegistry (insert imei c) s))).
Proof.
  intros Hc Hd Hauth Hparse Hne Hrow.
  rewrite (socketData_unfold c data s dc Hc Hd). cbv zeta.
  assert (Hc1 := lookup_updConnection_eq c TCPServer.clearTimeout s dc Hc).
  apply String.eqb_neq in Hne.
  match goal with |- _ = ?rhs =>
    assert (Hrun : exists s',
               TCPServer.handleDeviceData c data
                 (TCPServer.updConnection c TCPServer.clearTimeout s)
               = (Returned tt, s')
               /\ TCPServer.updConnection c (TCPServer.setLastSeen (TCPServer.now s')) s'
                  = rhs)
  end.
  { eexists. split.
    - enter_handleDeviceData Hc1 Hparse.
      cbn [data_type data_protocol data_imei truthy default String.eqb Ascii.eqb Bool.eqb
             andb].
      rewrite bool_decide_eq_false_2 by discriminate.
      rewrite Hauth, Hne. cbn [andb negb TCPServer.when].
      rewrite updConnection_twice, (updConnection_set c _ s dc Hc).
      erewrite bind_returned
        by (apply (authenticateDevice_known _ c imei row);
            rewrite database_updConnection; exact Hrow).
      float_connection.
      erewrite bind_connection by (apply lookup_updConnection_eq; exact Hc).
      connection_fields. cbn [andb negb].
      erewrite handleLogin_run by (apply lookup_updConnection_eq; exact Hc).
      float_connection. connection_fields. reflexivity.
    - rewrite updConnection_twice. connection_fields.
      unfold TCPServer.socket_write. rewrite Hd.
      cbn [TCPServer.destroyed TCPServer.closed TCPServer.written TCPServer.now
             TCPServer.updConnection TCPServer.updManager TCPServer.updRegistry].
      rewrite <- app_assoc. reflexivity. }
  destruct Hrun as (s' & Hrun & Hs'). rewrite Hrun. cbn [fst snd]. exact Hs'.
Qed.

(** The login of the scenario on a connection that has just been
    accepted. *)
Lemma accepted_login_registers_the_session_witness :
  let s := TCPServer.step (TCPServer.Connection 1) Scenario.server in
  let s' := TCPServer.step (TCPServer.SocketData 1 Scenario.gt06Login) s in
  TCPServer.connectedDevices s' !! Scenario.imei = Some 1%nat
  /\ (TCPServer.written <$> (TCPServer.socket <$> TCPServer.connections s' !! 1%nat))
     = Some [Buffer.fromAscii "LOAD"; Buffer.fromAscii "LOAD"]
  /\ DatabaseService.devices (TCPServer.database s') !! Scenario.imei
     = Some (DatabaseService.mkDeviceRow 7 true true (Some 0%N) None (Some 0%N)).
Proof.
  cbv zeta.
  rewrite (accepted_login_registers_the_session
             (TCPServer.step (TCPServer.Connection 1) Scenario.server) 1
             (TCPServer.mkConnection (TCPServer.mkSocket false false []) None false 0%N []
                (Some 30000%N))
             Scenario.gt06Login Scenario.imei 0x5000 17
             (DatabaseService.mkDeviceRow 7 true false None None None));
    [| vm_compute; reflexivity | reflexivity | reflexivity | vm_compute; reflexivity
     | discriminate | vm_compute; reflexivity].
  repeat split; vm_compute; reflexivity.
Defined.

Lemma handleAlarmData_run (s : TCPServer.Server) (c : nat)
    (dc : TCPServer.DeviceConnection) (data : ParsedData) :
  TCPServer.connections s !! c = Some dc ->
  let deviceId :=
    DatabaseService.getDeviceIdByImei (TCPServer.imei dc) (TCPServer.database s) in
  TCPServer.handleAlarmData c data s
  = (Returned tt,
     TCPServer.publishToQueue
       (TCPServer.mkPublication "device_alerts" "alarm" (TCPServer.imei dc) deviceId data)
       (TCPServer.updDatabase
          (DatabaseService.saveAlert
             (DatabaseService.mkAlertRow deviceId (data_alarmType data) "Alarm triggered"
                (data_latitude data) (data_longitude data)
                (default JS.DateNow (data_timestamp data))
                (if truthy (data_raw data) then data_raw data else None)))
          s)).
Proof.
  intros Hc deviceId. unfold TCPServer.handleAlarmData, TCPServer.catch.
  rewrite (bind_connection c _ s dc Hc). reflexivity.
Qed.

(** X17: an alarm frame on an authenticated session: one row is appended to
    the alerts of the store, with the kind of alarm of the frame and the
    message [Alarm triggered], which no parser replaces, and one message is
    published to [device_alerts]; nothing is written to the socket. *)
Theorem alarm_is_stored_and_published_unanswered (s : TCPServer.Server) (c : nat)
    (dc : TCPServer.DeviceConnection) (data : bytes) (pd : ParsedData) (n : nat) :
  TCPServer.connections s !! c = Some dc ->
  TCPServer.destroyed (TCPServer.socket dc) = false ->
  TCPServer.authenticated dc = true ->
  ProtocolParser.result (ProtocolParser.parse (TCPServer.buffer dc ++ data))
    = Success pd n ->
  data_type pd = "alarm" ->
  let deviceId :=
    DatabaseService.getDeviceIdByImei (TCPServer.imei dc) (TCPServer.database s) in
  TCPServer.step (TCPServer.SocketData c data) s
  = TCPServer.updConnection c
      (fun _ =>
         TCPServer.mkConnection (TCPServer.socket dc) (TCPServer.imei dc) true
           (TCPServer.now s) (drop n (TCPServer.buffer dc ++ data)) None)
      (TCPServer.publishToQueue
         (TCPServer.mkPublication "device_alerts" "alarm" (TCPServer.imei dc) deviceId pd)
         (TCPServer.updDatabase
            (DatabaseService.saveAlert
               (DatabaseService.mkAlertRow deviceId (data_alarmType pd) "Alarm triggered"
                  (data_latitude pd) (data_longitude pd)
                  (default JS.DateNow (data_timestamp pd))
                  (if truthy (data_raw pd) then data_raw pd else None)))
            s)).
Proof.
  intros Hc Hd Hauth Hparse Htype deviceId.
  rewrite (socketData_unfold c data s dc Hc Hd). cbv zeta.
  assert (Hc1 := lookup_updConnection_eq c TCPServer.clearTimeout s dc Hc).
  match goal with |- _ = ?rhs =>
    assert (Hrun : exists s',
               TCPServer.handleDeviceData c data
                 (TCPServer.updConnection c TCPServer.clearTimeout s)
               = (Returned tt, s')
               /\ TCPServer.updConnection c (TCPServer.setLastSeen (TCPServer.now s')) s'
                  = rhs)
  end.
  { eexists. split.
    - enter_handleDeviceData Hc1 Hparse.
      rewrite Htype, Hauth. cbn [String.eqb Ascii.eqb Bool.eqb andb negb TCPServer.when].
      rewrite bind_ret.
      rewrite updConnection_twice, (updConnection_set c _ s dc Hc).
      erewrite bind_connection by (apply lookup_updConnection_eq; exact Hc).
      connection_fields. rewrite Hauth. cbn [andb negb].
      erewrite handleAlarmData_run by (apply lookup_updConnection_eq; exact Hc).
      float_connection. connection_fields. reflexivity.
    - rewrite updConnection_twice. connection_fields. rewrite ?Hauth. reflexivity. }
  destruct Hrun as (s' & Hrun & Hs'). rewrite Hrun. cbn [fst snd]. exact Hs'.
Qed.

(** A GT06 alarm of kind 1 on the session of the scenario. *)
Lemma alarm_is_stored_and_published_unanswered_witness :
  let alarm := [x78; x78; x17; x16; x19; x01; x01; x0c; x00; x00; x00;
                x02; x6a; x4b; x5c; x04; x9e; x2c; x10; x2a; x00; x5a; x01; x00; x00;
                x00; x0d; x0a] in
  let s := TCPServer.steps
             [TCPServer.Connection 1; TCPServer.SocketData 1 Scenario.gt06Login]
             Scenario.server in
  let s' := TCPServer.step (TCPServer.SocketData 1 alarm) s in
  (fun a => (DatabaseService.al_alert_type a, DatabaseService.al_message a))
    <$> DatabaseService.alerts (TCPServer.database s')
  = [(Some "SOS", "Alarm triggered")]
  /\ (TCPServer.written <$> (TCPServer.socket <$> TCPServer.connections s' !! 1%nat))
     = Some [Buffer.fromAscii "LOAD"; Buffer.fromAscii "LOAD"]
  /\ length (TCPServer.published s') = 1%nat.
Proof.
  cbv zeta.
  assert (Hparse : exists pd,
             ProtocolParser.result
               (ProtocolParser.parse
                  ([] ++ [x78; x78; x17; x16; x19; x01; x01; x0c; x00; x00; x00;
                          x02; x6a; x4b; x5c; x04; x9e; x2c; x10; x2a; x00; x5a; x01; x00;
                          x00; x00; x0d; x0a]))
             = Success pd 28
             /\ data_type pd = "alarm"
             /\ data_alarmType pd = Some "SOS")
    by (eexists; repeat split; vm_compute; reflexivity).
  destruct Hparse as (pd & Hparse & Htype & Hkind).
  rewrite (alarm_is_stored_and_published_unanswered
             (TCPServer.steps
                [TCPServer.Connection 1; TCPServer.SocketData 1 Scenario.gt06Login]
                Scenario.server)
             1
             (TCPServer.mkConnection
                (TCPServer.mkSocket false false
                   [Buffer.fromAscii "LOAD"; Buffer.fromAscii "LOAD"])
                (Some Scenario.imei) true 0%N [] None)
             _ pd 28);
    [| vm_compute; reflexivity | reflexivity | reflexivity | exact Hparse | exact Htype].
  cbn [TCPServer.updConnection TCPServer.publishToQueue TCPServer.updDatabase
         TCPServer.database DatabaseService.saveAlert DatabaseService.alerts
         TCPServer.published TCPServer.connections].
  rewrite Hkind. repeat split; vm_compute; reflexivity.
Defined.

(** ** Handlers that complete *)

Section Completes.
Variable c : nat.
Variable R : relation TCPServer.Server.
Hypothesis R_refl : forall s, R s s.
Hypothesis R_trans : forall s1 s2 s3, R s1 s2 -> R s2 s3 -> R s1 s3.
Hypothesis R_holds : forall s s',
  R s s' -> is_Some (TCPServer.connections s !! c) -> is_Some (TCPServer.connections s' !! c).

Lemma completes_ret {A} (a : A) : completes c R (TCPServer.ret a).
Proof using R_refl. intros s _. split; [by exists a | apply R_refl]. Qed.

Lemma completes_get : completes c R TCPServer.get.
Proof using R_refl. intros s _. split; [by exists s | apply R_refl]. Qed.

Lemma completes_connection : completes c R (TCPServer.connection c).
Proof using R_refl.
  intros s [dc Hdc]. unfold TCPServer.connection. rewrite Hdc.
  split; [by exists dc | apply R_refl].
Qed.

Lemma completes_modify (f : TCPServer.Server -> TCPServer.Server) :
  (forall s, R s (f s)) -> completes c R (TCPServer.modify f).
Proof. intros Hf s _. split; [by exists tt | apply Hf]. Qed.

Lemma completes_bind {A B} (m : TCPServer.M A) (f : A -> TCPServer.M B) :
  completes c R m -> (forall a, completes c R (f a)) -> completes c R (TCPServer.bind m f).
Proof using R_trans R_holds.
  intros Hm Hf s Hs. unfold TCPServer.bind.
  destruct (Hm s Hs) as [[a Ha] HR]. destruct (m s) as [o s']. cbn in Ha, HR. subst o.
  destruct (Hf a s' (R_holds _ _ HR Hs)) as [Hret HR'].
  split; [exact Hret | by eapply R_trans].
Qed.

Lemma completes_bind_lift {A B} (o : outcome A) (a : A) (f : A -> TCPServer.M B) :
  o = Returned a -> completes c R (f a) -> completes c R (TCPServer.bind (TCPServer.lift o) f).
Proof. intros -> Hf s Hs. apply (Hf s Hs). Qed.

Lemma completes_catch {A} (m : TCPServer.M A) (h : string -> TCPServer.M A) :
  completes c R m -> completes c R (TCPServer.catch m h).
Proof.
  intros Hm s Hs. unfold TCPServer.catch.
  destruct (Hm s Hs) as [[a Ha] HR]. destruct (m s) as [o s']. cbn in Ha, HR. subst o.
  split; [by exists a | exact HR].
Qed.

Lemma completes_when (b : bool) (m : TCPServer.M unit) :
  completes c R m -> completes c R (TCPServer.when b m).
Proof using R_refl. intros Hm. destruct b; [exact Hm | apply completes_ret]. Qed.

End Completes.

Lemma sameSession_refl (dc : TCPServer.DeviceConnection) : sameSession dc dc.
Proof. by repeat split. Qed.

Lemma settled_refl (s : TCPServer.Server) : settled s s.
Proof.
  repeat split. intros c.
  destruct (TCPServer.connections s !! c); constructor. apply sameSession_refl.
Qed.

Lemma settled_trans (s1 s2 s3 : TCPServer.Server) :
  settled s1 s2 -> settled s2 s3 -> settled s1 s3.
Proof.
  intros (Hr1 & Hc1 & Hp1 & H1) (Hr2 & Hc2 & Hp2 & H2).
  split; [congruence |]. split; [congruence |]. split; [congruence |].
  intros c. specialize (H1 c). specialize (H2 c).
  destruct H1 as [dc1 dc2 (? & ? & ? & ?)|]; inversion H2 as [? dc3 (? & ? & ? & ?)|];
    subst; constructor.
  repeat split; congruence.
Qed.

Lemma settled_holds (c : nat) (s s' : TCPServer.Server) :
  settled s s' ->
  is_Some (TCPServer.connections s !! c) -> is_Some (TCPServer.connections s' !! c).
Proof.
  intros (_ & _ & _ & H) [dc Hdc]. specialize (H c). rewrite Hdc in H.
  inversion H. eauto.
Qed.

Lemma settled_updConnection (c : nat)
    (f : TCPServer.DeviceConnection -> TCPServer.DeviceConnection) (s : TCPServer.Server) :
  (forall dc, sameSession dc (f dc)) -> settled s (TCPServer.updConnection c f s).
Proof.
  intros Hf. repeat split. intros c'. rewrite lookup_updConnection.
  case_decide; destruct (TCPServer.connections s !! c'); constructor;
    [apply Hf | apply sameSession_refl].
Qed.

Lemma settled_same_sessions (s s' : TCPServer.Server) :
  TCPServer.connectedDevices s' = TCPServer.connectedDevices s ->
  DatabaseService.commands (TCPServer.database s')
    = DatabaseService.commands (TCPServer.database s) ->
  TCPServer.replies s' = TCPServer.replies s ->
  TCPServer.connections s' = TCPServer.connections s ->
  settled s s'.
Proof.
  intros Hr Hc Hp Hs. repeat split; [exact Hr | exact Hc | exact Hp |].
  intros c. rewrite Hs.
  destruct (TCPServer.connections s !! c); constructor. apply sameSession_refl.
Qed.

Lemma updateDevice_commands (imei : option string)
    (f : DatabaseService.DeviceRow -> DatabaseService.DeviceRow) (db : DatabaseService.DB) :
  DatabaseService.commands (DatabaseService.updateDevice imei f db)
  = DatabaseService.commands db.
Proof. by destruct imei. Qed.

Lemma sameSession_write (w : bytes) (dc : TCPServer.DeviceConnection) :
  sameSession dc (TCPServer.setSocket (TCPServer.socket_write w) dc).
Proof.
  unfold sameSession, TCPServer.setSocket, TCPServer.socket_write.
  cbn [TCPServer.imei TCPServer.authenticated TCPServer.buffer TCPServer.socket].
  by destruct (TCPServer.destroyed (TCPServer.socket dc)) eqn:Hd.
Qed.

Lemma settled_writeIfAny (c c' : nat) (response : option bytes) :
  completes c settled (TCPServer.writeIfAny c' response).
Proof.
  destruct response as [w|]; cbn [TCPServer.writeIfAny];
    [| apply completes_ret, settled_refl].
  apply completes_modify. intros s. apply settled_updConnection. intros dc.
  apply sameSession_write.
Qed.

(** One step of a proof that a handler of an event completes and leaves
    the server settled. *)
Ltac settled_leaf :=
  first
    [ apply settled_updConnection; intros ?;
      first [apply sameSession_write | by repeat split]
    | apply settled_same_sessions; try reflexivity;
      cbn [TCPServer.updManager TCPServer.database fst snd
             DeviceManager.updateLastLogin DeviceManager.updateLastHeartbeat
             DeviceManager.setDeviceOnline];
      unfold DatabaseService.updateLastLogin, DatabaseService.updateLastHeartbeat,
        DatabaseService.setDeviceOnlineStatus;
      apply updateDevice_commands ].

Ltac settled_step :=
  lazymatch goal with
  | |- completes _ _ (TCPServer.bind (TCPServer.lift _) _) =>
      eapply completes_bind_lift; [reflexivity |]
  | |- completes _ _ (TCPServer.writeIfAny _ _) => apply settled_writeIfAny
  | |- completes _ _ (TCPServer.bind _ _) =>
      apply completes_bind; [apply settled_trans | apply settled_holds | | intros ?]
  | |- completes _ _ (TCPServer.catch _ _) => apply completes_catch
  | |- completes _ _ (TCPServer.when _ _) => apply completes_when; [apply settled_refl |]
  | |- completes _ _ (TCPServer.ret _) => apply completes_ret; apply settled_refl
  | |- completes _ _ TCPServer.get => apply completes_get; apply settled_refl
  | |- completes _ _ (TCPServer.connection _) =>
      apply completes_connection; apply settled_refl
  | |- completes _ _ (TCPServer.modify _) => apply completes_modify; intros ?; settled_leaf
  | |- completes _ _ (TCPServer.write _ _) => unfold TCPServer.write
  | |- completes _ _ (TCPServer.sendLocationAck _ _) => unfold TCPServer.sendLocationAck
  | |- completes _ _ (TCPServer.handleLogin _ _) => unfold TCPServer.handleLogin
  | |- completes _ _ (TCPServer.handleLocationData _ _) =>
      unfold TCPServer.handleLocationData
  | |- completes _ _ (TCPServer.handleHeartbeat _ _) => unfold TCPServer.handleHeartbeat
  | |- completes _ _ (TCPServer.handleAlarmData _ _) => unfold TCPServer.handleAlarmData
  | |- completes _ _ (TCPServer.handleCommandResponse _ _) =>
      unfold TCPServer.handleCommandResponse
  | |- completes _ _ (if ?b then _ else _) => destruct b
  end.

(** The handlers of the events, run for the connection on which the event
    arrived, return and leave the server settled. *)
Lemma settled_handlers (c : nat) (parsedData : ParsedData) :
  completes c settled
    (TCPServer.bind (TCPServer.connection c)
       (fun dc =>
          if negb (TCPServer.authenticated dc)
             && negb (String.eqb (data_type parsedData) "login")
          then TCPServer.ret tt
          else if String.eqb (data_type parsedData) "login"
               then TCPServer.handleLogin c parsedData
          else if String.eqb (data_type parsedData) "location"
               then TCPServer.handleLocationData c parsedData
          else if String.eqb (data_type parsedData) "heartbeat"
               then TCPServer.handleHeartbeat c parsedData
          else if String.eqb (data_type parsedData) "alarm"
               then TCPServer.handleAlarmData c parsedData
          else if String.eqb (data_type parsedData) "response"
               then TCPServer.handleCommandResponse c parsedData
          else TCPServer.ret tt)).
Proof. repeat settled_step. Qed.

Lemma authenticateDevice_returns (s : TCPServer.Server) (c : nat) (imei : string) :
  (TCPServer.authenticateDevice c imei s).1 = Returned tt
  /\ (is_Some (TCPServer.connections s !! c) ->
      is_Some (TCPServer.connections (TCPServer.authenticateDevice c imei s).2 !! c)).
Proof.
  destruct (DatabaseService.getDeviceByImei (Some imei) (TCPServer.database s))
    as [row|] eqn:Hrow.
  - rewrite (authenticateDevice_known s c imei row Hrow). split; [reflexivity |].
    intros [dc Hdc]. cbn [snd]. float_connection.
    erewrite lookup_updConnection_eq; [eauto |].
    cbn [TCPServer.updManager TCPServer.updRegistry TCPServer.connections]. exact Hdc.
  - rewrite (authenticateDevice_unknown s c imei Hrow). split; [reflexivity |].
    intros [dc Hdc]. cbn [snd]. erewrite lookup_updConnection_eq; eauto.
Qed.

(** The handling of a segment, in three stages: the timer is cleared and
    the decoded bytes leave the buffer; the session is authenticated, when it
    is not yet and the frame has an IMEI; the handler of the event runs, and
    returns. *)
Lemma socketData_stages (s : TCPServer.Server) (c : nat) (dc : TCPServer.DeviceConnection)
    (data : bytes) (pd : ParsedData) (n : nat) :
  TCPServer.connections s !! c = Some dc ->
  TCPServer.destroyed (TCPServer.socket dc) = false ->
  ProtocolParser.result (ProtocolParser.parse (TCPServer.buffer dc ++ data))
    = Success pd n ->
  let s3 :=
    TCPServer.updConnection c
      (fun _ => TCPServer.setBuffer (drop n (TCPServer.buffer dc ++ data))
                  (TCPServer.clearTimeout dc)) s in
  exists s4 s5,
    (s4 = s3
     \/ TCPServer.authenticated dc = false
        /\ exists imei,
             imei <> "" /\ data_imei pd = Some imei
             /\ s4 = (TCPServer.authenticateDevice c imei s3).2)
    /\ settled s4 s5
    /\ TCPServer.step (TCPServer.SocketData c data) s
       = TCPServer.updConnection c (TCPServer.setLastSeen (TCPServer.now s5)) s5.
Proof.
  intros Hc Hd Hparse s3.
  rewrite (socketData_unfold c data s dc Hc Hd). cbv zeta.
  assert (Hc1 := lookup_updConnection_eq c TCPServer.clearTimeout s dc Hc).
  assert (Hc3 : TCPServer.connections s3 !! c
                = Some (TCPServer.setBuffer (drop n (TCPServer.buffer dc ++ data))
                          (TCPServer.clearTimeout dc)))
    by exact (lookup_updConnection_eq c _ s dc Hc).
  enough (Hrun : exists s4 s5,
             (s4 = s3
              \/ TCPServer.authenticated dc = false
                 /\ exists imei,
                      imei <> "" /\ data_imei pd = Some imei
                      /\ s4 = (TCPServer.authenticateDevice c imei s3).2)
             /\ settled s4 s5
             /\ TCPServer.handleDeviceData c data
                  (TCPServer.updConnection c TCPServer.clearTimeout s)
                = (Returned tt, s5)).
  { destruct Hrun as (s4 & s5 & H4 & H5 & Hrun). exists s4, s5.
    split; [exact H4 |]. split; [exact H5 |]. by rewrite Hrun. }
  enter_handleDeviceData Hc1 Hparse.
  rewrite !updConnection_twice, (updConnection_set c _ s dc Hc).
  match goal with
  | |- context [TCPServer.updConnection c ?f s] =>
      change (TCPServer.updConnection c f s) with s3
  end.
  destruct (String.eqb (data_type pd) "login"
            && bool_decide (data_protocol pd = Some "gps303")).
  { exists s3, (TCPServer.updConnection c
                  (TCPServer.setSocket (TCPServer.socket_write (Buffer.fromAscii "LOAD"))) s3).
    split; [by left |]. split; [| reflexivity].
    apply settled_updConnection. intros dc0. apply sameSession_write. }
  assert (Htail : forall s4,
             is_Some (TCPServer.connections s4 !! c) ->
             exists s5,
               settled s4 s5
               /\ (let (o, s') :=
                     TCPServer.bind (TCPServer.connection c)
                       (fun dc0 =>
                          if negb (TCPServer.authenticated dc0)
                             && negb (String.eqb (data_type pd) "login")
                          then TCPServer.ret tt
                          else if String.eqb (data_type pd) "login"
                               then TCPServer.handleLogin c pd
                          else if String.eqb (data_type pd) "location"
                               then TCPServer.handleLocationData c pd
                          else if String.eqb (data_type pd) "heartbeat"
                               then TCPServer.handleHeartbeat c pd
                          else if String.eqb (data_type pd) "alarm"
                               then TCPServer.handleAlarmData c pd
                          else if String.eqb (data_type pd) "response"
                               then TCPServer.handleCommandResponse c pd
                          else TCPServer.ret tt) s4 in
                   match o with
                   | Returned a => (Returned a, s')
                   | Thrown _ =>
                       TCPServer.modify (TCPServer.updConnection c (TCPServer.setBuffer []))
                         s'
                   end) = (Returned tt, s5)).
  { intros s4 H4. destruct (settled_handlers c pd s4 H4) as [[a Ha] Hsettled].
    match goal with |- context [let (_, _) := ?m in _] => destruct m as [o s5] end.
    cbn [fst snd] in Ha, Hsettled. subst o. destruct a. by exists s5. }
  destruct (negb (TCPServer.authenticated dc) && truthy (data_imei pd)) eqn:Hguard;
    cbn [TCPServer.when].
  - apply andb_true_iff in Hguard as [Hauth%negb_true_iff Himei].
    destruct (data_imei pd) as [imei|] eqn:Hdata; [| discriminate Himei].
    cbn [truthy] in Himei. apply negb_true_iff, String.eqb_neq in Himei.
    change (default "" (Some imei)) with imei.
    destruct (authenticateDevice_returns s3 c imei) as [Hret Hdom].
    destruct (Htail (TCPServer.authenticateDevice c imei s3).2) as (s5 & H5 & Hrun);
      [apply Hdom; eauto |].
    exists (TCPServer.authenticateDevice c imei s3).2, s5.
    split; [right; split; [exact Hauth |]; by exists imei |].
    split; [exact H5 |].
    unfold TCPServer.bind at 1.
    destruct (TCPServer.authenticateDevice c imei s3) as [o s4].
    cbn [fst snd] in *. subst o. exact Hrun.
  - rewrite bind_ret.
    destruct (Htail s3) as (s5 & H5 & Hrun); [eauto |].
    exists s3, s5. split; [by left |]. split; [exact H5 | exact Hrun].
Qed.

(** ** One frame for each segment *)

Lemma parse_consumes (buffer : bytes) (p : Protocol) (data : ParsedData) (n : nat) :
  ProtocolParser.parse buffer = ProtocolParser.mkResult (Success data n) (Some p) ->
  p <> gt06 -> n = length buffer.
Proof.
  intros [Hp _]%parse_first_acceptor Hne.
  destruct p; cbn [ProtocolParser.parser_parse] in Hp.
  - by eapply gps303_consumes_buffer.
  - done.
  - by eapply tk103_consumes_buffer.
  - discriminate Hp.
  - destruct (generic_parse buffer) as (hex & asc & Hg). rewrite Hg in Hp.
    by injection Hp as _ <-.
Qed.

Lemma authenticateDevice_state (s : TCPServer.Server) (c : nat) (imei : string) :
  (TCPServer.authenticateDevice c imei s).2
  = match DatabaseService.getDeviceByImei (Some imei) (TCPServer.database s) with
    | Some _ =>
        TCPServer.updConnection c
          (fun dc =>
             TCPServer.setSocket (TCPServer.socket_write (Buffer.fromAscii "LOAD"))
               (TCPServer.setAuthenticated imei dc))
          (TCPServer.updManager
             (DeviceManager.setDeviceOnline (Some imei) true (TCPServer.now s))
             (TCPServer.updRegistry (insert imei c) s))
    | None => TCPServer.updConnection c (TCPServer.setSocket TCPServer.socket_destroy) s
    end.
Proof.
  destruct (DatabaseService.getDeviceByImei (Some imei) (TCPServer.database s))
    as [row|] eqn:Hrow.
  - rewrite (authenticateDevice_known s c imei row Hrow). cbn [snd].
    by float_connection.
  - by rewrite (authenticateDevice_unknown s c imei Hrow).
Qed.

Lemma authenticateDevice_buffer (s : TCPServer.Server) (c c' : nat) (imei : string) :
  TCPServer.buffer <$> TCPServer.connections (TCPServer.authenticateDevice c imei s).2 !! c'
  = TCPServer.buffer <$> TCPServer.connections s !! c'.
Proof.
  rewrite authenticateDevice_state.
  destruct (DatabaseService.getDeviceByImei _ _);
    rewrite lookup_updConnection;
    cbn [TCPServer.updManager TCPServer.updRegistry TCPServer.connections];
    case_decide; try reflexivity;
    by destruct (TCPServer.connections s !! c').
Qed.

Lemma settled_buffer (s s' : TCPServer.Server) (c : nat) :
  settled s s' ->
  TCPServer.buffer <$> TCPServer.connections s' !! c
  = TCPServer.buffer <$> TCPServer.connections s !! c.
Proof.
  intros (_ & _ & _ & H). specialize (H c).
  destruct H as [dc dc' (_ & _ & Hb & _)|]; [cbn; by rewrite Hb | reflexivity].
Qed.

(** X18: every segment that arrives on an open connection is appended to
    the buffer of the session and the buffer is decoded once: the bytes of
    the one frame that the parse returns leave the buffer and what follows
    them stays there, undecoded until the next segment arrives; no handler
    fails and clears it. The buffer is left empty unless the frame is one of
    GT06. *)
Theorem one_frame_is_decoded_per_segment (s : TCPServer.Server) (c : nat)
    (dc : TCPServer.DeviceConnection) (data : bytes) :
  TCPServer.connections s !! c = Some dc ->
  TCPServer.destroyed (TCPServer.socket dc) = false ->
  exists p pd n,
    ProtocolParser.parse (TCPServer.buffer dc ++ data)
    = ProtocolParser.mkResult (Success pd n) (Some p)
    /\ TCPServer.buffer <$>
         TCPServer.connections (TCPServer.step (TCPServer.SocketData c data) s) !! c
       = Some (drop n (TCPServer.buffer dc ++ data))
    /\ (p <> gt06 -> drop n (TCPServer.buffer dc ++ data) = []).
Proof.
  intros Hc Hd.
  destruct (parse_succeeds (TCPServer.buffer dc ++ data)) as (p & pd & n & Hp).
  exists p, pd, n. split; [exact Hp |]. split.
  - assert (Hparse := f_equal ProtocolParser.result Hp). cbn [ProtocolParser.result] in Hparse.
    destruct (socketData_stages s c dc data pd n Hc Hd Hparse) as (s4 & s5 & H4 & H5 & ->).
    rewrite lookup_updConnection. case_decide; [| done].
    rewrite <- option_fmap_compose.
    change (TCPServer.buffer ∘ TCPServer.setLastSeen (TCPServer.now s5))
      with TCPServer.buffer.
    rewrite (settled_buffer s4 s5 c H5).
    destruct H4 as [-> | (_ & imei & _ & _ & ->)];
      [| rewrite authenticateDevice_buffer];
      by rewrite (lookup_updConnection_eq c _ s dc Hc).
  - intros Hne. rewrite (parse_consumes _ _ _ _ Hp Hne). apply drop_all.
Qed.

(** Two GT06 heartbeats in one segment: the second one stays in the
    buffer. *)
Lemma one_frame_is_decoded_per_segment_witness :
  TCPServer.buffer <$>
    TCPServer.connections
      (TCPServer.step
         (TCPServer.SocketData 1
            [x78; x78; x01; x13; x0d; x0a; x78; x78; x01; x13; x0d; x0a])
         (TCPServer.step (TCPServer.Connection 1) Scenario.server)) !! 1%nat
  = Some [x78; x78; x01; x13; x0d; x0a].
Proof.
  destruct (one_frame_is_decoded_per_segment
              (TCPServer.step (TCPServer.Connection 1) Scenario.server) 1
              (TCPServer.mkConnection (TCPServer.mkSocket false false []) None false 0%N []
                 (Some 30000%N))
              [x78; x78; x01; x13; x0d; x0a; x78; x78; x01; x13; x0d; x0a]
              eq_refl eq_refl)
    as (p & pd & n & Hp & Hbuffer & _).
  rewrite Hbuffer. vm_compute in Hp. injection Hp as _ <- _. reflexivity.
Defined.

(** ** The parser of a segment *)









(** ** Commands and replies *)

Lemma authenticateDevice_ledger (s : TCPServer.Server) (c : nat) (imei : string) :
  DatabaseService.commands (TCPServer.database (TCPServer.authenticateDevice c imei s).2)
  = DatabaseService.commands (TCPServer.database s)
  /\ TCPServer.replies (TCPServer.authenticateDevice c imei s).2 = TCPServer.replies s.
Proof.
  rewrite authenticateDevice_state.
  destruct (DatabaseService.getDeviceByImei _ _); split; reflexivity.
Qed.

(** A segment changes no command of the store and answers no delivery. *)
Lemma socketData_ledger (s : TCPServer.Server) (c : nat) (data : bytes) :
  DatabaseService.commands
    (TCPServer.database (TCPServer.step (TCPServer.SocketData c data) s))
  = DatabaseService.commands (TCPServer.database s)
  /\ TCPServer.replies (TCPServer.step (TCPServer.SocketData c data) s)
     = TCPServer.replies s.
Proof.
  destruct (TCPServer.connections s !! c) as [dc|] eqn:Hc; [| by cbn; rewrite Hc].
  destruct (TCPServer.destroyed (TCPServer.socket dc)) eqn:Hd; [by cbn; rewrite Hc, Hd |].
  destruct (parse_succeeds (TCPServer.buffer dc ++ data)) as (p & pd & n & Hp).
  assert (Hparse := f_equal ProtocolParser.result Hp). cbn [ProtocolParser.result] in Hparse.
  destruct (socketData_stages s c dc data pd n Hc Hd Hparse)
    as (s4 & s5 & H4 & (_ & Hcommands & Hreplies & _) & ->).
  cbn [TCPServer.updConnection TCPServer.database TCPServer.replies].
  rewrite Hcommands, Hreplies.
  destruct H4 as [-> | (_ & imei & _ & _ & ->)]; [by split |].
  match goal with
  | |- context [TCPServer.authenticateDevice c imei ?s3] =>
      destruct (authenticateDevice_ledger s3 c imei) as [-> ->]
  end.
  by split.
Qed.

Lemma handleDisconnection_state (s : TCPServer.Server) (c : nat)
    (dc : TCPServer.DeviceConnection) :
  TCPServer.connections s !! c = Some dc ->
  (TCPServer.handleDisconnection c s).2
  = if truthy (TCPServer.imei dc)
    then TCPServer.updManager
           (DeviceManager.setDeviceOnline (TCPServer.imei dc) false (TCPServer.now s))
           (TCPServer.updRegistry (delete (default "" (TCPServer.imei dc))) s)
    else s.
Proof.
  intros Hc. unfold TCPServer.handleDisconnection.
  rewrite (bind_connection c _ s dc Hc).
  by destruct (truthy (TCPServer.imei dc)).
Qed.

(** What the end of a connection does, whether its socket closes or
    fails. *)
Lemma disconnection_state (s : TCPServer.Server) (c : nat) (dc : TCPServer.DeviceConnection)
    (e : TCPServer.Event) (k : TCPServer.Socket) :
  TCPServer.connections s !! c = Some dc ->
  TCPServer.closed (TCPServer.socket dc) = false ->
  e = TCPServer.SocketClose c
    /\ k = TCPServer.mkSocket true true (TCPServer.written (TCPServer.socket dc))
  \/ e = TCPServer.SocketError c /\ k = TCPServer.socket_destroy (TCPServer.socket dc) ->
  let s1 :=
    TCPServer.updConnection c
      (fun _ =>
         TCPServer.mkConnection k (TCPServer.imei dc) (TCPServer.authenticated dc)
           (TCPServer.lastSeen dc) (TCPServer.buffer dc) None) s in
  TCPServer.step e s
  = if truthy (TCPServer.imei dc)
    then TCPServer.updManager
           (DeviceManager.setDeviceOnline (TCPServer.imei dc) false (TCPServer.now s))
           (TCPServer.updRegistry (delete (default "" (TCPServer.imei dc))) s1)
    else s1.
Proof.
  intros Hc Hclosed He s1.
  destruct He as [[-> ->] | [-> ->]]; cbn [TCPServer.step]; rewrite Hc, Hclosed;
    unfold TCPServer.run; rewrite bind_modify;
    rewrite (updConnection_set c _ s dc Hc);
    rewrite (handleDisconnection_state _ c _ (lookup_updConnection_eq c _ s dc Hc));
    reflexivity.
Qed.

(** The commands and the replies after an event. *)
Lemma step_ledger (e : TCPServer.Event) (s : TCPServer.Server) :
  DatabaseService.commands (TCPServer.database (TCPServer.step e s))
  = match e with
    | TCPServer.Deliver (Some m) =>
        match TCPServer.connectedDevices s !! TCPServer.m_imei m, TCPServer.m_commandId m with
        | None, Some cid =>
            alter
              (DatabaseService.updateRow "failed"
                 (DatabaseService.mkStatusData None (Some "Device not connected")
                    None None (Some (TCPServer.now s)))
                 (TCPServer.now s))
              cid (DatabaseService.commands (TCPServer.database s))
        | _, _ => DatabaseService.commands (TCPServer.database s)
        end
    | _ => DatabaseService.commands (TCPServer.database s)
    end
  /\ TCPServer.replies (TCPServer.step e s)
     = TCPServer.replies s
       ++ match e with
          | TCPServer.Deliver None => [TCPServer.Nack false]
          | TCPServer.Deliver (Some _) => [TCPServer.Ack]
          | _ => []
          end.
Proof.
  destruct e as [c | c data | c | c | ms | [m|]].
  - cbn [TCPServer.step]. rewrite app_nil_r.
    by destruct (TCPServer.connections s !! c).
  - rewrite app_nil_r. apply socketData_ledger.
  - rewrite app_nil_r.
    destruct (TCPServer.connections s !! c) as [dc|] eqn:Hc; [| by cbn; rewrite Hc].
    destruct (TCPServer.closed (TCPServer.socket dc)) eqn:Hd; [by cbn; rewrite Hc, Hd |].
    rewrite (disconnection_state s c dc _ _ Hc Hd (or_introl (conj eq_refl eq_refl))).
    destruct (truthy (TCPServer.imei dc)); split; try reflexivity.
    cbn [TCPServer.updConnection TCPServer.updManager TCPServer.updRegistry
           TCPServer.database fst snd DeviceManager.setDeviceOnline].
    apply updateDevice_commands.
  - rewrite app_nil_r.
    destruct (TCPServer.connections s !! c) as [dc|] eqn:Hc; [| by cbn; rewrite Hc].
    destruct (TCPServer.closed (TCPServer.socket dc)) eqn:Hd; [by cbn; rewrite Hc, Hd |].
    rewrite (disconnection_state s c dc _ _ Hc Hd (or_intror (conj eq_refl eq_refl))).
    destruct (truthy (TCPServer.imei dc)); split; try reflexivity.
    cbn [TCPServer.updConnection TCPServer.updManager TCPServer.updRegistry
           TCPServer.database fst snd DeviceManager.setDeviceOnline].
    apply updateDevice_commands.
  - rewrite app_nil_r. by split.
  - destruct (TCPServer.connectedDevices s !! TCPServer.m_imei m) as [c|] eqn:Hreg.
    + destruct (command_for_connected_device s m c Hreg) as [_ ->]. by split.
    + cbn [TCPServer.step].
      unfold TCPServer.run, TCPServer.handleDeviceCommand, TCPServer.catch,
        TCPServer.bind, TCPServer.get. cbv beta iota. rewrite Hreg.
      cbn [TCPServer.modify snd TCPServer.reply TCPServer.updDatabase TCPServer.database
             TCPServer.replies].
      by destruct (TCPServer.m_commandId m).
  - by split.
Qed.

(** X19: no event creates or deletes a command of the store: a command has
    a row after an event exactly when it had one before. The one change that
    the server makes to a row is the record of a delivery that names the
    command, for an IMEI that is not in the registry: the status becomes
    [failed], the error [Device not connected], and the time of failure and
    of the last update the present; the response and the times of sending and
    of acknowledgement stay. Every other row is left as it was, so that no
    event marks a command as sent or acknowledged. *)
Theorem commands_change_only_when_undeliverable (e : TCPServer.Event)
    (s : TCPServer.Server) (cid : string) :
  DatabaseService.commands (TCPServer.database (TCPServer.step e s)) !! cid
  = match DatabaseService.commands (TCPServer.database s) !! cid with
    | Some row =>
        Some (if undeliverable e s cid
              then DatabaseService.mkCommandRow "failed" (DatabaseService.response row)
                     (Some "Device not connected") (DatabaseService.sent_at row)
                     (DatabaseService.ack_at row) (Some (TCPServer.now s))
                     (Some (TCPServer.now s))
              else row)
    | None => None
    end.
Proof.
  destruct (step_ledger e s) as [-> _].
  destruct e as [c | c data | c | c | ms | [m|]]; cbn [undeliverable];
    try (by destruct (DatabaseService.commands (TCPServer.database s) !! cid)).
  destruct (TCPServer.connectedDevices s !! TCPServer.m_imei m) as [c|] eqn:Hreg.
  { rewrite (bool_decide_eq_false_2 (Some c = None)) by discriminate.
    rewrite andb_false_r.
    by destruct (DatabaseService.commands (TCPServer.database s) !! cid). }
  rewrite (bool_decide_eq_true_2 (None = None)) by reflexivity. rewrite andb_true_r.
  destruct (TCPServer.m_commandId m) as [cid0|] eqn:Hid.
  - rewrite lookup_alter. case_bool_decide as Hcid.
    + injection Hcid as ->. rewrite decide_True by reflexivity.
      by destruct (DatabaseService.commands (TCPServer.database s) !! cid).
    + rewrite decide_False by congruence.
      by destruct (DatabaseService.commands (TCPServer.database s) !! cid).
  - rewrite (bool_decide_eq_false_2 (None = Some cid)) by discriminate.
    by destruct (DatabaseService.commands (TCPServer.database s) !! cid).
Qed.

(** X20: the broker gets one answer for each delivery and none otherwise:
    a delivery whose content is not JSON is rejected without requeue, and any
    other delivery is acknowledged, whatever the handler of the command did
    with it. *)
Theorem each_delivery_is_answered_once (e : TCPServer.Event) (s : TCPServer.Server) :
  TCPServer.replies (TCPServer.step e s)
  = TCPServer.replies s
    ++ match e with
       | TCPServer.Deliver None => [TCPServer.Nack false]
       | TCPServer.Deliver (Some _) => [TCPServer.Ack]
       | _ => []
       end.
Proof. apply step_ledger. Qed.

(** ** The end of a connection *)

(** X21: when the socket of a session that carries an IMEI closes or fails,
    the entry of the registry for that IMEI is deleted, whichever connection
    it maps to; the device is set offline in the store, where its [last_seen]
    stays as it was; its entry in the device cache is replaced by one that
    says offline and holds neither the last heartbeat nor the last login; the
    timer of the connection is cleared and its socket is destroyed. Every
    other connection object is left as it was. *)
Theorem disconnection_unregisters_the_imei (s : TCPServer.Server) (c : nat)
    (dc : TCPServer.DeviceConnection) (imei : string) (e : TCPServer.Event) :
  TCPServer.connections s !! c = Some dc ->
  TCPServer.closed (TCPServer.socket dc) = false ->
  TCPServer.imei dc = Some imei ->
  imei <> "" ->
  e = TCPServer.SocketClose c \/ e = TCPServer.SocketError c ->
  let s' := TCPServer.step e s in
  TCPServer.connectedDevices s' = delete imei (TCPServer.connectedDevices s)
  /\ DatabaseService.devices (TCPServer.database s')
     = alter
         (fun r =>
            DatabaseService.mkDeviceRow (DatabaseService.id r) (DatabaseService.active r)
              false (DatabaseService.last_seen r) (DatabaseService.last_heartbeat r)
              (DatabaseService.last_login r))
         imei (DatabaseService.devices (TCPServer.database s))
  /\ TCPServer.deviceStatus s'
     = <[Some imei := DeviceManager.mkStatus (Some false) (Some (TCPServer.now s))
                        (Some (TCPServer.now s)) None None]> (TCPServer.deviceStatus s)
  /\ (exists k,
        TCPServer.connections s' !! c
        = Some (TCPServer.mkConnection k (Some imei) (TCPServer.authenticated dc)
                  (TCPServer.lastSeen dc) (TCPServer.buffer dc) None)
        /\ TCPServer.destroyed k = true
        /\ TCPServer.written k = TCPServer.written (TCPServer.socket dc))
  /\ forall c', c' <> c -> TCPServer.connections s' !! c' = TCPServer.connections s !! c'.
Proof.
  intros Hc Hclosed Himei Hne He s'.
  assert (Hs' : exists k,
             (e = TCPServer.SocketClose c
                /\ k = TCPServer.mkSocket true true (TCPServer.written (TCPServer.socket dc))
              \/ e = TCPServer.SocketError c
                 /\ k = TCPServer.socket_destroy (TCPServer.socket dc))
             /\ TCPServer.destroyed k = true
             /\ TCPServer.written k = TCPServer.written (TCPServer.socket dc))
    by (destruct He as [-> | ->]; eexists; (split; [eauto |]); by split).
  destruct Hs' as (k & Hk & Hdestroyed & Hwritten).
  subst s'. rewrite (disconnection_state s c dc e k Hc Hclosed Hk). cbv zeta.
  rewrite Himei. cbn [truthy default].
  apply String.eqb_neq in Hne. rewrite Hne. cbn [negb].
  split; [reflexivity |]. split; [reflexivity |]. split; [reflexivity |].
  cbn [TCPServer.updManager TCPServer.updRegistry TCPServer.connections].
  split.
  - exists k. by rewrite (lookup_updConnection_eq c _ s dc Hc).
  - intros c' Hc'. rewrite lookup_updConnection. by case_decide; [congruence |].
Qed.

(** Two sessions have authenticated with the IMEI of the scenario, the
    second one holds the entry of the registry, and the first one closes. *)
Lemma disconnection_unregisters_the_imei_witness :
  let s := TCPServer.steps
             [TCPServer.Connection 1; TCPServer.SocketData 1 Scenario.gt06Login;
              TCPServer.Connection 2; TCPServer.SocketData 2 Scenario.gt06Login]
             Scenario.server in
  TCPServer.connectedDevices s !! Scenario.imei = Some 2%nat
  /\ TCPServer.connectedDevices (TCPServer.step (TCPServer.SocketClose 1) s)
     = delete Scenario.imei (TCPServer.connectedDevices s).
Proof.
  cbv zeta. split; [vm_compute; reflexivity |].
  refine (proj1 (disconnection_unregisters_the_imei
                   (TCPServer.steps
                      [TCPServer.Connection 1; TCPServer.SocketData 1 Scenario.gt06Login;
                       TCPServer.Connection 2; TCPServer.SocketData 2 Scenario.gt06Login]
                      Scenario.server)
                   1
                   (TCPServer.mkConnection
                      (TCPServer.mkSocket false false
                         [Buffer.fromAscii "LOAD"; Buffer.fromAscii "LOAD"])
                      (Some Scenario.imei) true 0%N [] None)
                   Scenario.imei (TCPServer.SocketClose 1) _ _ _ _ _));
    [vm_compute; reflexivity | reflexivity | reflexivity | discriminate | by left].
Defined.

(** ** The registry *)

(** [authenticateDevice] is [authenticateDevice_resume] on the answer of the
    store, when nothing happens while the handler waits for it. *)
Lemma authenticateDevice_resume_at_once (c : nat) (imei : string) (s : TCPServer.Server) :
  TCPServer.authenticateDevice c imei s
  = TCPServer.authenticateDevice_resume c imei
      (DatabaseService.getDeviceByImei (Some imei) (TCPServer.database s)) s.
Proof. reflexivity. Qed.

(** X22: the socket of a connection that has no IMEI yet closes while
    [authenticateDevice] waits for the store. The handler of the close finds
    no IMEI on the connection object and leaves the registry, the store and
    the device cache as they are; the authentication, resumed with the active
    device that the store has found, then registers the connection. The
    registry is left with an entry for a session that has ended: its socket
    is destroyed and nothing has been written to it, while the store and the
    device cache say that the device is online; and no later event of that
    connection removes the entry. *)
Theorem close_during_authentication_registers_a_dead_session (s : TCPServer.Server)
    (c : nat) (dc : TCPServer.DeviceConnection) (imei : string)
    (row : DatabaseService.DeviceRow) :
  TCPServer.connections s !! c = Some dc ->
  TCPServer.closed (TCPServer.socket dc) = false ->
  TCPServer.imei dc = None ->
  DatabaseService.getDeviceByImei (Some imei) (TCPServer.database s) = Some row ->
  let s1 := TCPServer.step (TCPServer.SocketClose c) s in
  let s2 := TCPServer.run (TCPServer.authenticateDevice_resume c imei (Some row)) s1 in
  (TCPServer.connectedDevices s1 = TCPServer.connectedDevices s
   /\ TCPServer.database s1 = TCPServer.database s
   /\ TCPServer.deviceStatus s1 = TCPServer.deviceStatus s)
  /\ TCPServer.connectedDevices s2 = <[imei := c]> (TCPServer.connectedDevices s)
  /\ TCPServer.connections s2 !! c
     = Some (TCPServer.mkConnection
               (TCPServer.mkSocket true true (TCPServer.written (TCPServer.socket dc)))
               (Some imei) true (TCPServer.lastSeen dc) (TCPServer.buffer dc) None)
  /\ (DatabaseService.online <$> DatabaseService.devices (TCPServer.database s2) !! imei)
     = Some true
  /\ DeviceManager.isDeviceOnline (Some imei) (TCPServer.deviceStatus s2) = Some true
  /\ ~ registryOwned s2
  /\ (forall e,
        (exists data, e = TCPServer.SocketData c data)
        \/ e = TCPServer.SocketClose c \/ e = TCPServer.SocketError c ->
        TCPServer.step e s2 = s2).
Proof.
  intros Hc Hclosed Himei Hrow s1 s2.
  assert (H1 : s1 = TCPServer.updConnection c
                      (fun _ =>
                         TCPServer.mkConnection
                           (TCPServer.mkSocket true true
                              (TCPServer.written (TCPServer.socket dc)))
                           None (TCPServer.authenticated dc) (TCPServer.lastSeen dc)
                           (TCPServer.buffer dc) None) s).
  { subst s1.
    rewrite (disconnection_state s c dc _ _ Hc Hclosed (or_introl (conj eq_refl eq_refl))).
    rewrite Himei. reflexivity. }
  clearbody s1.
  assert (Hc1 : TCPServer.connections s1 !! c
                = Some (TCPServer.mkConnection
                          (TCPServer.mkSocket true true
                             (TCPServer.written (TCPServer.socket dc)))
                          None (TCPServer.authenticated dc) (TCPServer.lastSeen dc)
                          (TCPServer.buffer dc) None))
    by (rewrite H1; exact (lookup_updConnection_eq c _ s dc Hc)).
  assert (H2 : s2 = TCPServer.updManager
                      (DeviceManager.setDeviceOnline (Some imei) true (TCPServer.now s))
                      (TCPServer.updRegistry (insert imei c)
                         (TCPServer.updConnection c
                            (fun _ =>
                               TCPServer.mkConnection
                                 (TCPServer.mkSocket true true
                                    (TCPServer.written (TCPServer.socket dc)))
                                 (Some imei) true (TCPServer.lastSeen dc)
                                 (TCPServer.buffer dc) None) s))).
  { assert (Hrow1 : DatabaseService.getDeviceByImei (Some imei) (TCPServer.database s1)
                    = Some row) by (by rewrite H1).
    assert (Hres := authenticateDevice_resume_at_once c imei s1).
    rewrite Hrow1 in Hres.
    subst s2. unfold TCPServer.run. rewrite <- Hres.
    rewrite (authenticateDevice_known s1 c imei row Hrow1).
    cbn [snd]. rewrite H1. float_connection. reflexivity. }
  split; [by rewrite H1 |].
  split; [by rewrite H2 |].
  assert (Hc2 : TCPServer.connections s2 !! c
                = Some (TCPServer.mkConnection
                          (TCPServer.mkSocket true true
                             (TCPServer.written (TCPServer.socket dc)))
                          (Some imei) true (TCPServer.lastSeen dc)
                          (TCPServer.buffer dc) None)).
  { rewrite H2. cbn [TCPServer.updManager TCPServer.updRegistry TCPServer.connections].
    exact (lookup_updConnection_eq c _ s dc Hc). }
  split; [exact Hc2 |].
  split.
  { rewrite H2.
    cbn [TCPServer.updManager TCPServer.updRegistry TCPServer.updConnection
           TCPServer.database fst snd DeviceManager.setDeviceOnline
           DatabaseService.setDeviceOnlineStatus DatabaseService.updateDevice
           DatabaseService.devices].
    rewrite lookup_alter_eq.
    unfold DatabaseService.getDeviceByImei in Hrow. cbn [mbind option_bind] in Hrow.
    destruct (DatabaseService.devices (TCPServer.database s) !! imei); [| discriminate].
    reflexivity. }
  split.
  { rewrite H2.
    cbn [TCPServer.updManager TCPServer.deviceStatus fst snd
           DeviceManager.setDeviceOnline].
    unfold DeviceManager.isDeviceOnline. by rewrite lookup_insert_eq. }
  split.
  { intros Howned.
    destruct (Howned imei c) as (_ & dc2 & Hdc2 & _ & _ & Hd2).
    - rewrite H2. cbn [TCPServer.updManager TCPServer.updRegistry TCPServer.connectedDevices].
      apply lookup_insert_eq.
    - rewrite Hc2 in Hdc2. injection Hdc2 as <-. discriminate Hd2. }
  intros e [[data ->] | [-> | ->]]; cbn [TCPServer.step]; by rewrite Hc2.
Qed.

(** The device of the scenario, whose connection closes before the store
    has answered. *)
Lemma close_during_authentication_registers_a_dead_session_witness :
  let s := TCPServer.step (TCPServer.Connection 1) Scenario.server in
  let s2 :=
    TCPServer.run
      (TCPServer.authenticateDevice_resume 1 Scenario.imei
         (Some (DatabaseService.mkDeviceRow 7 true false None None None)))
      (TCPServer.step (TCPServer.SocketClose 1) s) in
  TCPServer.connectedDevices s2 !! Scenario.imei = Some 1%nat
  /\ ~ registryOwned s2.
Proof.
  cbv zeta.
  destruct (close_during_authentication_registers_a_dead_session
              (TCPServer.step (TCPServer.Connection 1) Scenario.server) 1%nat
              (TCPServer.mkConnection (TCPServer.mkSocket false false []) None false 0%N []
                 (Some 30000%N))
              Scenario.imei (DatabaseService.mkDeviceRow 7 true false None None None))
    as (_ & Hreg & _ & _ & _ & Hdead & _);
    [vm_compute; reflexivity | reflexivity | reflexivity | vm_compute; reflexivity |].
  split; [| exact Hdead].
  rewrite Hreg. apply lookup_insert_eq.
Defined.

(** ** Stopping the server *)

Lemma destroy_twice (o : option TCPServer.DeviceConnection) :
  TCPServer.setSocket TCPServer.socket_destroy
    <$> (TCPServer.setSocket TCPServer.socket_destroy <$> o)
  = TCPServer.setSocket TCPServer.socket_destroy <$> o.
Proof. by destruct o. Qed.

(** X23: [stop] empties the registry and destroys the socket of every
    connection that the registry holds, and of no other: the connections that
    have not authenticated, and those whose entry another session has taken
    over, are left open. It writes nothing to the store: the devices stay
    online there until the sockets report that they have closed. *)
Theorem stop_destroys_registered_sockets_only (s : TCPServer.Server) :
  let s' := TCPServer.stop s in
  TCPServer.connectedDevices s' = ∅
  /\ (forall imei c,
        TCPServer.connectedDevices s !! imei = Some c ->
        TCPServer.connections s' !! c
        = TCPServer.setSocket TCPServer.socket_destroy <$> TCPServer.connections s !! c)
  /\ (forall c,
        (forall imei, TCPServer.connectedDevices s !! imei <> Some c) ->
        TCPServer.connections s' !! c = TCPServer.connections s !! c)
  /\ TCPServer.database s' = TCPServer.database s
  /\ TCPServer.deviceStatus s' = TCPServer.deviceStatus s.
Proof.
  cbv zeta. unfold TCPServer.stop.
  cbn [TCPServer.updRegistry TCPServer.connectedDevices TCPServer.connections
         TCPServer.database TCPServer.deviceStatus].
  generalize (TCPServer.connectedDevices s). intros registry.
  apply (map_fold_weak_ind
           (fun (r : TCPServer.Server) (m : gmap string nat) =>
              ∅ = ∅
              /\ (forall imei c,
                    m !! imei = Some c ->
                    TCPServer.connections r !! c
                    = TCPServer.setSocket TCPServer.socket_destroy
                        <$> TCPServer.connections s !! c)
              /\ (forall c,
                    (forall imei, m !! imei <> Some c) ->
                    TCPServer.connections r !! c = TCPServer.connections s !! c)
              /\ TCPServer.database r = TCPServer.database s
              /\ TCPServer.deviceStatus r = TCPServer.deviceStatus s)).
  - split; [reflexivity |]. split; [intros imei c H; by rewrite lookup_empty in H |].
    by repeat split.
  - intros i x m r Hi (_ & Hreg & Hfree & Hdb & Hcache).
    split; [reflexivity |]. split; [| split; [| by split]].
    + intros imei c Hc. rewrite lookup_updConnection.
      destruct (decide (x = c)) as [-> | Hx].
      * assert (Hr : TCPServer.connections r !! c = TCPServer.connections s !! c
                     \/ TCPServer.connections r !! c
                        = TCPServer.setSocket TCPServer.socket_destroy
                            <$> TCPServer.connections s !! c).
        { destruct (decide (Exists (fun e => e.2 = c) (map_to_list m))) as [He | He].
          - apply Exists_exists in He as ([j c'] & Hj%elem_of_map_to_list & Hc'). cbn in Hc'.
            subst c'. right. by apply (Hreg j).
          - left. apply Hfree. intros j Hj. apply He, Exists_exists.
            exists (j, c). split; [by apply elem_of_map_to_list | reflexivity]. }
        destruct Hr as [-> | ->]; [reflexivity | apply destroy_twice].
      * apply (Hreg imei). rewrite lookup_insert_ne in Hc; [exact Hc |].
        intros ->. rewrite lookup_insert_eq in Hc. congruence.
    + intros c Hc. rewrite lookup_updConnection.
      case_decide as Hx; [subst x; by destruct (Hc i); rewrite lookup_insert_eq |].
      apply Hfree. intros j Hj. apply (Hc j).
      rewrite lookup_insert_ne; [exact Hj |]. intros ->. congruence.
Qed.

(** ** The deadline of a silent connection *)

(** X24: a connection on which nothing arrives is destroyed by its timer
    once 30000 ms have passed since it was accepted, and not before; nothing
    is written to it. *)
Theorem silent_connection_is_destroyed_at_the_deadline (s : TCPServer.Server) (c : nat)
    (ms : N) :
  TCPServer.connections s !! c = None ->
  TCPServer.connections
    (TCPServer.step (TCPServer.Elapse ms) (TCPServer.step (TCPServer.Connection c) s)) !! c
  = Some (TCPServer.mkConnection
            (TCPServer.mkSocket (30000 <=? ms)%N false []) None false (TCPServer.now s) []
            (if (30000 <=? ms)%N then None else Some (TCPServer.now s + 30000)%N)).
Proof.
  intros Hc. cbn [TCPServer.step]. rewrite Hc.
  cbn [TCPServer.elapse TCPServer.handleConnection TCPServer.connections TCPServer.now].
  rewrite lookup_fmap, lookup_insert_eq. cbn [fmap option_fmap option_map]. f_equal.
  unfold TCPServer.fireAuthTimeout. cbn [TCPServer.authTimeout].
  destruct (30000 <=? ms)%N eqn:Hms.
  - apply N.leb_le in Hms.
    replace (TCPServer.now s + 30000 <=? TCPServer.now s + ms)%N with true
      by (symmetry; apply N.leb_le; lia).
    reflexivity.
  - apply N.leb_gt in Hms.
    replace (TCPServer.now s + 30000 <=? TCPServer.now s + ms)%N with false
      by (symmetry; apply N.leb_gt; lia).
    reflexivity.
Qed.

(** A connection accepted by the server of the scenario, one millisecond
    before the deadline. *)
Lemma silent_connection_is_destroyed_at_the_deadline_witness :
  TCPServer.connections
    (TCPServer.step (TCPServer.Elapse 29999)
       (TCPServer.step (TCPServer.Connection 1) Scenario.server)) !! 1%nat
  = Some (TCPServer.mkConnection (TCPServer.mkSocket false false []) None false 0%N []
            (Some 30000%N)).
Proof.
  exact (silent_connection_is_destroyed_at_the_deadline Scenario.server 1 29999 eq_refl).
Defined.

(** The session of the scenario is registered and a second connection has
    just been accepted: [stop] destroys the socket of the first one and
    leaves the second one open. *)
Lemma stop_destroys_registered_sockets_only_witness :
  let s := TCPServer.steps
             [TCPServer.Connection 1; TCPServer.SocketData 1 Scenario.gt06Login;
              TCPServer.Connection 2]
             Scenario.server in
  (TCPServer.destroyed <$> (TCPServer.socket <$>
     TCPServer.connections (TCPServer.stop s) !! 1%nat)) = Some true
  /\ TCPServer.connections (TCPServer.stop s) !! 2%nat
     = Some (TCPServer.mkConnection (TCPServer.mkSocket false false []) None false 0%N []
               (Some 30000%N)).
Proof.
  cbv zeta.
  destruct (stop_destroys_registered_sockets_only
              (TCPServer.steps
                 [TCPServer.Connection 1; TCPServer.SocketData 1 Scenario.gt06Login;
                  TCPServer.Connection 2]
                 Scenario.server))
    as (_ & Hregistered & Hfree & _).
  split.
  - rewrite (Hregistered Scenario.imei 1%nat) by (vm_compute; reflexivity).
    vm_compute. reflexivity.
  - rewrite Hfree; [vm_compute; reflexivity |].
    intros imei Himei.
    assert (Hreg : TCPServer.connectedDevices
                     (TCPServer.steps
                        [TCPServer.Connection 1; TCPServer.SocketData 1 Scenario.gt06Login;
                         TCPServer.Connection 2]
                        Scenario.server)
                   = {[ Scenario.imei := 1%nat ]}) by (vm_compute; reflexivity).
    rewrite Hreg in Himei.
    apply lookup_singleton_Some in Himei as [_ Himei]. discriminate Himei.
Defined.

(** * Properties of the device manager *)

Lemma offlineDevices_spec (now : N) (cache : gmap (option string) DeviceManager.Status)
    (imei : option string) :
  imei ∈ map_fold
           (fun imei status found =>
              if DeviceManager.timedOut now status then imei :: found else found)
           [] cache
  <-> exists status, cache !! imei = Some status /\ DeviceManager.timedOut now status = true.
Proof.
  revert imei.
  apply (map_fold_weak_ind
           (fun (found : list (option string))
                (m : gmap (option string) DeviceManager.Status) =>
              forall imei,
                imei ∈ found
                <-> exists status,
                      m !! imei = Some status /\ DeviceManager.timedOut now status = true)).
  - intros imei. split; [by intros ?%elem_of_nil | intros (st & H & _)].
    by rewrite lookup_empty in H.
  - intros i x m found Hi IH imei.
    destruct (decide (imei = i)) as [-> | Hne].
    + rewrite lookup_insert_eq.
      destruct (DeviceManager.timedOut now x) eqn:Hx.
      * split; [intros _; by exists x | intros _; apply elem_of_cons; by left].
      * rewrite IH, Hi. split; [by intros (st & H & _) | intros (st & [= <-] & H)].
        congruence.
    + rewrite lookup_insert_ne by done.
      destruct (DeviceManager.timedOut now x); [| apply IH].
      rewrite elem_of_cons, IH. split; [intros [? | H]; [done | exact H] | by right].
Qed.

Lemma offlineRow_twice (o : option DatabaseService.DeviceRow) :
  offlineRow <$> (offlineRow <$> o) = offlineRow <$> o.
Proof. by destruct o. Qed.

Lemma setDevicesOffline_spec (now : N) (found : list (option string))
    (st : DatabaseService.DB * gmap (option string) DeviceManager.Status) :
  let st' := foldr (fun imei st => DeviceManager.setDeviceOnline imei false now st) st found in
  (forall imei,
     st'.2 !! imei = if decide (imei ∈ found) then Some (offlineStatus now) else st.2 !! imei)
  /\ (forall imei,
        DatabaseService.devices st'.1 !! imei
        = if decide (Some imei ∈ found)
          then offlineRow <$> DatabaseService.devices st.1 !! imei
          else DatabaseService.devices st.1 !! imei)
  /\ DatabaseService.commands st'.1 = DatabaseService.commands st.1
  /\ DatabaseService.locations st'.1 = DatabaseService.locations st.1
  /\ DatabaseService.alerts st'.1 = DatabaseService.alerts st.1.
Proof.
  induction found as [|k found IH]; cbn [foldr].
  - split; [intros imei; by rewrite decide_False by apply not_elem_of_nil |].
    split; [intros imei; by rewrite decide_False by apply not_elem_of_nil |].
    by repeat split.
  - cbv zeta in IH. destruct IH as (Hcache & Hrows & Hcommands & Hlocations & Halerts).
    set (st1 := foldr (fun imei st => DeviceManager.setDeviceOnline imei false now st) st found)
      in *.
    cbn [DeviceManager.setDeviceOnline fst snd]. split; [| split].
    + intros imei. destruct (decide (imei = k)) as [-> | Hne].
      * rewrite lookup_insert_eq. by rewrite decide_True by (apply elem_of_cons; by left).
      * rewrite lookup_insert_ne by done. rewrite Hcache.
        destruct (decide (imei ∈ found)) as [Hin | Hout].
        -- by rewrite decide_True by (apply elem_of_cons; by right).
        -- rewrite decide_False; [reflexivity |].
           intros [? | ?]%elem_of_cons; [by apply Hne | by apply Hout].
    + intros imei. unfold DatabaseService.setDeviceOnlineStatus, DatabaseService.updateDevice.
      destruct k as [i|].
      * cbn [DatabaseService.devices]. rewrite lookup_alter.
        case_decide as Hi.
        -- subst i. rewrite Hrows.
           rewrite (decide_True (P := Some imei ∈ Some imei :: found))
             by (apply elem_of_cons; by left).
           case_decide; [apply offlineRow_twice | reflexivity].
        -- rewrite Hrows.
           destruct (decide (Some imei ∈ found)) as [Hin | Hout].
           ++ by rewrite decide_True by (apply elem_of_cons; by right).
           ++ rewrite decide_False; [reflexivity |].
              intros [[= ?] | ?]%elem_of_cons; [by apply Hi | by apply Hout].
      * rewrite Hrows.
        destruct (decide (Some imei ∈ found)) as [Hin | Hout].
        -- by rewrite decide_True by (apply elem_of_cons; by right).
        -- rewrite decide_False; [reflexivity |].
           intros [[=] | ?]%elem_of_cons. by apply Hout.
    + unfold DatabaseService.setDeviceOnlineStatus, DatabaseService.updateDevice.
      by destruct k.
Qed.

(** X25: the sweep for offline devices, run at the time [now], sets
    offline the entries of the cache that say online and were last seen more
    than 300000 ms before, and no other: such an entry is replaced by one
    that says offline and holds the time of the sweep as the time the device
    was last seen, and the row of the device in the store is set offline,
    its [last_seen] staying. An entry last seen exactly 300000 ms before is
    left. The commands, the locations and the alerts are not touched. *)
Theorem checkOfflineDevices_marks_timed_out_entries (now : N)
    (st : DatabaseService.DB * gmap (option string) DeviceManager.Status) :
  let st' := DeviceManager.checkOfflineDevices now st in
  (forall imei,
     st'.2 !! imei
     = match st.2 !! imei with
       | Some status =>
           if DeviceManager.timedOut now status then Some (offlineStatus now)
           else Some status
       | None => None
       end)
  /\ (forall imei,
        DatabaseService.devices st'.1 !! imei
        = match st.2 !! Some imei with
          | Some status =>
              if DeviceManager.timedOut now status
              then offlineRow <$> DatabaseService.devices st.1 !! imei
              else DatabaseService.devices st.1 !! imei
          | None => DatabaseService.devices st.1 !! imei
          end)
  /\ (forall imei t,
        (DeviceManager.st_lastSeen <$> st.2 !! imei) = Some (Some t) ->
        DeviceManager.since now t = 300000 ->
        st'.2 !! imei = st.2 !! imei)
  /\ DatabaseService.commands st'.1 = DatabaseService.commands st.1
  /\ DatabaseService.locations st'.1 = DatabaseService.locations st.1
  /\ DatabaseService.alerts st'.1 = DatabaseService.alerts st.1.
Proof.
  cbv zeta. unfold DeviceManager.checkOfflineDevices.
  destruct (setDevicesOffline_spec now
              (map_fold
                 (fun imei status found =>
                    if DeviceManager.timedOut now status then imei :: found else found)
                 [] st.2) st)
    as (Hcache & Hrows & Hcommands & Hlocations & Halerts).
  assert (Hall : forall imei,
            (foldr (fun imei st => DeviceManager.setDeviceOnline imei false now st) st
               (map_fold
                  (fun imei status found =>
                     if DeviceManager.timedOut now status then imei :: found else found)
                  [] st.2)).2 !! imei
            = match st.2 !! imei with
              | Some status =>
                  if DeviceManager.timedOut now status then Some (offlineStatus now)
                  else Some status
              | None => None
              end).
  { intros imei. rewrite Hcache. case_decide as Hin.
    - apply offlineDevices_spec in Hin as (status & -> & ->). reflexivity.
    - destruct (st.2 !! imei) as [status|] eqn:Hst; [| reflexivity].
      destruct (DeviceManager.timedOut now status) eqn:Ht; [| reflexivity].
      destruct Hin. apply offlineDevices_spec. by exists status. }
  split; [exact Hall |]. split; [| split; [| done]].
  - intros imei. rewrite Hrows. case_decide as Hin.
    + apply offlineDevices_spec in Hin as (status & -> & ->). reflexivity.
    + destruct (st.2 !! Some imei) as [status|] eqn:Hst; [| reflexivity].
      destruct (DeviceManager.timedOut now status) eqn:Ht; [| reflexivity].
      destruct Hin. apply offlineDevices_spec. by exists status.
  - intros imei t Hseen Hsince. rewrite Hall.
    destruct (st.2 !! imei) as [status|]; [| reflexivity].
    injection Hseen as Hseen.
    unfold DeviceManager.timedOut. rewrite Hseen, Hsince.
    by destruct (DeviceManager.st_online status) as [[]|].
Qed.

(** A device last seen at 1 ms, swept at 300001 ms and at 300002 ms. *)
Lemma checkOfflineDevices_marks_timed_out_entries_witness :
  let entry := DeviceManager.mkStatus (Some true) (Some 1%N) (Some 1%N) None None in
  let st := (DatabaseService.mkDB ∅ ∅ [] [], {[ Some "359710045490084" := entry ]}) in
  (DeviceManager.checkOfflineDevices 300001 st).2 !! Some "359710045490084" = Some entry
  /\ (DeviceManager.checkOfflineDevices 300002 st).2 !! Some "359710045490084"
     = Some (offlineStatus 300002).
Proof.
  cbv zeta. split.
  - destruct (checkOfflineDevices_marks_timed_out_entries 300001
                (DatabaseService.mkDB ∅ ∅ [] [],
                 {[ Some "359710045490084" :=
                      DeviceManager.mkStatus (Some true) (Some 1%N) (Some 1%N) None None ]}))
      as (_ & _ & H & _).
    rewrite (H (Some "359710045490084") 1%N); reflexivity.
  - destruct (checkOfflineDevices_marks_timed_out_entries 300002
                (DatabaseService.mkDB ∅ ∅ [] [],
                 {[ Some "359710045490084" :=
                      DeviceManager.mkStatus (Some true) (Some 1%N) (Some 1%N) None None ]}))
      as (H & _).
    rewrite H. reflexivity.
Defined.

(** X26: a device that has been set offline, by the sweep or by the end
    of a connection, and then sends a heartbeat on a session that is still
    authenticated: the device cache says that it is online again, while the
    store keeps saying that it is offline, since the statement that records a
    heartbeat does not write the [online] column. *)
Theorem heartbeat_after_offline_splits_cache_and_store (imei : string) (now t : N)
    (st : DatabaseService.DB * gmap (option string) DeviceManager.Status)
    (row : DatabaseService.DeviceRow) :
  DatabaseService.devices st.1 !! imei = Some row ->
  let st' :=
    DeviceManager.updateLastHeartbeat (Some imei) t
      (DeviceManager.setDeviceOnline (Some imei) false now st) in
  DeviceManager.isDeviceOnline (Some imei) st'.2 = Some true
  /\ DatabaseService.devices st'.1 !! imei
     = Some (DatabaseService.mkDeviceRow (DatabaseService.id row)
               (DatabaseService.active row) false (DatabaseService.last_seen row) (Some t)
               (DatabaseService.last_login row)).
Proof.
  intros Hrow. cbv zeta. split.
  - unfold DeviceManager.isDeviceOnline, DeviceManager.updateLastHeartbeat. cbn [snd].
    by rewrite lookup_insert_eq.
  - cbn. by rewrite !lookup_alter_eq, Hrow.
Qed.

(** The device of the scenario, set offline at 10 ms, with a heartbeat at
    20 ms. *)
Lemma heartbeat_after_offline_splits_cache_and_store_witness :
  let st' :=
    DeviceManager.updateLastHeartbeat (Some Scenario.imei) 20
      (DeviceManager.setDeviceOnline (Some Scenario.imei) false 10 (Scenario.store, ∅)) in
  DeviceManager.isDeviceOnline (Some Scenario.imei) st'.2 = Some true
  /\ DatabaseService.devices st'.1 !! Scenario.imei
     = Some (DatabaseService.mkDeviceRow 7 true false None (Some 20%N) None).
Proof.
  exact (heartbeat_after_offline_splits_cache_and_store Scenario.imei 10 20
           (Scenario.store, ∅)
           (DatabaseService.mkDeviceRow 7 true false None None None) eq_refl).
Defined.

(** X27: the cleanup of the device cache, run at the time [now], deletes
    the entries whose [lastUpdate] is more than 3600000 ms old and leaves
    every other entry as it is. An entry without [lastUpdate], which is what
    a heartbeat or a login creates for an IMEI that has no entry, is never
    deleted, however old. *)
Theorem cleanupStatusCache_deletes_expired_entries (now : N)
    (cache : gmap (option string) DeviceManager.Status) (imei : option string) :
  DeviceManager.cleanupStatusCache now cache !! imei
  = match cache !! imei with
    | Some status => if DeviceManager.expired now status then None else Some status
    | None => None
    end
  /\ (forall status,
        cache !! imei = Some status ->
        DeviceManager.st_lastUpdate status = None ->
        DeviceManager.cleanupStatusCache now cache !! imei = Some status)
  /\ (forall (db : DatabaseService.DB) (t : N),
        cache !! imei = None ->
        DeviceManager.cleanupStatusCache now
          (DeviceManager.updateLastHeartbeat imei t (db, cache)).2 !! imei
        = Some (DeviceManager.mkStatus (Some true) (Some t) None (Some t) None)).
Proof.
  assert (Hall : forall (m : gmap (option string) DeviceManager.Status) k,
            DeviceManager.cleanupStatusCache now m !! k
            = match m !! k with
              | Some status => if DeviceManager.expired now status then None else Some status
              | None => None
              end).
  { intros m k. unfold DeviceManager.cleanupStatusCache.
    enough (H : forall base : gmap (option string) DeviceManager.Status,
               map_fold
                 (fun imei status cache =>
                    if DeviceManager.expired now status then delete imei cache else cache)
                 base m !! k
               = match m !! k with
                 | Some status =>
                     if DeviceManager.expired now status then None else base !! k
                 | None => base !! k
                 end).
    { rewrite H. by destruct (m !! k). }
    intros base.
    apply (map_fold_weak_ind
             (fun (r m : gmap (option string) DeviceManager.Status) =>
                r !! k
                = match m !! k with
                  | Some status =>
                      if DeviceManager.expired now status then None else base !! k
                  | None => base !! k
                  end)).
    - by rewrite lookup_empty.
    - intros i x m0 r Hi IH.
      destruct (decide (k = i)) as [-> | Hne].
      + rewrite lookup_insert_eq. rewrite Hi in IH.
        destruct (DeviceManager.expired now x); [apply lookup_delete_eq | exact IH].
      + rewrite lookup_insert_ne by done.
        destruct (DeviceManager.expired now x); [| exact IH].
        by rewrite lookup_delete_ne. }
  split; [apply Hall |]. split.
  - intros status Hst Hnone. rewrite Hall, Hst.
    unfold DeviceManager.expired. by rewrite Hnone.
  - intros db t Hnone. rewrite Hall.
    unfold DeviceManager.updateLastHeartbeat. cbn [snd].
    rewrite lookup_insert_eq, Hnone. reflexivity.
Qed.

(** An entry that a heartbeat created at 0 ms, at a cleanup ten hours
    later. *)
Lemma cleanupStatusCache_deletes_expired_entries_witness :
  DeviceManager.cleanupStatusCache 36000000
    (DeviceManager.updateLastHeartbeat (Some Scenario.imei) 0 (Scenario.store, ∅)).2
    !! Some Scenario.imei
  = Some (DeviceManager.mkStatus (Some true) (Some 0%N) None (Some 0%N) None).
Proof.
  destruct (cleanupStatusCache_deletes_expired_entries 36000000 ∅ (Some Scenario.imei))
    as (_ & _ & H).
  apply (H Scenario.store 0%N). reflexivity.
Defined.

(** * Properties of the logger and of the consumer *)

Lemma levels_cases (name : string) :
  Logger.levels name = Logger.Number 0 /\ name = "error"
  \/ Logger.levels name = Logger.Number 1
  \/ Logger.levels name = Logger.Number 2
  \/ Logger.levels name = Logger.Number 3
  \/ Logger.levels name = Logger.Inherited
  \/ Logger.levels name = Logger.Undefined.
Proof.
  unfold Logger.levels.
  destruct (String.eqb name "error") eqn:He; [apply String.eqb_eq in He; tauto |].
  repeat (match goal with |- context [if ?b then _ else _] => destruct b end; [tauto |]).
  tauto.
Qed.

(** X28: a logger that has just been constructed emits errors and
    warnings whatever level it was given, by the options or by [LOG_LEVEL]:
    the level [error], whose number is 0, is taken for a missing level and
    stands for [info], so that warnings and messages of level [info] are
    emitted too. Only [setLogLevel] makes a logger emit errors alone. *)
Theorem constructed_logger_emits_warnings (optionsLogLevel envLogLevel : option string)
    (message : string) :
  Logger.emitted (Logger.error message (Logger.new optionsLogLevel envLogLevel))
    = [("error", message)]
  /\ Logger.emitted (Logger.warn message (Logger.new optionsLogLevel envLogLevel))
     = [("warn", message)]
  /\ Logger.emitted (Logger.info message (Logger.new (Some "error") envLogLevel))
     = [("info", message)]
  /\ Logger.emitted
       (Logger.warn message
          (Logger.setLogLevel "error" (Logger.new optionsLogLevel envLogLevel)))
     = [].
Proof.
  assert (Hlevel : forall l,
            Logger.currentLevel (Logger.new optionsLogLevel envLogLevel) = l ->
            Logger.gt (Logger.Number 0) l = false /\ Logger.gt (Logger.Number 1) l = false).
  { unfold Logger.new. cbn [Logger.currentLevel].
    generalize (if truthy optionsLogLevel then default "" optionsLogLevel
                else if truthy envLogLevel then default "" envLogLevel else "info").
    intros name l <-.
    destruct (levels_cases name) as [[-> _] | [-> | [-> | [-> | [-> | ->]]]]]; by split. }
  destruct (Hlevel _ eq_refl) as [H0 H1].
  split; [| split; [| split]].
  - unfold Logger.error, Logger.log. cbn [Logger.levels String.eqb Ascii.eqb Bool.eqb].
    by rewrite H0.
  - unfold Logger.warn, Logger.log. cbn [Logger.levels String.eqb Ascii.eqb Bool.eqb].
    by rewrite H1.
  - reflexivity.
  - reflexivity.
Qed.

Lemma delays_bounds (runs : list Consumer.Run) (backoff : Z) :
  1000 <= backoff <= 30000 ->
  Forall (fun delay => 1000 <= delay <= 30000) (Consumer.delays runs backoff).
Proof.
  revert backoff. induction runs as [|run runs IH]; intros backoff Hb; [constructor |].
  cbn [Consumer.delays]. constructor.
  - destruct run; lia.
  - apply IH. destruct run; lia.
Qed.

Lemma delays_failed (n : nat) (backoff : Z) (k : nat) :
  0 < backoff <= 30000 -> (k < n)%nat ->
  Consumer.delays (replicate n Consumer.Failed) backoff !! k
  = Some (Z.min (backoff * 2 ^ Z.of_nat k) 30000).
Proof.
  revert backoff k. induction n as [|n IH]; intros backoff k Hb Hk; [lia |].
  cbn [replicate Consumer.delays]. destruct k as [|k]; cbn [lookup list_lookup].
  - f_equal. change (2 ^ Z.of_nat 0) with 1. lia.
  - rewrite IH by lia. f_equal.
    rewrite Nat2Z.inj_succ, Z.pow_succ_r by lia.
    destruct (Z.le_gt_cases (backoff * 2) 30000) as [Hle | Hgt].
    + rewrite (Z.min_l (backoff * 2)) by lia. f_equal. lia.
    + rewrite (Z.min_r (backoff * 2)) by lia.
      assert (1 <= 2 ^ Z.of_nat k) by (apply Z.pow_le_mono_r with (b := 0); lia).
      rewrite !Z.min_r; [reflexivity | nia | nia].
Qed.

(** X29: the consumer waits at least 1000 ms and at most 30000 ms before
    it connects to the broker again, whatever ends its runs; the wait after
    a connection that closed is 1000 ms, and the wait after the [k]-th of a
    row of failures is 1000 ms doubled [k] times and capped at 30000 ms. *)
Theorem reconnection_delays_are_bounded (runs : list Consumer.Run) :
  Forall (fun delay => 1000 <= delay <= 30000) (Consumer.start runs)
  /\ (forall k, runs !! k = Some Consumer.Closed -> Consumer.start runs !! k = Some 1000)
  /\ (forall n k, runs = replicate n Consumer.Failed -> (k < n)%nat ->
        Consumer.start runs !! k = Some (Z.min (1000 * 2 ^ Z.of_nat k) 30000)).
Proof.
  split; [apply delays_bounds; lia |]. split.
  - unfold Consumer.start. generalize 1000 at 1. intros backoff. revert backoff.
    induction runs as [|run runs IH]; intros backoff k Hk; [by destruct k |].
    destruct k as [|k]; cbn in Hk |- *.
    + by injection Hk as ->.
    + by apply IH.
  - intros n k -> Hk. apply delays_failed; lia.
Qed.

(** Four failures in a row, then a connection that closes, then one more
    failure. *)
Lemma reconnection_delays_are_bounded_witness :
  Consumer.start
    [Consumer.Failed; Consumer.Failed; Consumer.Failed; Consumer.Failed; Consumer.Closed;
     Consumer.Failed] !! 4%nat
  = Some 1000
  /\ Consumer.start (replicate 7 Consumer.Failed) !! 5%nat = Some 30000.
Proof.
  split.
  - apply (reconnection_delays_are_bounded
             [Consumer.Failed; Consumer.Failed; Consumer.Failed; Consumer.Failed;
              Consumer.Closed; Consumer.Failed]).
    reflexivity.
  - destruct (reconnection_delays_are_bounded (replicate 7 Consumer.Failed)) as (_ & _ & H).
    apply (H 7%nat 5%nat); [reflexivity | lia].
Defined.

(** ** The rotation of the log files *)

Lemma elem_of_List_filter {A} (f : A -> bool) (l : list A) (x : A) :
  x ∈ List.filter f l <-> x ∈ l /\ f x = true.
Proof. rewrite !list_elem_of_In. apply filter_In. Qed.

Lemma insertByMtime_perm (f : Logger.File) (files : list Logger.File) :
  Logger.insertByMtime f files ≡ₚ f :: files.
Proof.
  induction files as [|g files IH]; cbn [Logger.insertByMtime]; [reflexivity |].
  destruct (Logger.mtime g <=? Logger.mtime f); [reflexivity |].
  rewrite IH. apply perm_swap.
Qed.

Lemma sortByMtime_perm (files : list Logger.File) : Logger.sortByMtime files ≡ₚ files.
Proof.
  induction files as [|f files IH]; cbn; [reflexivity |].
  fold (Logger.sortByMtime files). by rewrite insertByMtime_perm, IH.
Qed.

Lemma insertByMtime_newestFirst (f : Logger.File) (files : list Logger.File) :
  newestFirst files -> newestFirst (Logger.insertByMtime f files).
Proof.
  induction files as [|g files IH]; cbn [Logger.insertByMtime newestFirst].
  - intros _. by split.
  - intros [Hg Hfiles].
    destruct (Logger.mtime g <=? Logger.mtime f) eqn:Hle; cbn [newestFirst].
    + apply Z.leb_le in Hle. split; [| by split].
      constructor; [exact Hle |].
      eapply Forall_impl; [exact Hg |]. cbn. intros h Hh. lia.
    + apply Z.leb_gt in Hle. split; [| by apply IH].
      rewrite insertByMtime_perm. constructor; [lia | exact Hg].
Qed.

Lemma sortByMtime_newestFirst (files : list Logger.File) :
  newestFirst (Logger.sortByMtime files).
Proof.
  induction files as [|f files IH]; cbn; [exact I |].
  by apply insertByMtime_newestFirst.
Qed.

Lemma newestFirst_app (older newer : list Logger.File) (f g : Logger.File) :
  newestFirst (newer ++ older) -> f ∈ newer -> g ∈ older ->
  Logger.mtime g <= Logger.mtime f.
Proof.
  induction newer as [|h newer IH]; cbn [app newestFirst];
    [by intros _ ?%elem_of_nil |].
  intros [Hh Hrest] [-> | Hf]%elem_of_cons Hg.
  - rewrite Forall_forall in Hh. apply Hh. apply elem_of_app. by right.
  - by apply IH.
Qed.

Lemma unlink_all (deleted dir : list Logger.File) (f : Logger.File) :
  f ∈ fold_left (fun dir file => Logger.unlink (Logger.name file) dir) deleted dir
  <-> f ∈ dir /\ forall g, g ∈ deleted -> Logger.name g <> Logger.name f.
Proof.
  revert dir. induction deleted as [|h deleted IH]; intros dir; cbn [fold_left].
  - split; [intros H; split; [exact H | by intros g ?%elem_of_nil] | by intros [H _]].
  - rewrite IH. unfold Logger.unlink. rewrite elem_of_List_filter.
    rewrite negb_true_iff, String.eqb_neq. split.
    + intros [[Hf Hh] Hrest]. split; [exact Hf |].
      intros g [-> | Hg]%elem_of_cons; [congruence | by apply Hrest].
    + intros [Hf Hall]. split; [split; [exact Hf |] |].
      * intros Heq. apply (Hall h); [apply elem_of_cons; by left | done].
      * intros g Hg. apply Hall. apply elem_of_cons. by right.
Qed.

Lemma unlink_all_NoDup (deleted dir : list Logger.File) :
  NoDup dir ->
  NoDup (fold_left (fun dir file => Logger.unlink (Logger.name file) dir) deleted dir).
Proof.
  revert dir. induction deleted as [|h deleted IH]; intros dir Hdir; [exact Hdir |].
  cbn [fold_left]. apply IH. unfold Logger.unlink.
  induction Hdir as [|x l Hx Hl IHl]; cbn [List.filter]; [constructor |].
  destruct (negb _); [| exact IHl].
  constructor; [| exact IHl]. rewrite elem_of_List_filter. tauto.
Qed.

Lemma List_filter_NoDup {A} (f : A -> bool) (l : list A) :
  NoDup l -> NoDup (List.filter f l).
Proof.
  induction 1 as [|x l Hx Hl IH]; cbn [List.filter]; [constructor |].
  destruct (f x); [| exact IH].
  constructor; [| exact IH]. rewrite elem_of_List_filter. tauto.
Qed.

Lemma same_name_same_file (dir : list Logger.File) (f g : Logger.File) :
  NoDup (Logger.name <$> dir) -> f ∈ dir -> g ∈ dir ->
  Logger.name f = Logger.name g -> f = g.
Proof.
  induction dir as [|h dir IH]; [by intros _ ?%elem_of_nil |].
  rewrite fmap_cons. intros [Hh Hdir]%NoDup_cons [-> | Hf]%elem_of_cons [-> | Hg]%elem_of_cons
    Hname.
  - reflexivity.
  - destruct Hh. rewrite Hname. by apply list_elem_of_fmap_2.
  - destruct Hh. rewrite <- Hname. by apply list_elem_of_fmap_2.
  - by apply IH.
Qed.

(** X30: the cleaning of the log directory, whose files have distinct
    names, only deletes files: it leaves every file whose name does not begin
    with [tcp-server-] and end with [.log]; of the files so named it leaves
    at most [maxLogFiles], and none of those it deletes is newer than one of
    those it leaves. *)
Theorem cleanOldLogs_keeps_the_newest (maxLogFiles : nat) (dir : list Logger.File) :
  NoDup (Logger.name <$> dir) ->
  let dir' := Logger.cleanOldLogs maxLogFiles dir in
  (forall f, f ∈ dir' -> f ∈ dir)
  /\ (forall f, f ∈ dir -> Logger.isLogFile (Logger.name f) = false -> f ∈ dir')
  /\ (length (List.filter (fun f => Logger.isLogFile (Logger.name f)) dir')
      <= maxLogFiles)%nat
  /\ (forall f g,
        f ∈ dir' -> Logger.isLogFile (Logger.name f) = true ->
        g ∈ dir -> g ∉ dir' ->
        Logger.mtime g <= Logger.mtime f).
Proof.
  intros Hnames. cbv zeta. unfold Logger.cleanOldLogs.
  set (files := Logger.sortByMtime
                  (List.filter (fun f => Logger.isLogFile (Logger.name f)) dir)).
  assert (Hfiles : forall f, f ∈ files <-> f ∈ dir /\ Logger.isLogFile (Logger.name f) = true).
  { intros f. subst files. rewrite sortByMtime_perm.
    apply (elem_of_List_filter (fun f => Logger.isLogFile (Logger.name f))). }
  assert (Hsorted : newestFirst (take maxLogFiles files ++ drop maxLogFiles files))
    by (rewrite take_drop; apply sortByMtime_newestFirst).
  assert (Hnodup : NoDup dir) by (by eapply NoDup_fmap_1).
  destruct (maxLogFiles <? length files)%nat eqn:Hmax.
  - set (dir' := fold_left (fun dir file => Logger.unlink (Logger.name file) dir)
                   (drop maxLogFiles files) dir).
    assert (Hkept : forall f, f ∈ dir' -> Logger.isLogFile (Logger.name f) = true ->
                              f ∈ take maxLogFiles files).
    { intros f [Hf Hall]%unlink_all Hlog.
      assert (Hin : f ∈ files) by (by apply Hfiles).
      rewrite <- (take_drop maxLogFiles files) in Hin.
      apply elem_of_app in Hin as [Hin | Hin]; [exact Hin |].
      by destruct (Hall f Hin). }
    split; [intros f [Hf _]%unlink_all; exact Hf |]. split; [| split].
    + intros f Hf Hlog. apply unlink_all. split; [exact Hf |].
      intros g Hg Hname.
      assert (Hg' : g ∈ files).
      { rewrite <- (take_drop maxLogFiles files). apply elem_of_app. by right. }
      apply Hfiles in Hg' as [_ Hg']. congruence.
    + transitivity (length (take maxLogFiles files)); [| rewrite length_take; lia].
      apply submseteq_length, NoDup_submseteq.
      * apply List_filter_NoDup. by apply unlink_all_NoDup.
      * intros f Hf.
        apply (elem_of_List_filter (fun f => Logger.isLogFile (Logger.name f))) in Hf
          as [Hf Hlog].
        by apply Hkept.
    + intros f g Hf Hlog Hg Hgone.
      apply (newestFirst_app (drop maxLogFiles files) (take maxLogFiles files));
        [exact Hsorted | by apply Hkept |].
      assert (Hex : Exists (fun h => Logger.name h = Logger.name g) (drop maxLogFiles files)).
      { destruct (decide (Exists (fun h => Logger.name h = Logger.name g)
                            (drop maxLogFiles files))) as [He | He]; [exact He |].
        destruct Hgone. apply unlink_all. split; [exact Hg |].
        intros h Hh Hname. apply He, Exists_exists. by exists h. }
      apply Exists_exists in Hex as (h & Hh & Hname).
      assert (Hh' : h ∈ files).
      { rewrite <- (take_drop maxLogFiles files). apply elem_of_app. by right. }
      apply Hfiles in Hh' as [Hh' _].
      by rewrite <- (same_name_same_file dir h g Hnames Hh' Hg Hname).
  - apply Nat.ltb_ge in Hmax.
    split; [done |]. split; [done |]. split; [| by intros f g _ _ Hg Hgone].
    transitivity (length files); [| exact Hmax].
    subst files. by rewrite sortByMtime_perm.
Qed.

(** Three log files and a file of notes, two log files being kept: the
    oldest log file is deleted and the notes stay. *)
Lemma cleanOldLogs_keeps_the_newest_witness :
  let dir := [Logger.mkFile "tcp-server-a.log" 1; Logger.mkFile "notes.txt" 0;
              Logger.mkFile "tcp-server-b.log" 3; Logger.mkFile "tcp-server-c.log" 2] in
  Logger.mkFile "notes.txt" 0 ∈ Logger.cleanOldLogs 2 dir
  /\ (length (List.filter (fun f => Logger.isLogFile (Logger.name f))
                (Logger.cleanOldLogs 2 dir)) <= 2)%nat.
Proof.
  cbv zeta.
  destruct (cleanOldLogs_keeps_the_newest 2
              [Logger.mkFile "tcp-server-a.log" 1; Logger.mkFile "notes.txt" 0;
               Logger.mkFile "tcp-server-b.log" 3; Logger.mkFile "tcp-server-c.log" 2])
    as (_ & Hother & Hcount & _).
  - apply (bool_decide_unpack _). vm_compute. reflexivity.
  - split; [| exact Hcount].
    apply Hother; [| reflexivity].
    apply elem_of_cons; right. apply elem_of_cons; by left.
Defined.
